(** * PoultryPal: the batch count and allocation ledger

    A shallow embedding of [API/src/batch/batch.controller.js] together with
    the mongoose models it uses ([batch.model.js], [house.model.js],
    [birdCountHistory.model.js]).

    - A collection is a list of documents in insertion order.  The position
      of a document in the list plays the role of MongoDB's [_id]: a loaded
      document is a pair of its position and its fields, [save] writes the
      fields back at that position, and a new document is appended.  The
      controller never removes an allocation or a history entry.
    - Numbers are integers ([Z]); the identifiers are strings.
    - A request handler is a computation over the store that may answer
      early ([return res.status(..).json(..)]); see [Handler]. *)

From stdpp Require Import base tactics option list strings.
From Stdlib Require Import ZArith Lia.

Local Open Scope string_scope.
Local Open Scope Z_scope.
Local Open Scope list_scope.

(** ** Documents *)

Module Batch.
(** [batchSchema]; the descriptive fields other than [name] (arrival date,
    age, chicken type, supplier) play no part in the ledger. *)
Record doc := mk {
  id : string;
  farmId : string;
  name : string;
  originalCount : Z;
  dead : Z;
  culled : Z;
  offlaid : Z;
  isArchived : bool
}.

(** [batchSchema.virtual('currentCount')] *)
Definition currentCount (b : doc) : Z :=
  originalCount b - (dead b + culled b + offlaid b).
End Batch.

Module House.
(** [houseSchema]; [capacity] is optional. *)
Record doc := mk {
  id : string;
  farmId : string;
  name : string;
  capacity : option Z
}.
End House.

Module BatchAllocation.
(** [batchAllocationSchema] *)
Record doc := mk {
  id : string;
  batchId : string;
  houseId : string;
  quantity : Z
}.

Definition setQuantity (q : Z) (a : doc) : doc :=
  mk (id a) (batchId a) (houseId a) q.
End BatchAllocation.

Module BirdCountHistory.
(** The [beforeState] / [afterState] sub-documents. *)
Record snapshot := mkSnapshot {
  s_dead : Z;
  s_culled : Z;
  s_offlaid : Z;
  s_currentCount : Z
}.

(** [birdCountHistorySchema] *)
Record doc := mk {
  id : string;
  batchId : string;
  farmId : string;
  userId : string;
  userName : string;
  dead : Z;
  culled : Z;
  offlaid : Z;
  reason : string;
  notes : string;
  beforeState : snapshot;
  afterState : snapshot
}.
End BirdCountHistory.

Module User.
(** [req.user]; [farmId] may be absent. *)
Record t := mk {
  id : string;
  farmId : option string;
  firstName : string;
  lastName : string
}.
End User.

(** ** The store: the four collections the controller touches *)

Record Store := mkStore {
  batches : list Batch.doc;
  houses : list House.doc;
  allocations : list BatchAllocation.doc;
  history : list BirdCountHistory.doc
}.

Definition setBatches (l : list Batch.doc) (st : Store) : Store :=
  mkStore l (houses st) (allocations st) (history st).
Definition setAllocations (l : list BatchAllocation.doc) (st : Store) : Store :=
  mkStore (batches st) (houses st) l (history st).
Definition setHistory (l : list BirdCountHistory.doc) (st : Store) : Store :=
  mkStore (batches st) (houses st) (allocations st) l.

(** ** Responses *)

Inductive Body :=
| Message (message : string)
| ServerError (error : string)
| Availability (batchId batchName : string)
    (originalCount dead culled offlaid currentCount
     allocatedCount unallocatedCount : Z)
| CountsExceeded (currentTotal originalCount requestedAddition : Z)
| CountsUpdated (batch : Batch.doc) (dead culled offlaid : Z)
    (historyId : string)
| NotEnoughUnallocated
    (currentCount allocatedCount unallocatedCount requestedQuantity : Z)
| OccupancyExceeded
    (houseCapacity currentOccupancy requestedAddition availableSpace : Z)
| BatchDoc (b : Batch.doc)
| BatchList (l : list Batch.doc)
| BatchListWithCounts (l : list (Batch.doc * Z * Z))
| AllocationDoc (a : BatchAllocation.doc)
| AllocationList (l : list BatchAllocation.doc)
| Transferred (from to : BatchAllocation.doc)
| HistoryList (l : list BirdCountHistory.doc).

Record Response := mkResponse { status : Z; body : Body }.

(** The failure classes of the interface, read off the HTTP status and the
    payload the controller sends. *)
Inductive Failure :=
| NotFound | Forbidden | InvalidInput | ConstraintViolation
| InsufficientUnallocated | InsufficientBirds | CapacityExceeded
| InternalError.

Definition capacityMessages : list string :=
  [ "Allocation exceeds house capacity";
    "Updated quantity exceeds house capacity";
    "Transfer exceeds destination house capacity" ].

Definition failure (r : Response) : option Failure :=
  if bool_decide (status r = 404) then Some NotFound
  else if bool_decide (status r = 403) then Some Forbidden
  else if bool_decide (status r = 500) then Some InternalError
  else if bool_decide (status r = 400) then
    match body r with
    | CountsExceeded _ _ _ => Some ConstraintViolation
    | NotEnoughUnallocated _ _ _ _ => Some InsufficientUnallocated
    | OccupancyExceeded _ _ _ _ => Some CapacityExceeded
    | Message m =>
        if bool_decide (m ∈ capacityMessages) then Some CapacityExceeded
        else if bool_decide (m = "Insufficient birds to transfer")
             then Some InsufficientBirds
             else Some InvalidInput
    | _ => Some InvalidInput
    end
  else None.

(** ** Handlers: state passing with early answers *)

Inductive Outcome (A : Type) :=
| Answer (r : Response)
| Value (a : A).
Arguments Answer {A} r.
Arguments Value {A} a.

Definition Handler (A : Type) : Type := Store → Store * Outcome A.

Definition ret {A} (a : A) : Handler A := λ st, (st, Value a).

(** [return res.status(code).json(body)] *)
Definition reply {A} (code : Z) (b : Body) : Handler A :=
  λ st, (st, Answer (mkResponse code b)).

Definition bind {A B} (m : Handler A) (k : A → Handler B) : Handler B :=
  λ st, match m st with
        | (st', Answer r) => (st', Answer r)
        | (st', Value a) => k a st'
        end.

Definition gets {A} (f : Store → A) : Handler A := λ st, (st, Value (f st)).
Definition modify (f : Store → Store) : Handler unit :=
  λ st, (f st, Value tt).

(** [if (cond) return res.status(code).json(body);] *)
Definition rejectIf (cond : bool) (code : Z) (b : Body) : Handler unit :=
  if cond then reply code b else ret tt.

(** [const x = await ...; if (!x) return res.status(code).json(body);] *)
Definition orReply {A} (o : option A) (code : Z) (b : Body) : Handler A :=
  match o with
  | Some a => ret a
  | None => reply code b
  end.

(** The handler as the router sees it: the store afterwards and the one
    response that was sent. *)
Definition run (h : Handler Response) (st : Store) : Store * Response :=
  match h st with
  | (st', Answer r) => (st', r)
  | (st', Value r) => (st', r)
  end.

Declare Scope handler_scope.
Delimit Scope handler_scope with handler.
Notation "'let*' x ':=' m 'in' k" := (bind m (λ x, k))
  (at level 10, x pattern, m at level 100, k at level 200) : handler_scope.
Notation "m ';;;' k" := (bind m (λ _, k))
  (at level 100, k at level 200, right associativity) : handler_scope.
Local Open Scope handler_scope.

(** ** Queries *)

(** [Batch.findOne({ id, farmId })], with the position of the match. *)
Definition Batch_findOne (bid farm : string) (st : Store)
  : option (nat * Batch.doc) :=
  list_find (λ b, Batch.id b = bid ∧ Batch.farmId b = farm) (batches st).

(** [House.findOne({ id, farmId })] *)
Definition House_findOne (hid farm : string) (st : Store)
  : option (nat * House.doc) :=
  list_find (λ h, House.id h = hid ∧ House.farmId h = farm) (houses st).

(** [BatchAllocation.findOne({ batchId, houseId })] *)
Definition Allocation_findOne (bid hid : string) (st : Store)
  : option (nat * BatchAllocation.doc) :=
  list_find (λ a, BatchAllocation.batchId a = bid
                  ∧ BatchAllocation.houseId a = hid) (allocations st).

(** [BatchAllocation.findOne({ id })] *)
Definition Allocation_findById (aid : string) (st : Store)
  : option (nat * BatchAllocation.doc) :=
  list_find (λ a, BatchAllocation.id a = aid) (allocations st).

(** [BatchAllocation.find({ batchId })] and [BatchAllocation.find({ houseId })] *)
Definition Allocation_findByBatch (bid : string) (st : Store)
  : list BatchAllocation.doc :=
  filter (λ a, BatchAllocation.batchId a = bid) (allocations st).
Definition Allocation_findByHouse (hid : string) (st : Store)
  : list BatchAllocation.doc :=
  filter (λ a, BatchAllocation.houseId a = hid) (allocations st).

(** [docs.reduce((sum, a) => sum + a.quantity, 0)] *)
Definition sumQuantity (l : list BatchAllocation.doc) : Z :=
  fold_left (λ sum a, sum + BatchAllocation.quantity a) l 0.

(** [batchSchema.methods.getAllocatedCount] *)
Definition getAllocatedCount (b : Batch.doc) : Handler Z :=
  let* allocations := gets (Allocation_findByBatch (Batch.id b)) in
  ret (sumQuantity allocations).

(** [batchSchema.methods.getUnallocatedCount] *)
Definition getUnallocatedCount (b : Batch.doc) : Handler Z :=
  let* allocatedCount := getAllocatedCount b in
  ret (Batch.currentCount b - allocatedCount).

(** [doc.save()] of a loaded allocation, and of a new one. *)
Definition Allocation_save (d : nat * BatchAllocation.doc) : Handler unit :=
  modify (λ st, setAllocations (<[d.1 := d.2]> (allocations st)) st).
Definition Allocation_create (a : BatchAllocation.doc) : Handler unit :=
  modify (λ st, setAllocations (allocations st ++ [a]) st).

(** [if (!user.farmId) return res.status(400)...]: an absent or empty
    [farmId] is falsy. *)
Definition requireFarm (user : User.t) : Handler string :=
  match User.farmId user with
  | Some farm =>
      if bool_decide (farm = "")
      then reply 400 (Message "User does not belong to a farm")
      else ret farm
  | None => reply 400 (Message "User does not belong to a farm")
  end.

(** ** Loss deltas: [updateBirdCounts] *)

(** [req.body] of [updateBirdCounts]; an absent field is [None].  A value
    that is present is an integer here, so of the source's test
    [x < 0 || !Number.isInteger(x)] only the sign can fail. *)
Record CountsBody := mkCounts {
  c_dead : option Z;
  c_culled : option Z;
  c_offlaid : option Z;
  c_reason : option string;
  c_notes : option string
}.

(** [x || 0] and [s || ''] *)
Definition orZero (x : option Z) : Z := default 0 x.
Definition orEmpty (s : option string) : string := default "" s.

(** [x !== undefined ? current + x : current], which is also what
    [$inc] does with the fields copied into [incrementUpdate]. *)
Definition plusDelta (current : Z) (x : option Z) : Z :=
  match x with
  | Some d => current + d
  | None => current
  end.

Definition isNegative (x : option Z) : bool :=
  match x with
  | Some d => bool_decide (d < 0)
  | None => false
  end.

Definition snapshotOf (b : Batch.doc) : BirdCountHistory.snapshot :=
  BirdCountHistory.mkSnapshot
    (Batch.dead b) (Batch.culled b) (Batch.offlaid b) (Batch.currentCount b).

(** What [{ $inc: incrementUpdate }] does to the document it is applied to. *)
Definition incCounts (body : CountsBody) (b : Batch.doc) : Batch.doc :=
  Batch.mk (Batch.id b) (Batch.farmId b) (Batch.name b)
    (Batch.originalCount b)
    (plusDelta (Batch.dead b) (c_dead body))
    (plusDelta (Batch.culled b) (c_culled body))
    (plusDelta (Batch.offlaid b) (c_offlaid body))
    (Batch.isArchived b).

(** [Batch.findOneAndUpdate({ id, farmId }, { $inc }, { new: true })]:
    one storage operation; the updated document is returned. *)
Definition Batch_findOneAndInc (bid farm : string) (body : CountsBody)
  : Handler (option Batch.doc) :=
  λ st, match Batch_findOne bid farm st with
        | Some (i, b) =>
            (setBatches (<[i := incCounts body b]> (batches st)) st,
             Value (Some (incCounts body b)))
        | None => (st, Value None)
        end.

(** Lines 233-276: input validation, the read of the batch and the check
    of the prospective totals; everything up to the [$inc]. *)
Definition countsCheck (user : User.t) (batchId : string) (body : CountsBody)
  : Handler (string * Batch.doc) :=
  let* farm := requireFarm user in
  rejectIf (bool_decide (c_dead body = None ∧ c_culled body = None
                         ∧ c_offlaid body = None))
    400 (Message
      "At least one count (dead, culled, or offlaid) must be provided") ;;;
  rejectIf (isNegative (c_dead body) || isNegative (c_culled body)
            || isNegative (c_offlaid body))
    400 (Message "Bird counts must be non-negative integers") ;;;
  let* found := gets (Batch_findOne batchId farm) in
  let* batch := orReply (snd <$> found)
                  404 (Message "Batch not found or unauthorized") in
  let newDead := plusDelta (Batch.dead batch) (c_dead body) in
  let newCulled := plusDelta (Batch.culled batch) (c_culled body) in
  let newOfflaid := plusDelta (Batch.offlaid batch) (c_offlaid body) in
  rejectIf (bool_decide (newDead + newCulled + newOfflaid
                         > Batch.originalCount batch))
    400 (CountsExceeded
           (Batch.dead batch + Batch.culled batch + Batch.offlaid batch)
           (Batch.originalCount batch)
           (orZero (c_dead body) + orZero (c_culled body)
            + orZero (c_offlaid body))) ;;;
  ret (farm, batch).

(** Lines 286-300: the atomic increment. *)
Definition countsIncrement (farm batchId : string) (body : CountsBody)
  : Handler Batch.doc :=
  let* updatedBatch := Batch_findOneAndInc batchId farm body in
  orReply updatedBatch 404 (Message "Batch not found or unauthorized").

(** Lines 302-320: the audit record.  [uuid] is the value [uuidv4] gives
    the new history entry. *)
Definition historyEntryOf (user : User.t) (farm : string) (body : CountsBody)
    (uuid : string) (batch updatedBatch : Batch.doc) : BirdCountHistory.doc :=
  BirdCountHistory.mk uuid (Batch.id batch) farm (User.id user)
    (User.firstName user +:+ " " +:+ User.lastName user)
    (orZero (c_dead body)) (orZero (c_culled body)) (orZero (c_offlaid body))
    (orEmpty (c_reason body)) (orEmpty (c_notes body))
    (snapshotOf batch) (snapshotOf updatedBatch).

(** Lines 322-333: saving the record and the answer. *)
Definition countsAudit (user : User.t) (farm : string) (body : CountsBody)
    (uuid : string) (batch updatedBatch : Batch.doc) : Handler Response :=
  let historyEntry := historyEntryOf user farm body uuid batch updatedBatch in
  modify (λ st, setHistory (history st ++ [historyEntry]) st) ;;;
  ret (mkResponse 200
         (CountsUpdated updatedBatch (orZero (c_dead body))
            (orZero (c_culled body)) (orZero (c_offlaid body))
            (BirdCountHistory.id historyEntry))).

Definition updateBirdCounts (user : User.t) (batchId : string)
    (body : CountsBody) (uuid : string) : Store → Store * Response :=
  run (let* (farm, batch) := countsCheck user batchId body in
       let* updatedBatch := countsIncrement farm batchId body in
       countsAudit user farm body uuid batch updatedBatch).

(** ** Availability: [getBatchAvailability] *)

Definition getBatchAvailability (user : User.t) (batchId : string)
  : Store → Store * Response :=
  run (let* farm := requireFarm user in
       let* found := gets (Batch_findOne batchId farm) in
       let* batch := orReply (snd <$> found) 404 (Message "Batch not found") in
       let* allocatedCount := getAllocatedCount batch in
       let* unallocatedCount := getUnallocatedCount batch in
       ret (mkResponse 200
              (Availability (Batch.id batch) (Batch.name batch)
                 (Batch.originalCount batch) (Batch.dead batch)
                 (Batch.culled batch) (Batch.offlaid batch)
                 (Batch.currentCount batch) allocatedCount
                 unallocatedCount))).

(** ** Allocations *)

(** [house.capacity && total > house.capacity]: the capacity that is
    exceeded, if any.  An absent capacity and a capacity of [0] are both
    falsy, so neither bounds anything. *)
Definition exceeded (capacity : option Z) (total : Z) : option Z :=
  match capacity with
  | Some c => if bool_decide (c ≠ 0 ∧ total > c) then Some c else None
  | None => None
  end.

(** [createBatchAllocation]; [uuid] is the id of the record it may create. *)
Definition createBatchAllocation (user : User.t) (batchId houseId : string)
    (quantity : Z) (uuid : string) : Store → Store * Response :=
  run (let* farm := requireFarm user in
       let* found := gets (Batch_findOne batchId farm) in
       let* batch := orReply (snd <$> found) 404 (Message "Batch not found") in
       let* allocatedCount := getAllocatedCount batch in
       let unallocatedCount := Batch.currentCount batch - allocatedCount in
       rejectIf (bool_decide (quantity > unallocatedCount))
         400 (NotEnoughUnallocated (Batch.currentCount batch) allocatedCount
                unallocatedCount quantity) ;;;
       let* foundHouse := gets (House_findOne houseId farm) in
       let* house := orReply (snd <$> foundHouse)
                       404 (Message "House not found or unauthorized") in
       let* existingAllocation := gets (Allocation_findOne batchId houseId) in
       let existingQuantity :=
         from_option (λ d, BatchAllocation.quantity d.2) 0
           existingAllocation in
       let totalQuantity := existingQuantity + quantity in
       rejectIf (bool_decide
                   (is_Some (exceeded (House.capacity house) totalQuantity)))
         400 (Message "Allocation exceeds house capacity") ;;;
       let* allHouseAllocations := gets (Allocation_findByHouse houseId) in
       let currentHouseOccupancy := sumQuantity allHouseAllocations in
       let newTotalOccupancy := currentHouseOccupancy + quantity in
       match exceeded (House.capacity house) newTotalOccupancy with
       | Some capacity =>
           reply 400 (OccupancyExceeded capacity currentHouseOccupancy
                        quantity (capacity - currentHouseOccupancy))
       | None =>
           match existingAllocation with
           | Some (i, existing) =>
               let allocation :=
                 BatchAllocation.setQuantity
                   (BatchAllocation.quantity existing + quantity) existing in
               Allocation_save (i, allocation) ;;;
               ret (mkResponse 201 (AllocationDoc allocation))
           | None =>
               let allocation :=
                 BatchAllocation.mk uuid batchId houseId quantity in
               Allocation_create allocation ;;;
               ret (mkResponse 201 (AllocationDoc allocation))
           end
       end).

(** [updateBatchAllocation] *)
Definition updateBatchAllocation (user : User.t) (allocationId : string)
    (quantity : Z) : Store → Store * Response :=
  run (let* farm := requireFarm user in
       let* found := gets (Allocation_findById allocationId) in
       let* (i, allocation) :=
         orReply found 404 (Message "Allocation not found") in
       let* foundBatch :=
         gets (Batch_findOne (BatchAllocation.batchId allocation) farm) in
       let* batch := orReply (snd <$> foundBatch)
                       403 (Message "Unauthorized to update this allocation") in
       let* foundHouse :=
         gets (House_findOne (BatchAllocation.houseId allocation) farm) in
       let* house := orReply (snd <$> foundHouse)
                       404 (Message "House not found or unauthorized") in
       rejectIf (bool_decide
                   (is_Some (exceeded (House.capacity house) quantity)))
         400 (Message "Updated quantity exceeds house capacity") ;;;
       let allocation' := BatchAllocation.setQuantity quantity allocation in
       Allocation_save (i, allocation') ;;;
       ret (mkResponse 200 (AllocationDoc allocation'))).

(** [transferBirds].  [fromAllocation] and [toAllocation] are two documents
    loaded by two queries; each [save] writes its own copy back.  In the
    branch that creates the destination record, [newAllocation] is declared
    with [const] inside the [else] block, so the response expression
    [toAllocation || newAllocation] raises a ReferenceError after both
    writes; the [catch] answers 500 with the error's message. *)
Definition transferBirds (user : User.t)
    (batchId fromHouseId toHouseId : string) (quantity : Z) (uuid : string)
  : Store → Store * Response :=
  run (let* farm := requireFarm user in
       let* found := gets (Batch_findOne batchId farm) in
       let* batch := orReply (snd <$> found)
                       404 (Message "Batch not found or unauthorized") in
       let* fromFound := gets (Allocation_findOne batchId fromHouseId) in
       let* (i, fromAllocation) :=
         orReply fromFound 400 (Message "Insufficient birds to transfer") in
       rejectIf (bool_decide (BatchAllocation.quantity fromAllocation
                              < quantity))
         400 (Message "Insufficient birds to transfer") ;;;
       let* foundHouse := gets (House_findOne toHouseId farm) in
       let* toHouse :=
         orReply (snd <$> foundHouse)
           404 (Message "Destination house not found or unauthorized") in
       let* toAllocation := gets (Allocation_findOne batchId toHouseId) in
       let currentToQuantity :=
         from_option (λ d, BatchAllocation.quantity d.2) 0 toAllocation in
       let totalToQuantity := currentToQuantity + quantity in
       rejectIf (bool_decide
                   (is_Some (exceeded (House.capacity toHouse)
                               totalToQuantity)))
         400 (Message "Transfer exceeds destination house capacity") ;;;
       let fromAllocation' :=
         BatchAllocation.setQuantity
           (BatchAllocation.quantity fromAllocation - quantity)
           fromAllocation in
       Allocation_save (i, fromAllocation') ;;;
       match toAllocation with
       | Some (j, existing) =>
           let toAllocation' :=
             BatchAllocation.setQuantity
               (BatchAllocation.quantity existing + quantity) existing in
           Allocation_save (j, toAllocation') ;;;
           ret (mkResponse 200 (Transferred fromAllocation' toAllocation'))
       | None =>
           let newAllocation :=
             BatchAllocation.mk uuid batchId toHouseId quantity in
           Allocation_create newAllocation ;;;
           reply 500 (ServerError "newAllocation is not defined")
       end).

(** ** Read-only listings *)

(** [.sort({ createdAt: -1 })]: documents are stored in creation order. *)
Definition getBatchAllocations (user : User.t) (batchId : string)
  : Store → Store * Response :=
  run (let* farm := requireFarm user in
       let* found := gets (Batch_findOne batchId farm) in
       let* batch := orReply (snd <$> found) 404 (Message "Batch not found") in
       let* allocations := gets (Allocation_findByBatch batchId) in
       ret (mkResponse 200 (AllocationList (reverse allocations)))).

Definition getHouseBatchAllocations (user : User.t) (houseId : string)
  : Store → Store * Response :=
  run (let* farm := requireFarm user in
       let* found := gets (House_findOne houseId farm) in
       let* house := orReply (snd <$> found)
                       404 (Message "House not found or unauthorized") in
       let* allocations := gets (Allocation_findByHouse houseId) in
       ret (mkResponse 200 (AllocationList (reverse allocations)))).

(** [getBirdCountHistory]: most recent first, at most 50 entries. *)
Definition getBirdCountHistory (user : User.t) (batchId : string)
  : Store → Store * Response :=
  run (let* farm := requireFarm user in
       let* found := gets (Batch_findOne batchId farm) in
       let* batch := orReply (snd <$> found)
                       404 (Message "Batch not found or unauthorized") in
       let* entries :=
         gets (λ st, filter (λ e, BirdCountHistory.batchId e = batchId)
                       (history st)) in
       ret (mkResponse 200 (HistoryList (take 50 (reverse entries))))).

(** ** Batches: [getBatches], [createBatch], [getBatchById], [updateBatch],
    [deleteBatch] *)

(** [getBatches]; [includeAllocations] is
    [req.query.includeAllocations === 'true'].  With it, every batch comes
    with its [allocatedCount] and [unallocatedCount]. *)
Definition getBatches (user : User.t) (includeAllocations : bool)
  : Store → Store * Response :=
  run (let* farm := requireFarm user in
       let* found :=
         gets (λ st, reverse
                       (filter (λ b, Batch.farmId b = farm) (batches st))) in
       if includeAllocations then
         let batchIds := Batch.id <$> found in
         let* allAllocations :=
           gets (λ st, filter (λ a, BatchAllocation.batchId a ∈ batchIds)
                         (allocations st)) in
         ret (mkResponse 200
                (BatchListWithCounts
                   ((λ batch,
                       let batchAllocations :=
                         filter (λ a, BatchAllocation.batchId a
                                      = Batch.id batch) allAllocations in
                       let allocatedCount := sumQuantity batchAllocations in
                       (batch, allocatedCount,
                        Batch.currentCount batch - allocatedCount))
                      <$> found)))
       else ret (mkResponse 200 (BatchList found))).

(** [req.body] of [createBatch]; any of the fields may be missing. *)
Record NewBatch := mkNewBatch {
  n_name : option string;
  n_arrivalDate : option Z;
  n_ageAtArrival : option Z;
  n_chickenType : option string;
  n_originalCount : option Z;
  n_supplier : option string
}.

(** [required: true] fails on a [String] path that is unset or empty, and
    on a [Number] or [Date] path that is unset. *)
Definition blank (v : option string) : bool :=
  bool_decide (v = None ∨ v = Some "").

Definition unset (v : option Z) : bool := bool_decide (v = None).

(** The required paths of [batchSchema] that the validation run by
    [newBatch.save()] finds wanting, in the order of the schema.  [id] has a
    default, and [farmId] is the caller's, which is not empty here. *)
Definition missingPaths (body : NewBatch) : list string :=
  (if blank (n_name body) then ["name"] else [])
  ++ (if unset (n_arrivalDate body) then ["arrivalDate"] else [])
  ++ (if unset (n_ageAtArrival body) then ["ageAtArrival"] else [])
  ++ (if blank (n_chickenType body) then ["chickenType"] else [])
  ++ (if unset (n_originalCount body) then ["originalCount"] else [])
  ++ (if blank (n_supplier body) then ["supplier"] else []).

(** [error.message] of the validation error that [save] throws. *)
Definition validationMessage (paths : list string) : string :=
  "Batch validation failed: "
  +:+ String.concat ", "
        ((λ path, path +:+ ": Path `" +:+ path +:+ "` is required.")
           <$> paths).

(** [createBatch]: the loss counters start at zero; [uuid] is the id that
    [uuidv4] gives the new document.  [await newBatch.save()] throws when a
    required path is wanting, and the [catch] answers 500 with nothing
    stored. *)
Definition createBatch (user : User.t) (body : NewBatch) (uuid : string)
  : Store → Store * Response :=
  run (let* farm := requireFarm user in
       let newBatch :=
         Batch.mk uuid farm (orEmpty (n_name body))
           (orZero (n_originalCount body)) 0 0 0 false in
       rejectIf (negb (bool_decide (missingPaths body = [])))
         500 (ServerError (validationMessage (missingPaths body))) ;;;
       modify (λ st, setBatches (batches st ++ [newBatch]) st) ;;;
       ret (mkResponse 201 (BatchDoc newBatch))).

Definition getBatchById (user : User.t) (batchId : string)
  : Store → Store * Response :=
  run (let* farm := requireFarm user in
       let* found := gets (Batch_findOne batchId farm) in
       let* batch := orReply (snd <$> found) 404 (Message "Batch not found") in
       ret (mkResponse 200 (BatchDoc batch))).

(** [req.body] of [updateBatch]: the fields to overwrite. *)
Record BatchUpdates := mkUpdates {
  u_id : option string;
  u_farmId : option string;
  u_name : option string;
  u_originalCount : option Z;
  u_dead : option Z;
  u_culled : option Z;
  u_offlaid : option Z;
  u_isArchived : option bool
}.

Definition applyUpdates (u : BatchUpdates) (b : Batch.doc) : Batch.doc :=
  Batch.mk (default (Batch.id b) (u_id u))
    (default (Batch.farmId b) (u_farmId u))
    (default (Batch.name b) (u_name u))
    (default (Batch.originalCount b) (u_originalCount u))
    (default (Batch.dead b) (u_dead u))
    (default (Batch.culled b) (u_culled u))
    (default (Batch.offlaid b) (u_offlaid u))
    (default (Batch.isArchived b) (u_isArchived u)).

(** [updateBatch]: the counters are checked against the stored original
    count only when one of them is among the updates. *)
Definition updateBatch (user : User.t) (batchId : string)
    (updates : BatchUpdates) : Store → Store * Response :=
  run (let* farm := requireFarm user in
       (if bool_decide (is_Some (u_dead updates)
                        ∨ is_Some (u_culled updates)
                        ∨ is_Some (u_offlaid updates))
        then
          let* found := gets (Batch_findOne batchId farm) in
          let* batch := orReply (snd <$> found)
                          404 (Message "Batch not found or unauthorized") in
          let newDead := default (Batch.dead batch) (u_dead updates) in
          let newCulled := default (Batch.culled batch) (u_culled updates) in
          let newOfflaid :=
            default (Batch.offlaid batch) (u_offlaid updates) in
          rejectIf (bool_decide (newDead + newCulled + newOfflaid
                                 > Batch.originalCount batch))
            400 (Message
              "Total of dead, culled, and offlaid birds cannot exceed original count") ;;;
          rejectIf (bool_decide (newDead < 0 ∨ newCulled < 0
                                 ∨ newOfflaid < 0))
            400 (Message
              "Dead, culled, and offlaid counts must be non-negative")
        else ret tt) ;;;
       let* found := gets (Batch_findOne batchId farm) in
       let* (i, batch) :=
         orReply found 404 (Message "Batch not found or unauthorized") in
       let batch' := applyUpdates updates batch in
       modify (λ st, setBatches (<[i := batch']> (batches st)) st) ;;;
       ret (mkResponse 200 (BatchDoc batch'))).

(** [deleteBatch]: [findOneAndDelete] removes the first match. *)
Definition deleteBatch (user : User.t) (batchId : string)
  : Store → Store * Response :=
  run (let* farm := requireFarm user in
       let* found := gets (Batch_findOne batchId farm) in
       let* (i, batch) :=
         orReply found 404 (Message "Batch not found or unauthorized") in
       modify (λ st, setBatches (delete i (batches st)) st) ;;;
       ret (mkResponse 200 (Message "Batch deleted successfully"))).

(** ** The controller's operations as one request type *)

Inductive Operation :=
| ApplyLossDelta (batchId : string) (body : CountsBody) (uuid : string)
| GetAvailability (batchId : string)
| Allocate (batchId houseId : string) (quantity : Z) (uuid : string)
| UpdateAllocation (allocationId : string) (quantity : Z)
| Transfer (batchId fromHouseId toHouseId : string) (quantity : Z)
    (uuid : string)
| ListForBatch (batchId : string)
| ListForHouse (houseId : string)
| GetHistory (batchId : string)
| ListBatches (includeAllocations : bool)
| CreateBatch (newBatch : NewBatch) (uuid : string)
| GetBatch (batchId : string)
| UpdateBatch (batchId : string) (updates : BatchUpdates)
| DeleteBatch (batchId : string).

Definition handle (user : User.t) (op : Operation)
  : Store → Store * Response :=
  match op with
  | ApplyLossDelta batchId body uuid => updateBirdCounts user batchId body uuid
  | GetAvailability batchId => getBatchAvailability user batchId
  | Allocate batchId houseId quantity uuid =>
      createBatchAllocation user batchId houseId quantity uuid
  | UpdateAllocation allocationId quantity =>
      updateBatchAllocation user allocationId quantity
  | Transfer batchId fromHouseId toHouseId quantity uuid =>
      transferBirds user batchId fromHouseId toHouseId quantity uuid
  | ListForBatch batchId => getBatchAllocations user batchId
  | ListForHouse houseId => getHouseBatchAllocations user houseId
  | GetHistory batchId => getBirdCountHistory user batchId
  | ListBatches includeAllocations => getBatches user includeAllocations
  | CreateBatch newBatch uuid => createBatch user newBatch uuid
  | GetBatch batchId => getBatchById user batchId
  | UpdateBatch batchId updates => updateBatch user batchId updates
  | DeleteBatch batchId => deleteBatch user batchId
  end.

(** ** Interleaved [updateBirdCounts] requests

    Between two [await]s a handler runs without interruption, and each
    storage operation ([findOne], [findOneAndUpdate] with [$inc], [save]) is
    atomic.  A request in flight is therefore in one of four stages, and a
    concurrent execution is a schedule: the order in which the requests take
    their next stage. *)

Record CountsRequest := mkRequest {
  r_user : User.t;
  r_batchId : string;
  r_body : CountsBody;
  r_uuid : string
}.

Inductive Task :=
| Received
| Validated (farm : string) (batch : Batch.doc)
| Incremented (farm : string) (batch updatedBatch : Batch.doc)
| Responded (r : Response).

Definition advance (q : CountsRequest) (t : Task) (st : Store)
  : Store * Task :=
  match t with
  | Received =>
      match countsCheck (r_user q) (r_batchId q) (r_body q) st with
      | (st', Answer r) => (st', Responded r)
      | (st', Value (farm, batch)) => (st', Validated farm batch)
      end
  | Validated farm batch =>
      match countsIncrement farm (r_batchId q) (r_body q) st with
      | (st', Answer r) => (st', Responded r)
      | (st', Value updatedBatch) => (st', Incremented farm batch updatedBatch)
      end
  | Incremented farm batch updatedBatch =>
      match countsAudit (r_user q) farm (r_body q) (r_uuid q) batch
              updatedBatch st with
      | (st', Answer r) => (st', Responded r)
      | (st', Value r) => (st', Responded r)
      end
  | Responded r => (st, Responded r)
  end.

Record System := mkSystem {
  store : Store;
  tasks : list (CountsRequest * Task)
}.

(** Request number [k] takes its next stage. *)
Definition stepTask (k : nat) (sys : System) : System :=
  match tasks sys !! k with
  | Some (q, t) =>
      let '(st', t') := advance q t (store sys) in
      mkSystem st' (<[k := (q, t')]> (tasks sys))
  | None => sys
  end.

Definition runSchedule (schedule : list nat) (sys : System) : System :=
  fold_left (λ s k, stepTask k s) schedule sys.

Definition arrivals (st : Store) (requests : list CountsRequest) : System :=
  mkSystem st ((λ q, (q, Received)) <$> requests).

(** A schedule lets request [k] finish when it names it three times. *)
Definition turns (k : nat) (schedule : list nat) : nat :=
  length (filter (λ j, j = k) schedule).

Definition stage (t : Task) : nat :=
  match t with
  | Received => 0
  | Validated _ _ => 1
  | Incremented _ _ _ => 2
  | Responded _ => 3
  end.

Definition counted (t : Task) : Prop :=
  match t with
  | Incremented _ _ _ => True
  | Responded r => status r = 200
  | _ => False
  end.

Global Instance counted_dec t : Decision (counted t).
Proof. destruct t; simpl; apply _. Defined.

(** ** Notions used in the statements *)

(** The sum of the quantities, by recursion on the list. *)
Fixpoint totalQuantity (l : list BatchAllocation.doc) : Z :=
  match l with
  | [] => 0
  | a :: l' => BatchAllocation.quantity a + totalQuantity l'
  end.

(** What one document contributes to the sum over the matches of [P]. *)
Definition share (P : BatchAllocation.doc → Prop) `{∀ a, Decision (P a)}
    (a : BatchAllocation.doc) : Z :=
  if decide (P a) then BatchAllocation.quantity a else 0.

Definition allocatedCount (batchId : string) (st : Store) : Z :=
  totalQuantity (Allocation_findByBatch batchId st).

Definition occupancy (houseId : string) (st : Store) : Z :=
  totalQuantity (Allocation_findByHouse houseId st).

Definition lossTotal (b : Batch.doc) : Z :=
  Batch.dead b + Batch.culled b + Batch.offlaid b.

Definition requested (body : CountsBody) : Z :=
  orZero (c_dead body) + orZero (c_culled body) + orZero (c_offlaid body).

(** The deltas pass the input validation of [updateBirdCounts]: at least
    one is present and none is negative. *)
Definition validDeltas (body : CountsBody) : bool :=
  negb (bool_decide (c_dead body = None ∧ c_culled body = None
                     ∧ c_offlaid body = None))
  && negb (isNegative (c_dead body) || isNegative (c_culled body)
           || isNegative (c_offlaid body)).

(** The caller belongs to farm [farm]. *)
Definition memberOf (user : User.t) (farm : string) : Prop :=
  User.farmId user = Some farm ∧ farm ≠ "".

(** Invariant A: no batch has more birds placed than it has alive. *)
Definition invariantA (st : Store) : Prop :=
  ∀ b, b ∈ batches st →
       allocatedCount (Batch.id b) st ≤ Batch.currentCount b.

(** Invariant B: no house with a declared capacity holds more than it. *)
Definition invariantB (st : Store) : Prop :=
  ∀ h c, h ∈ houses st → House.capacity h = Some c →
         occupancy (House.id h) st ≤ c.

(** The [id] field of a batch has a unique index. *)
Definition uniqueBatchIds (st : Store) : Prop :=
  NoDup (Batch.id <$> batches st).

(** The store after a sequence of [updateBirdCounts] calls on one batch. *)
Definition storeAfter (user : User.t) (batchId : string)
    (calls : list (CountsBody * string)) (st : Store) : Store :=
  fold_left (λ s call, (updateBirdCounts user batchId call.1 call.2 s).1)
    calls st.

(** A request that reports one death in batch [batchId], by a member of
    [farm]: [applyLossDelta(batchId, {dead: 1})]. *)
Definition singleDeath (farm batchId : string) (q : CountsRequest) : Prop :=
  User.farmId (r_user q) = Some farm ∧ r_batchId q = batchId
  ∧ c_dead (r_body q) = Some 1 ∧ c_culled (r_body q) = None
  ∧ c_offlaid (r_body q) = None.

(** How many requests have had their increment applied. *)
Definition tally (ts : list (CountsRequest * Task)) : nat :=
  length (filter (λ qt, counted qt.2) ts).

(** What holds of a request in flight while only [singleDeath] requests
    run against a batch with room for all of them. *)
Definition onTrack (farm : string) (t : Task) : Prop :=
  match t with
  | Received => True
  | Validated f _ => f = farm
  | Incremented _ _ _ => True
  | Responded r => status r = 200
  end.

Record consistent (farm batchId : string) (i : nat) (sys : System) : Prop := {
  consistent_tasks :
    Forall (λ qt, singleDeath farm batchId qt.1 ∧ onTrack farm qt.2)
      (tasks sys);
  consistent_batch :
    ∃ b, Batch_findOne batchId farm (store sys) = Some (i, b)
         ∧ Batch.originalCount b = 100
         ∧ Batch.dead b = Z.of_nat (tally (tasks sys))
         ∧ Batch.culled b = 0 ∧ Batch.offlaid b = 0
}.

(** ** Example data *)

Definition demoUser : User.t := User.mk "u1" (Some "farm1") "Ada" "Okello".

Definition demoBatch : Batch.doc :=
  Batch.mk "b1" "farm1" "Layers" 1000 0 0 0 false.

Definition demoStore : Store :=
  mkStore [demoBatch] [] [] [].

Definition demoAllocations : list BatchAllocation.doc :=
  [ BatchAllocation.mk "a1" "b1" "hA" 300;
    BatchAllocation.mk "a2" "b2" "hA" 40;
    BatchAllocation.mk "a3" "b1" "hB" 200 ].

Definition demoLedger : Store :=
  mkStore [Batch.mk "b1" "farm1" "Layers" 1000 10 5 3 false] []
    demoAllocations [].

Definition farmHouses : list House.doc :=
  [ House.mk "hA" "farm1" "House A" (Some 500);
    House.mk "hB" "farm1" "House B" (Some 200) ].

Definition fullyPlaced : Store :=
  mkStore [Batch.mk "b1" "farm1" "Layers" 100 0 0 0 false] farmHouses
    [BatchAllocation.mk "a1" "b1" "hA" 100] [].

Definition halfPlaced : Store :=
  mkStore [Batch.mk "b1" "farm1" "Layers" 1000 10 5 3 false;
           Batch.mk "b2" "farm1" "Retired" 50 0 0 0 true]
    farmHouses [BatchAllocation.mk "a1" "b1" "hA" 500] [].

Definition twoFarms : Store :=
  mkStore [Batch.mk "b1" "farm1" "Layers" 1000 0 0 0 false;
           Batch.mk "b7" "farm2" "Broilers" 400 0 0 0 false]
    (farmHouses ++ [House.mk "hX" "farm2" "Shed" (Some 300)])
    [BatchAllocation.mk "a1" "b1" "hA" 300;
     BatchAllocation.mk "a7" "b7" "hX" 250] [].

Definition deathReport (uuid : string) : CountsRequest :=
  mkRequest demoUser "b1" (mkCounts (Some 1) None None None None) uuid.

Definition sharedHouse : Store :=
  mkStore [Batch.mk "bX" "farm1" "Layers" 1000 0 0 0 false;
           Batch.mk "bY" "farm1" "Pullets" 1000 0 0 0 false]
    [House.mk "hA" "farm1" "House A" None;
     House.mk "hC" "farm1" "House C" (Some 500)]
    [BatchAllocation.mk "a1" "bX" "hC" 300;
     BatchAllocation.mk "a2" "bY" "hC" 100;
     BatchAllocation.mk "a3" "bY" "hA" 400] [].

Definition fullHouse : Store :=
  mkStore (batches sharedHouse) (houses sharedHouse)
    [BatchAllocation.mk "a1" "bX" "hC" 400;
     BatchAllocation.mk "a2" "bY" "hC" 100;
     BatchAllocation.mk "a3" "bY" "hA" 400] [].

Definition smallFlock : Store :=
  mkStore [Batch.mk "b1" "farm1" "Layers" 100 0 0 0 false] [] [] [].

(** ** Further notions used in the statements *)

(** [!user.farmId]: the caller has no farm. *)
Definition farmless (user : User.t) : Prop :=
  User.farmId user = None ∨ User.farmId user = Some "".

(** The answer every handler gives a caller without a farm. *)
Definition noFarmAnswer : Response :=
  mkResponse 400 (Message "User does not belong to a farm").

(** Each entry starts from the snapshot the previous one ended with. *)
Fixpoint chained (start : BirdCountHistory.snapshot)
    (entries : list BirdCountHistory.doc) : Prop :=
  match entries with
  | [] => True
  | e :: rest =>
      BirdCountHistory.beforeState e = start
      ∧ chained (BirdCountHistory.afterState e) rest
  end.

(** The snapshot a chain of entries ends with. *)
Fixpoint endState (start : BirdCountHistory.snapshot)
    (entries : list BirdCountHistory.doc) : BirdCountHistory.snapshot :=
  match entries with
  | [] => start
  | e :: rest => endState (BirdCountHistory.afterState e) rest
  end.

(** The calls of a sequence of [updateBirdCounts] calls on one batch that
    are answered 200, each call made on the store the calls before it left. *)
Fixpoint acceptedCalls (user : User.t) (batchId : string)
    (calls : list (CountsBody * string)) (st : Store)
  : list (CountsBody * string) :=
  match calls with
  | [] => []
  | call :: rest =>
      let result := updateBirdCounts user batchId call.1 call.2 st in
      (if bool_decide (status result.2 = 200) then [call] else [])
      ++ acceptedCalls user batchId rest result.1
  end.

(** What a history entry says of the call it records, and what a call asks
    for: the entry's id and the three deltas. *)
Definition entryFacts (e : BirdCountHistory.doc) : string * Z * Z * Z :=
  (BirdCountHistory.id e, BirdCountHistory.dead e, BirdCountHistory.culled e,
   BirdCountHistory.offlaid e).

Definition callFacts (call : CountsBody * string) : string * Z * Z * Z :=
  (call.2, orZero (c_dead call.1), orZero (c_culled call.1),
   orZero (c_offlaid call.1)).

(** Invariant B for the houses whose capacity is not falsy. *)
Definition capacityRespected (st : Store) : Prop :=
  ∀ h c, h ∈ houses st → House.capacity h = Some c → c ≠ 0 →
         occupancy (House.id h) st ≤ c.

(** The [id] field of a house has a unique index. *)
Definition uniqueHouseIds (st : Store) : Prop :=
  NoDup (House.id <$> houses st).


(** A loss-delta request for batch [batchId] by a member of [farm]. *)
Definition lossRequest (farm batchId : string) (q : CountsRequest) : Prop :=
  memberOf (r_user q) farm ∧ r_batchId q = batchId.

(** What the requests whose increment has been applied add to one counter;
    [field] picks the counter's delta out of a request body. *)
Definition applied (field : CountsBody → option Z)
    (ts : list (CountsRequest * Task)) : Z :=
  foldr (λ qt acc,
           (if decide (counted qt.2) then orZero (field (r_body qt.1)) else 0)
           + acc) 0 ts.

(** What holds of the requests in flight and of the batch while loss-delta
    requests for one batch interleave: the stored counters are the initial
    ones plus the deltas applied so far. *)
Record tracked (farm batchId : string) (i : nat) (b0 : Batch.doc)
    (sys : System) : Prop := {
  tracked_tasks :
    Forall (λ qt, lossRequest farm batchId qt.1
                  ∧ match qt.2 with
                    | Validated f _ => f = farm
                    | _ => True
                    end) (tasks sys);
  tracked_batch :
    ∃ b, Batch_findOne batchId farm (store sys) = Some (i, b)
         ∧ Batch.originalCount b = Batch.originalCount b0
         ∧ Batch.dead b = Batch.dead b0 + applied c_dead (tasks sys)
         ∧ Batch.culled b = Batch.culled b0 + applied c_culled (tasks sys)
         ∧ Batch.offlaid b = Batch.offlaid b0 + applied c_offlaid (tasks sys)
}.

(** * Properties *)

(** ** Sums of quantities *)

Section Sums.
Implicit Types (l : list BatchAllocation.doc) (a : BatchAllocation.doc).

Lemma fold_quantity_shift l z :
  fold_left (λ sum a, sum + BatchAllocation.quantity a) l z
  = z + totalQuantity l.
Proof.
  revert z; induction l as [|a l IH]; intros z; simpl; [lia|].
  rewrite IH; lia.
Qed.

Lemma sumQuantity_total l : sumQuantity l = totalQuantity l.
Proof. unfold sumQuantity. rewrite fold_quantity_shift. lia. Qed.

Lemma totalQuantity_app l1 l2 :
  totalQuantity (l1 ++ l2) = totalQuantity l1 + totalQuantity l2.
Proof. induction l1 as [|a l1 IH]; simpl; lia. Qed.

Context (P : BatchAllocation.doc → Prop) `{∀ a, Decision (P a)}.

Lemma total_filter_cons a l :
  totalQuantity (filter P (a :: l)) = share P a + totalQuantity (filter P l).
Proof.
  unfold share. rewrite filter_cons. destruct (decide (P a)); simpl; lia.
Qed.

Lemma total_filter_snoc l a :
  totalQuantity (filter P (l ++ [a])) = totalQuantity (filter P l) + share P a.
Proof.
  rewrite filter_app, totalQuantity_app, total_filter_cons.
  rewrite filter_nil. simpl. lia.
Qed.

Lemma total_filter_insert l (i : nat) a a' :
  l !! i = Some a →
  totalQuantity (filter P (<[i := a']> l))
  = totalQuantity (filter P l) - share P a + share P a'.
Proof.
  revert i; induction l as [|x l IH]; intros [|i] Hi; simpl in Hi;
    try discriminate.
  - injection Hi as ->. simpl. rewrite !total_filter_cons. lia.
  - simpl. rewrite !total_filter_cons, (IH _ Hi). lia.
Qed.
End Sums.

Section Finds.
Context {A : Type} (P : A → Prop) `{∀ x, Decision (P x)}.

(** Rewriting the found document in place, with one that still matches,
    makes the same query find the new version. *)
Lemma list_find_insert_found (l : list A) (i : nat) x x' :
  list_find P l = Some (i, x) → P x' →
  list_find P (<[i := x']> l) = Some (i, x').
Proof.
  intros Hf Hx'. apply list_find_Some in Hf as (Hi & _ & Hlt).
  apply list_find_Some. split_and!; [|done|].
  - apply list_lookup_insert_eq. by eapply lookup_lt_Some.
  - intros j y Hj Hji. rewrite list_lookup_insert_ne in Hj by lia. eauto.
Qed.
End Finds.

(** ** Unfolding handlers *)

Lemma requireFarm_member user farm st :
  memberOf user farm → requireFarm user st = (st, Value farm).
Proof.
  intros [Hu Hne]. unfold requireFarm. rewrite Hu.
  rewrite bool_decide_eq_false_2 by done. reflexivity.
Qed.

Ltac handler_unfold :=
  unfold run, bind, gets, modify, rejectIf, orReply, reply, ret,
    getUnallocatedCount, getAllocatedCount, Allocation_save,
    Allocation_create in *.

Lemma plusDelta_orZero x d : plusDelta x d = x + orZero d.
Proof. destruct d; simpl; lia. Qed.

Lemma lossTotal_incCounts body b :
  lossTotal (incCounts body b) = lossTotal b + requested body.
Proof.
  unfold lossTotal, requested, incCounts; simpl.
  rewrite !plusDelta_orZero. lia.
Qed.

(** ** [updateBirdCounts], call by call *)

Section LossDelta.
Context (user : User.t) (farm batchId : string).
Hypothesis Hmember : memberOf user farm.

Lemma countsCheck_pass body st i b :
  validDeltas body = true →
  Batch_findOne batchId farm st = Some (i, b) →
  lossTotal b + requested body ≤ Batch.originalCount b →
  countsCheck user batchId body st = (st, Value (farm, b)).
Proof.
  intros Hv Hf Hle. unfold validDeltas in Hv.
  apply andb_prop in Hv as [Hv1 Hv2].
  apply negb_true_iff in Hv1, Hv2.
  unfold countsCheck. handler_unfold.
  rewrite (requireFarm_member _ _ _ Hmember), Hv1, Hv2, Hf. simpl.
  rewrite bool_decide_eq_false_2; [done|].
  rewrite !plusDelta_orZero. unfold lossTotal, requested in Hle. lia.
Qed.

Lemma countsCheck_exceeds body st i b :
  validDeltas body = true →
  Batch_findOne batchId farm st = Some (i, b) →
  lossTotal b + requested body > Batch.originalCount b →
  countsCheck user batchId body st
  = (st, Answer (mkResponse 400
                   (CountsExceeded (lossTotal b) (Batch.originalCount b)
                      (requested body)))).
Proof.
  intros Hv Hf Hgt. unfold validDeltas in Hv.
  apply andb_prop in Hv as [Hv1 Hv2].
  apply negb_true_iff in Hv1, Hv2.
  unfold countsCheck. handler_unfold.
  rewrite (requireFarm_member _ _ _ Hmember), Hv1, Hv2, Hf. simpl.
  rewrite bool_decide_eq_true_2; [done|].
  rewrite !plusDelta_orZero. unfold lossTotal, requested in Hgt. lia.
Qed.

Lemma countsIncrement_found body st i b :
  Batch_findOne batchId farm st = Some (i, b) →
  countsIncrement farm batchId body st
  = (setBatches (<[i := incCounts body b]> (batches st)) st,
     Value (incCounts body b)).
Proof.
  intros Hf. unfold countsIncrement, Batch_findOneAndInc. handler_unfold.
  by rewrite Hf.
Qed.

(** An accepted call: one [$inc] and one history entry. *)
Lemma updateBirdCounts_accepted body uuid st i b :
  validDeltas body = true →
  Batch_findOne batchId farm st = Some (i, b) →
  lossTotal b + requested body ≤ Batch.originalCount b →
  updateBirdCounts user batchId body uuid st
  = (mkStore (<[i := incCounts body b]> (batches st)) (houses st)
       (allocations st)
       (history st
        ++ [historyEntryOf user farm body uuid b (incCounts body b)]),
     mkResponse 200
       (CountsUpdated (incCounts body b) (orZero (c_dead body))
          (orZero (c_culled body)) (orZero (c_offlaid body)) uuid)).
Proof.
  intros Hv Hf Hle. unfold updateBirdCounts, run, bind.
  rewrite (countsCheck_pass _ _ _ _ Hv Hf Hle).
  rewrite (countsIncrement_found _ _ _ _ Hf).
  reflexivity.
Qed.

(** A rejected call changes nothing. *)
Lemma updateBirdCounts_rejected body uuid st i b :
  validDeltas body = true →
  Batch_findOne batchId farm st = Some (i, b) →
  lossTotal b + requested body > Batch.originalCount b →
  updateBirdCounts user batchId body uuid st
  = (st, mkResponse 400
           (CountsExceeded (lossTotal b) (Batch.originalCount b)
              (requested body))).
Proof.
  intros Hv Hf Hgt. unfold updateBirdCounts, run, bind.
  by rewrite (countsCheck_exceeds _ _ _ _ Hv Hf Hgt).
Qed.

Lemma Batch_findOne_inc body st st' i b :
  Batch_findOne batchId farm st = Some (i, b) →
  batches st' = <[i := incCounts body b]> (batches st) →
  Batch_findOne batchId farm st' = Some (i, incCounts body b).
Proof.
  intros Hf Hb. unfold Batch_findOne in *. rewrite Hb.
  apply list_find_insert_found with (x := b); [done|].
  apply list_find_Some in Hf as (_ & Hp & _). exact Hp.
Qed.

(** One call, from a batch whose losses are within its original count. *)
Lemma updateBirdCounts_step body uuid st i b :
  validDeltas body = true →
  Batch_findOne batchId farm st = Some (i, b) →
  ∃ b',
    Batch_findOne batchId farm
      (updateBirdCounts user batchId body uuid st).1 = Some (i, b') ∧
    Batch.originalCount b' = Batch.originalCount b ∧
    (lossTotal b ≤ Batch.originalCount b →
     lossTotal b' ≤ Batch.originalCount b').
Proof.
  intros Hv Hf.
  destruct (Z_le_gt_dec (lossTotal b + requested body)
              (Batch.originalCount b)) as [Hle|Hgt].
  - rewrite (updateBirdCounts_accepted _ _ _ _ _ Hv Hf Hle). simpl.
    exists (incCounts body b). split_and!.
    + by eapply Batch_findOne_inc.
    + reflexivity.
    + intros _. rewrite lossTotal_incCounts. simpl. lia.
  - rewrite (updateBirdCounts_rejected _ _ _ _ _ Hv Hf Hgt). simpl.
    exists b. by split_and!.
Qed.

Lemma storeAfter_batch calls st i b :
  Forall (λ call, validDeltas call.1 = true) calls →
  Batch_findOne batchId farm st = Some (i, b) →
  lossTotal b ≤ Batch.originalCount b →
  ∃ b',
    Batch_findOne batchId farm (storeAfter user batchId calls st)
    = Some (i, b') ∧
    Batch.originalCount b' = Batch.originalCount b ∧
    lossTotal b' ≤ Batch.originalCount b'.
Proof.
  intros Hall. revert st b.
  induction Hall as [|[body uuid] calls Hv _ IH]; intros st b Hf Hinv.
  - exists b. by split_and!.
  - simpl in Hv.
    destruct (updateBirdCounts_step body uuid st i b Hv Hf)
      as (b1 & Hf1 & Ho1 & Hinv1).
    destruct (IH _ _ Hf1 (Hinv1 Hinv)) as (b2 & Hf2 & Ho2 & Hinv2).
    exists b2. split_and!; [exact Hf2|congruence|exact Hinv2].
Qed.
End LossDelta.

(** C1.  After any sequence of [updateBirdCounts] calls with valid deltas on
    a batch whose losses started within its original count, one more such
    call either adds exactly the supplied deltas to [dead], [culled] and
    [offlaid] (when the prospective total stays within [originalCount]) or is
    rejected as a ConstraintViolation and leaves the store as it was; either
    way [dead + culled + offlaid ≤ originalCount] holds afterwards. *)
Theorem loss_deltas_within_original
    user farm batchId st i b calls body uuid :
  memberOf user farm →
  Batch_findOne batchId farm st = Some (i, b) →
  lossTotal b ≤ Batch.originalCount b →
  Forall (λ call, validDeltas call.1 = true) calls →
  validDeltas body = true →
  let before := storeAfter user batchId calls st in
  let result := updateBirdCounts user batchId body uuid before in
  ∃ b1 b2,
    Batch_findOne batchId farm before = Some (i, b1) ∧
    Batch_findOne batchId farm result.1 = Some (i, b2) ∧
    Batch.originalCount b2 = Batch.originalCount b ∧
    ((lossTotal b1 + requested body ≤ Batch.originalCount b1 ∧
      status result.2 = 200 ∧
      Batch.dead b2 = Batch.dead b1 + orZero (c_dead body) ∧
      Batch.culled b2 = Batch.culled b1 + orZero (c_culled body) ∧
      Batch.offlaid b2 = Batch.offlaid b1 + orZero (c_offlaid body))
     ∨
     (lossTotal b1 + requested body > Batch.originalCount b1 ∧
      failure result.2 = Some ConstraintViolation ∧
      result.1 = before ∧ b2 = b1)) ∧
    lossTotal b2 ≤ Batch.originalCount b2.
Proof.
  intros Hm Hf Hinv Hall Hv before result.
  destruct (storeAfter_batch user farm batchId Hm calls st i b Hall Hf Hinv)
    as (b1 & Hf1 & Ho1 & Hinv1).
  fold before in Hf1. exists b1.
  destruct (Z_le_gt_dec (lossTotal b1 + requested body)
              (Batch.originalCount b1)) as [Hle|Hgt].
  - assert (Hr := updateBirdCounts_accepted user farm batchId Hm
                    body uuid before i b1 Hv Hf1 Hle).
    fold result in Hr. rewrite Hr. simpl.
    exists (incCounts body b1). split_and!.
    + exact Hf1.
    + by eapply Batch_findOne_inc.
    + simpl. exact Ho1.
    + left. simpl. rewrite !plusDelta_orZero. by split_and!.
    + rewrite lossTotal_incCounts. simpl. lia.
  - assert (Hr := updateBirdCounts_rejected user farm batchId Hm
                    body uuid before i b1 Hv Hf1 Hgt).
    fold result in Hr. rewrite Hr. simpl.
    exists b1. split_and!; try done.
    right. by split_and!.
Qed.

Lemma loss_deltas_within_original_witness :
  ∃ b1 b2,
    Batch_findOne "b1" "farm1"
      (storeAfter demoUser "b1"
         [(mkCounts (Some 10) None None None None, "h1")] demoStore)
    = Some (0%nat, b1) ∧
    Batch_findOne "b1" "farm1"
      (updateBirdCounts demoUser "b1"
         (mkCounts None (Some 5) (Some 3) None None) "h2"
         (storeAfter demoUser "b1"
            [(mkCounts (Some 10) None None None None, "h1")] demoStore)).1
    = Some (0%nat, b2) ∧
    Batch.currentCount b2 = 982.
Proof.
  destruct (loss_deltas_within_original demoUser "farm1" "b1" demoStore
              0%nat demoBatch
              [(mkCounts (Some 10) None None None None, "h1")]
              (mkCounts None (Some 5) (Some 3) None None) "h2")
    as (b1 & b2 & H1 & H2 & _).
  - split; [reflexivity | discriminate].
  - reflexivity.
  - vm_compute. discriminate.
  - repeat constructor.
  - reflexivity.
  - exists b1, b2. split_and!; [exact H1 | exact H2 |].
    vm_compute in H2. injection H2 as <-. reflexivity.
Defined.

(** ** What each handler leaves alone *)

Ltac handler_cases :=
  unfold requireFarm in *; handler_unfold;
  repeat (simpl in *; case_match; simplify_eq); simpl in *.

Lemma getBatchAvailability_pure user batchId st :
  (getBatchAvailability user batchId st).1 = st.
Proof. unfold getBatchAvailability. handler_cases; reflexivity. Qed.

Lemma getBatchAllocations_pure user batchId st :
  (getBatchAllocations user batchId st).1 = st.
Proof. unfold getBatchAllocations. handler_cases; reflexivity. Qed.

Lemma getHouseBatchAllocations_pure user houseId st :
  (getHouseBatchAllocations user houseId st).1 = st.
Proof. unfold getHouseBatchAllocations. handler_cases; reflexivity. Qed.

Lemma getBirdCountHistory_pure user batchId st :
  (getBirdCountHistory user batchId st).1 = st.
Proof. unfold getBirdCountHistory. handler_cases; reflexivity. Qed.

Lemma createBatchAllocation_frame user batchId houseId quantity uuid st :
  let st' := (createBatchAllocation user batchId houseId quantity uuid st).1 in
  batches st' = batches st ∧ houses st' = houses st
  ∧ history st' = history st.
Proof. unfold createBatchAllocation. handler_cases; done. Qed.

Lemma updateBatchAllocation_frame user allocationId quantity st :
  let st' := (updateBatchAllocation user allocationId quantity st).1 in
  batches st' = batches st ∧ houses st' = houses st
  ∧ history st' = history st.
Proof. unfold updateBatchAllocation. handler_cases; done. Qed.

Lemma transferBirds_frame user batchId fromHouseId toHouseId quantity uuid st :
  let st' :=
    (transferBirds user batchId fromHouseId toHouseId quantity uuid st).1 in
  batches st' = batches st ∧ houses st' = houses st
  ∧ history st' = history st.
Proof. unfold transferBirds. handler_cases; done. Qed.

Lemma batch_handlers_keep_history user st :
  (∀ includeAllocations,
     history (getBatches user includeAllocations st).1 = history st)
  ∧ (∀ body uuid, history (createBatch user body uuid st).1 = history st)
  ∧ (∀ batchId, history (getBatchById user batchId st).1 = history st)
  ∧ (∀ batchId updates,
       history (updateBatch user batchId updates st).1 = history st)
  ∧ (∀ batchId, history (deleteBatch user batchId st).1 = history st).
Proof.
  split_and!; intros.
  - unfold getBatches. handler_cases; reflexivity.
  - unfold createBatch. handler_cases; reflexivity.
  - unfold getBatchById. handler_cases; reflexivity.
  - unfold updateBatch. handler_cases; reflexivity.
  - unfold deleteBatch. handler_cases; reflexivity.
Qed.

(** Every way [updateBirdCounts] can end. *)
Lemma updateBirdCounts_cases user batchId body uuid st :
  let result := updateBirdCounts user batchId body uuid st in
  (result.1 = st ∧ status result.2 ≠ 200)
  ∨ (∃ farm i b,
        memberOf user farm ∧ validDeltas body = true ∧
        Batch_findOne batchId farm st = Some (i, b) ∧
        lossTotal b + requested body ≤ Batch.originalCount b).
Proof.
  intros result. subst result.
  destruct (User.farmId user) as [farm|] eqn:Hu; cycle 1.
  { left. unfold updateBirdCounts, countsCheck, requireFarm.
    rewrite Hu. by handler_unfold. }
  destruct (decide (farm = "")) as [->|Hne].
  { left. unfold updateBirdCounts, countsCheck, requireFarm.
    rewrite Hu. by handler_unfold. }
  assert (Hm : memberOf user farm) by done.
  destruct (validDeltas body) eqn:Hv; cycle 1.
  { left. unfold validDeltas in Hv.
    unfold updateBirdCounts, countsCheck. handler_unfold.
    rewrite (requireFarm_member _ _ _ Hm).
    apply andb_false_iff in Hv as [Hv|Hv]; apply negb_false_iff in Hv;
      rewrite Hv; simpl; [done|].
    by destruct (bool_decide _). }
  destruct (Batch_findOne batchId farm st) as [[i b]|] eqn:Hf; cycle 1.
  { left. unfold validDeltas in Hv.
    apply andb_prop in Hv as [Hv1 Hv2]. apply negb_true_iff in Hv1, Hv2.
    unfold updateBirdCounts, countsCheck. handler_unfold.
    rewrite (requireFarm_member _ _ _ Hm), Hv1, Hv2, Hf. done. }
  destruct (Z_le_gt_dec (lossTotal b + requested body)
              (Batch.originalCount b)) as [Hle|Hgt].
  - right. by exists farm, i, b.
  - left. by rewrite (updateBirdCounts_rejected _ _ _ Hm _ _ _ _ _ Hv Hf Hgt).
Qed.

(** C6.  [getBatchAvailability] never changes the store, and for a batch of
    the caller's farm it reports [currentCount = originalCount − (dead +
    culled + offlaid)], [allocatedCount] = the sum of [quantity] over the
    allocation records of that batch, and [unallocatedCount = currentCount −
    allocatedCount]. *)
Theorem availability_is_derived_and_pure user farm batchId st i b :
  (getBatchAvailability user batchId st).1 = st
  ∧ (memberOf user farm →
     Batch_findOne batchId farm st = Some (i, b) →
     let current :=
       Batch.originalCount b
       - (Batch.dead b + Batch.culled b + Batch.offlaid b) in
     let allocated :=
       totalQuantity
         (filter (λ a, BatchAllocation.batchId a = Batch.id b)
            (allocations st)) in
     (getBatchAvailability user batchId st).2
     = mkResponse 200
         (Availability (Batch.id b) (Batch.name b) (Batch.originalCount b)
            (Batch.dead b) (Batch.culled b) (Batch.offlaid b)
            current allocated (current - allocated))).
Proof.
  split; [apply getBatchAvailability_pure|].
  intros Hm Hf current allocated.
  unfold getBatchAvailability. handler_unfold.
  rewrite (requireFarm_member _ _ _ Hm), Hf. simpl.
  rewrite sumQuantity_total. reflexivity.
Qed.

Lemma availability_is_derived_and_pure_witness :
  (getBatchAvailability demoUser "b1" demoLedger).2
  = mkResponse 200 (Availability "b1" "Layers" 1000 10 5 3 982 500 482).
Proof.
  refine (proj2 (availability_is_derived_and_pure demoUser "farm1" "b1"
                   demoLedger 0%nat
                   (Batch.mk "b1" "farm1" "Layers" 1000 10 5 3 false)) _ _).
  - split; [reflexivity | discriminate].
  - reflexivity.
Defined.

(** C9.  An [updateBirdCounts] call that succeeds appends exactly one
    history entry; its [beforeState] is the batch's counters before the
    call, its [afterState] the counters after it, and its deltas the deltas
    applied.  No operation of the controller changes or removes an entry
    that is already there. *)
Theorem audit_trail_complete_and_append_only user st :
  (∀ batchId body uuid,
     let result := updateBirdCounts user batchId body uuid st in
     status result.2 = 200 →
     ∃ farm i b b' entry,
       memberOf user farm ∧
       Batch_findOne batchId farm st = Some (i, b) ∧
       Batch_findOne batchId farm result.1 = Some (i, b') ∧
       history result.1 = history st ++ [entry] ∧
       BirdCountHistory.batchId entry = Batch.id b ∧
       BirdCountHistory.beforeState entry = snapshotOf b ∧
       BirdCountHistory.afterState entry = snapshotOf b' ∧
       BirdCountHistory.dead entry = Batch.dead b' - Batch.dead b ∧
       BirdCountHistory.culled entry = Batch.culled b' - Batch.culled b ∧
       BirdCountHistory.offlaid entry = Batch.offlaid b' - Batch.offlaid b ∧
       BirdCountHistory.dead entry = orZero (c_dead body) ∧
       BirdCountHistory.culled entry = orZero (c_culled body) ∧
       BirdCountHistory.offlaid entry = orZero (c_offlaid body))
  ∧ (∀ op, history st `prefix_of` history (handle user op st).1).
Proof.
  split.
  - intros batchId body uuid result H200.
    destruct (updateBirdCounts_cases user batchId body uuid st)
      as [[_ Hno]|(farm & i & b & Hm & Hv & Hf & Hle)]; [done|].
    assert (Hr := updateBirdCounts_accepted user farm batchId Hm
                    body uuid st i b Hv Hf Hle).
    fold result in Hr. rewrite Hr. simpl.
    exists farm, i, b, (incCounts body b), 
      (historyEntryOf user farm body uuid b (incCounts body b)).
    split_and!; try done.
    + by eapply Batch_findOne_inc.
    + simpl. rewrite plusDelta_orZero. lia.
    + simpl. rewrite plusDelta_orZero. lia.
    + simpl. rewrite plusDelta_orZero. lia.
  - intros op.
    destruct (batch_handlers_keep_history user st)
      as (Hlist & Hcreate & Hget & Hupdate & Hdelete).
    destruct op as [batchId delta uuid | batchId | batchId houseId quantity uuid
                   | allocationId quantity
                   | batchId fromHouseId toHouseId quantity uuid
                   | batchId | houseId | batchId
                   | includeAllocations | newBatch uuid | batchId
                   | batchId updates | batchId]; simpl.
    + destruct (updateBirdCounts_cases user batchId delta uuid st)
        as [[-> _]|(farm & i & b & Hm & Hv & Hf & Hle)]; [done|].
      rewrite (updateBirdCounts_accepted user farm batchId Hm
                 delta uuid st i b Hv Hf Hle). simpl.
      by apply prefix_app_r.
    + by rewrite getBatchAvailability_pure.
    + by destruct (createBatchAllocation_frame user batchId houseId quantity
                     uuid st) as (_ & _ & ->).
    + by destruct (updateBatchAllocation_frame user allocationId quantity st)
        as (_ & _ & ->).
    + by destruct (transferBirds_frame user batchId fromHouseId toHouseId
                     quantity uuid st) as (_ & _ & ->).
    + by rewrite getBatchAllocations_pure.
    + by rewrite getHouseBatchAllocations_pure.
    + by rewrite getBirdCountHistory_pure.
    + by rewrite Hlist.
    + by rewrite Hcreate.
    + by rewrite Hget.
    + by rewrite Hupdate.
    + by rewrite Hdelete.
Qed.

(** ** Transfers *)

Section Transfer.
Context (user : User.t) (farm batchId fromHouseId toHouseId : string).
Context (quantity : Z) (uuid : string) (st : Store).
Context (ib i ih : nat) (b : Batch.doc) (source : BatchAllocation.doc)
  (toHouse : House.doc).
Hypothesis Hmember : memberOf user farm.
Hypothesis Hbatch : Batch_findOne batchId farm st = Some (ib, b).
Hypothesis Hsource :
  Allocation_findOne batchId fromHouseId st = Some (i, source).
Hypothesis Henough : quantity ≤ BatchAllocation.quantity source.
Hypothesis Hhouse : House_findOne toHouseId farm st = Some (ih, toHouse).

Local Abbreviation debited :=
  (BatchAllocation.setQuantity (BatchAllocation.quantity source - quantity)
     source).

(** The destination already has a record of the batch. *)
Lemma transferBirds_existing j target :
  Allocation_findOne batchId toHouseId st = Some (j, target) →
  exceeded (House.capacity toHouse)
    (BatchAllocation.quantity target + quantity) = None →
  let credited :=
    BatchAllocation.setQuantity (BatchAllocation.quantity target + quantity)
      target in
  transferBirds user batchId fromHouseId toHouseId quantity uuid st
  = (setAllocations (<[j := credited]> (<[i := debited]> (allocations st)))
       st,
     mkResponse 200 (Transferred debited credited)).
Proof.
  intros Ht Hcap credited. unfold transferBirds. handler_unfold.
  rewrite (requireFarm_member _ _ _ Hmember), Hbatch. simpl.
  rewrite Hsource. simpl.
  rewrite bool_decide_eq_false_2 by lia.
  rewrite Hhouse. simpl. rewrite Ht. simpl. rewrite Hcap.
  rewrite bool_decide_eq_false_2 by (by intros [? ?]).
  reflexivity.
Qed.

(** The destination has no record of the batch yet. *)
Lemma transferBirds_created :
  Allocation_findOne batchId toHouseId st = None →
  exceeded (House.capacity toHouse) (0 + quantity) = None →
  transferBirds user batchId fromHouseId toHouseId quantity uuid st
  = (setAllocations
       (<[i := debited]> (allocations st)
        ++ [BatchAllocation.mk uuid batchId toHouseId quantity]) st,
     mkResponse 500 (ServerError "newAllocation is not defined")).
Proof.
  intros Ht Hcap. unfold transferBirds. handler_unfold.
  rewrite (requireFarm_member _ _ _ Hmember), Hbatch. simpl.
  rewrite Hsource. simpl.
  rewrite bool_decide_eq_false_2 by lia.
  rewrite Hhouse. simpl. rewrite Ht. simpl. rewrite Hcap.
  rewrite bool_decide_eq_false_2 by (by intros [? ?]).
  reflexivity.
Qed.
End Transfer.

(** Every way [transferBirds] can end, as far as the store goes. *)
Lemma transferBirds_cases user batchId fromHouseId toHouseId quantity uuid st :
  let result :=
    transferBirds user batchId fromHouseId toHouseId quantity uuid st in
  result.1 = st
  ∨ ∃ i source,
      Allocation_findOne batchId fromHouseId st = Some (i, source) ∧
      let debited :=
        BatchAllocation.setQuantity
          (BatchAllocation.quantity source - quantity) source in
      match Allocation_findOne batchId toHouseId st with
      | Some (j, target) =>
          result.1
          = setAllocations
              (<[j := BatchAllocation.setQuantity
                        (BatchAllocation.quantity target + quantity) target]>
                 (<[i := debited]> (allocations st))) st
      | None =>
          result.1
          = setAllocations
              (<[i := debited]> (allocations st)
               ++ [BatchAllocation.mk uuid batchId toHouseId quantity]) st
      end.
Proof.
  unfold transferBirds. handler_cases; eauto.
  all: right; eexists _, _; split; [reflexivity|]; simpl.
  all: repeat case_match; simplify_eq; reflexivity.
Qed.

(** ** Sums per batch and per house under the two kinds of write *)

Lemma Batch_findOne_Some batchId farm st i b :
  Batch_findOne batchId farm st = Some (i, b) →
  batches st !! i = Some b ∧ Batch.id b = batchId ∧ Batch.farmId b = farm.
Proof.
  intros Hf. apply list_find_Some in Hf as (Hi & [Hid Hfarm] & _). done.
Qed.

Lemma Allocation_findOne_Some batchId houseId st i a :
  Allocation_findOne batchId houseId st = Some (i, a) →
  allocations st !! i = Some a ∧ BatchAllocation.batchId a = batchId
  ∧ BatchAllocation.houseId a = houseId.
Proof.
  intros Hf. apply list_find_Some in Hf as (Hi & [Hb Hh] & _). done.
Qed.

Lemma allocatedCount_save batchId st i a q :
  allocations st !! i = Some a →
  allocatedCount batchId
    (setAllocations (<[i := BatchAllocation.setQuantity q a]> (allocations st))
       st)
  = allocatedCount batchId st
    + (if decide (BatchAllocation.batchId a = batchId)
       then q - BatchAllocation.quantity a else 0).
Proof.
  intros Hi. unfold allocatedCount, Allocation_findByBatch. simpl.
  rewrite (total_filter_insert _ _ _ _ _ Hi). unfold share. simpl.
  destruct (decide (BatchAllocation.batchId a = batchId)); lia.
Qed.

Lemma allocatedCount_create batchId st a :
  allocatedCount batchId (setAllocations (allocations st ++ [a]) st)
  = allocatedCount batchId st
    + (if decide (BatchAllocation.batchId a = batchId)
       then BatchAllocation.quantity a else 0).
Proof.
  unfold allocatedCount, Allocation_findByBatch. simpl.
  rewrite total_filter_snoc. reflexivity.
Qed.

Lemma occupancy_save houseId st i a q :
  allocations st !! i = Some a →
  occupancy houseId
    (setAllocations (<[i := BatchAllocation.setQuantity q a]> (allocations st))
       st)
  = occupancy houseId st
    + (if decide (BatchAllocation.houseId a = houseId)
       then q - BatchAllocation.quantity a else 0).
Proof.
  intros Hi. unfold occupancy, Allocation_findByHouse. simpl.
  rewrite (total_filter_insert _ _ _ _ _ Hi). unfold share. simpl.
  destruct (decide (BatchAllocation.houseId a = houseId)); lia.
Qed.

(** C10.  A transfer from a house to the same house, with a record holding
    at least the requested quantity and a capacity (if declared) that admits
    quantity + requested, is accepted; the record ends at its original
    quantity plus the requested amount, so the batch's allocated count grows
    by the requested quantity: the credit computed from the second, stale
    copy of the record overwrites the debit. *)
Theorem transfer_within_one_house_adds
    user farm batchId houseId quantity uuid st ib b i a ih h :
  memberOf user farm →
  Batch_findOne batchId farm st = Some (ib, b) →
  Allocation_findOne batchId houseId st = Some (i, a) →
  quantity ≤ BatchAllocation.quantity a →
  House_findOne houseId farm st = Some (ih, h) →
  (∀ c, House.capacity h = Some c → BatchAllocation.quantity a + quantity ≤ c) →
  let result := transferBirds user batchId houseId houseId quantity uuid st in
  let final :=
    BatchAllocation.setQuantity (BatchAllocation.quantity a + quantity) a in
  status result.2 = 200 ∧
  allocations result.1 = <[i := final]> (allocations st) ∧
  Allocation_findOne batchId houseId result.1 = Some (i, final) ∧
  BatchAllocation.quantity final = BatchAllocation.quantity a + quantity ∧
  allocatedCount batchId result.1 = allocatedCount batchId st + quantity.
Proof.
  intros Hm Hb Ha Hq Hh Hcap result final.
  assert (Hex : exceeded (House.capacity h)
                  (BatchAllocation.quantity a + quantity) = None).
  { unfold exceeded. destruct (House.capacity h) as [c|]; [|done].
    specialize (Hcap c eq_refl).
    rewrite bool_decide_eq_false_2; [done|]. lia. }
  assert (Hr := transferBirds_existing user farm batchId houseId houseId
                  quantity uuid st ib i ih b a h Hm Hb Ha Hq Hh i a Ha Hex).
  simpl in Hr. fold result final in Hr.
  destruct (Allocation_findOne_Some _ _ _ _ _ Ha) as (Hi & Hbid & Hhid).
  rewrite Hr. simpl. rewrite list_insert_insert_eq. split_and!; try done.
  - unfold Allocation_findOne. simpl.
    apply list_find_insert_found with (x := a); [exact Ha|]. done.
  - fold (setAllocations (<[i := final]> (allocations st)) st).
    unfold final. rewrite (allocatedCount_save _ _ _ _ _ Hi).
    rewrite decide_True by done. lia.
Qed.

Lemma transfer_within_one_house_adds_witness :
  let st := mkStore [demoBatch] farmHouses
              [BatchAllocation.mk "a1" "b1" "hA" 300] [] in
  allocatedCount "b1" st = 300 ∧
  allocatedCount "b1"
    (transferBirds demoUser "b1" "hA" "hA" 100 "a9" st).1 = 400.
Proof.
  intros st. split; [reflexivity|].
  refine (proj2 (proj2 (proj2 (proj2
    (transfer_within_one_house_adds demoUser "farm1" "b1" "hA" 100 "a9" st
       0%nat demoBatch 0%nat (BatchAllocation.mk "a1" "b1" "hA" 300)
       0%nat (House.mk "hA" "farm1" "House A" (Some 500)) _ _ _ _ _ _))))).
  - split; [reflexivity | discriminate].
  - reflexivity.
  - reflexivity.
  - simpl. lia.
  - reflexivity.
  - intros c [= <-]. simpl. lia.
Defined.

(** ** Allocation *)

(** Every way [createBatchAllocation] can end, as far as the store goes. *)
Lemma createBatchAllocation_cases user batchId houseId quantity uuid st :
  let result := createBatchAllocation user batchId houseId quantity uuid st in
  result.1 = st
  ∨ ∃ farm ib b ih h,
      Batch_findOne batchId farm st = Some (ib, b) ∧
      House_findOne houseId farm st = Some (ih, h) ∧
      quantity ≤ Batch.currentCount b - allocatedCount batchId st ∧
      exceeded (House.capacity h) (occupancy houseId st + quantity) = None ∧
      match Allocation_findOne batchId houseId st with
      | Some (i, existing) =>
          result.1
          = setAllocations
              (<[i := BatchAllocation.setQuantity
                        (BatchAllocation.quantity existing + quantity)
                        existing]> (allocations st)) st
      | None =>
          result.1
          = setAllocations
              (allocations st
               ++ [BatchAllocation.mk uuid batchId houseId quantity]) st
      end.
Proof.
  unfold createBatchAllocation. handler_cases; eauto.
  all: right.
  all: repeat match goal with
         | H : snd <$> ?x = Some _ |- _ =>
             destruct x as [[? ?]|] eqn:?; simpl in H; simplify_eq
         end.
  all: match goal with
       | Hb : Batch_findOne _ ?farm _ = Some (?ib, ?b),
         Hh : House_findOne _ ?farm _ = Some (?ih, ?h) |- _ =>
           exists farm, ib, b, ih, h;
           destruct (Batch_findOne_Some _ _ _ _ _ Hb) as (_ & Hid & _)
       end.
  all: unfold allocatedCount, occupancy.
  all: rewrite <- !sumQuantity_total.
  all: repeat match goal with
         | H : bool_decide _ = false |- _ =>
             apply bool_decide_eq_false_1 in H
         end.
  all: subst batchId; split_and!; try done; try lia.
Qed.

(** ** Invariant A *)

Lemma unique_batch st i b b' :
  uniqueBatchIds st → batches st !! i = Some b → b' ∈ batches st →
  Batch.id b' = Batch.id b → b' = b.
Proof.
  intros Hnd Hi Hin Hid. apply list_elem_of_lookup in Hin as [j Hj].
  assert (i = j) as ->; [|congruence].
  eapply (NoDup_lookup _ _ _ _ Hnd); rewrite list_lookup_fmap.
  - by rewrite Hi.
  - rewrite Hj. simpl. by rewrite Hid.
Qed.

Lemma transferBirds_allocatedCount
    user batchId fromHouseId toHouseId quantity uuid st bid :
  fromHouseId ≠ toHouseId →
  allocatedCount bid
    (transferBirds user batchId fromHouseId toHouseId quantity uuid st).1
  = allocatedCount bid st.
Proof.
  intros Hne.
  destruct (transferBirds_cases user batchId fromHouseId toHouseId quantity
              uuid st) as [->|(i & source & Hs & Hr)]; [done|].
  destruct (Allocation_findOne_Some _ _ _ _ _ Hs) as (Hi & Hsb & Hsh).
  simpl in Hr.
  set (st1 := setAllocations
                (<[i := BatchAllocation.setQuantity
                          (BatchAllocation.quantity source - quantity)
                          source]> (allocations st)) st) in *.
  assert (H1 : allocatedCount bid st1
               = allocatedCount bid st
                 + (if decide (batchId = bid) then - quantity else 0)).
  { unfold st1. rewrite (allocatedCount_save _ _ _ _ _ Hi), Hsb.
    destruct (decide (batchId = bid)); lia. }
  destruct (Allocation_findOne batchId toHouseId st) as [[j target]|] eqn:Ht.
  - destruct (Allocation_findOne_Some _ _ _ _ _ Ht) as (Hj & Htb & Hth).
    assert (i ≠ j) by (intros ->; congruence).
    assert (Hj1 : allocations st1 !! j = Some target).
    { unfold st1. simpl. by rewrite list_lookup_insert_ne. }
    rewrite Hr.
    change (setAllocations ?l st) with (setAllocations l st1).
    rewrite (allocatedCount_save _ _ _ _ _ Hj1), H1, Htb.
    destruct (decide (batchId = bid)); lia.
  - rewrite Hr.
    change (setAllocations (?l ++ ?x) st)
      with (setAllocations (allocations st1 ++ x) st1).
    rewrite allocatedCount_create, H1. simpl.
    destruct (decide (batchId = bid)); lia.
Qed.

(** C2 (amended).  In a store with unique batch ids where invariant A holds,
    it still holds after every [createBatchAllocation] call and after every
    [transferBirds] call between two different houses. *)
Theorem allocate_and_transfer_keep_invariantA user st :
  uniqueBatchIds st →
  invariantA st →
  (∀ batchId houseId quantity uuid,
     invariantA (createBatchAllocation user batchId houseId quantity uuid st).1)
  ∧ (∀ batchId fromHouseId toHouseId quantity uuid,
       fromHouseId ≠ toHouseId →
       invariantA
         (transferBirds user batchId fromHouseId toHouseId quantity uuid
            st).1).
Proof.
  intros Hnd Hinv. split.
  - intros batchId houseId quantity uuid.
    destruct (createBatchAllocation_cases user batchId houseId quantity uuid st)
      as [->|(farm & ib & b & ih & h & Hb & Hh & Hq & _ & Hr)]; [done|].
    destruct (Batch_findOne_Some _ _ _ _ _ Hb) as (Hib & Hid & _).
    assert (Hsum : ∀ bid,
      allocatedCount bid
        (createBatchAllocation user batchId houseId quantity uuid st).1
      = allocatedCount bid st
        + (if decide (batchId = bid) then quantity else 0)).
    { intros bid.
      destruct (Allocation_findOne batchId houseId st) as [[i a]|] eqn:Ha.
      - destruct (Allocation_findOne_Some _ _ _ _ _ Ha) as (Hi & Hab & _).
        rewrite Hr, (allocatedCount_save _ _ _ _ _ Hi), Hab.
        destruct (decide (batchId = bid)); lia.
      - rewrite Hr, allocatedCount_create. reflexivity. }
    intros b' Hb'. rewrite Hsum.
    assert (Hin : b' ∈ batches st).
    { destruct (Allocation_findOne batchId houseId st) as [[i a]|];
        rewrite Hr in Hb'; exact Hb'. }
    destruct (decide (batchId = Batch.id b')) as [Heq|Hne].
    + assert (b' = b) as -> by (eapply unique_batch; eauto; congruence).
      rewrite Hid. lia.
    + specialize (Hinv b' Hin). lia.
  - intros batchId fromHouseId toHouseId quantity uuid Hne b' Hb'.
    rewrite transferBirds_allocatedCount by done.
    apply Hinv.
    destruct (transferBirds_frame user batchId fromHouseId toHouseId quantity
                uuid st) as (Hbs & _).
    simpl in Hbs. by rewrite Hbs in Hb'.
Qed.

Lemma fullyPlaced_invariantA : invariantA fullyPlaced.
Proof.
  intros b Hb. apply list_elem_of_singleton in Hb as ->. vm_compute.
  discriminate.
Qed.

(** C2 as stated fails: one recorded death in a fully placed batch is accepted
    and leaves 100 birds allocated against a current count of 99. *)
Lemma loss_delta_breaks_invariantA :
  invariantA fullyPlaced ∧
  status (updateBirdCounts demoUser "b1"
            (mkCounts (Some 1) None None None None) "h1" fullyPlaced).2 = 200 ∧
  ¬ invariantA (updateBirdCounts demoUser "b1"
                  (mkCounts (Some 1) None None None None) "h1" fullyPlaced).1.
Proof.
  split_and!; [exact fullyPlaced_invariantA | reflexivity |].
  intros Hinv.
  specialize (Hinv (Batch.mk "b1" "farm1" "Layers" 100 1 0 0 false)).
  vm_compute in Hinv. apply Hinv; [|reflexivity].
  apply list_elem_of_here.
Qed.

Lemma allocate_and_transfer_keep_invariantA_witness :
  invariantA (createBatchAllocation demoUser "b1" "hB" 1 "a2" fullyPlaced).1
  ∧ invariantA (transferBirds demoUser "b1" "hA" "hB" 40 "a2" fullyPlaced).1.
Proof.
  destruct (allocate_and_transfer_keep_invariantA demoUser fullyPlaced)
    as [Hallocate Htransfer].
  - unfold uniqueBatchIds. simpl. apply NoDup_singleton.
  - exact fullyPlaced_invariantA.
  - split; [apply Hallocate | apply Htransfer; discriminate].
Defined.

(** ** Validation order of [createBatchAllocation] *)

Section Allocate.
Context (user : User.t) (farm batchId houseId : string) (quantity : Z)
  (uuid : string) (st : Store).
Hypothesis Hmember : memberOf user farm.

Local Abbreviation result :=
  (createBatchAllocation user batchId houseId quantity uuid st).

Lemma allocate_no_batch :
  Batch_findOne batchId farm st = None →
  result = (st, mkResponse 404 (Message "Batch not found")).
Proof.
  intros Hb. unfold createBatchAllocation. handler_unfold.
  by rewrite (requireFarm_member _ _ _ Hmember), Hb.
Qed.

Lemma allocate_insufficient ib b :
  Batch_findOne batchId farm st = Some (ib, b) →
  quantity > Batch.currentCount b - allocatedCount batchId st →
  result
  = (st, mkResponse 400
           (NotEnoughUnallocated (Batch.currentCount b)
              (allocatedCount batchId st)
              (Batch.currentCount b - allocatedCount batchId st) quantity)).
Proof.
  intros Hb Hq. destruct (Batch_findOne_Some _ _ _ _ _ Hb) as (_ & Hid & _).
  unfold createBatchAllocation. handler_unfold.
  rewrite (requireFarm_member _ _ _ Hmember), Hb. simpl.
  rewrite Hid, sumQuantity_total.
  fold (allocatedCount batchId st).
  by rewrite bool_decide_eq_true_2.
Qed.

Lemma allocate_no_house ib b :
  Batch_findOne batchId farm st = Some (ib, b) →
  quantity ≤ Batch.currentCount b - allocatedCount batchId st →
  House_findOne houseId farm st = None →
  result = (st, mkResponse 404 (Message "House not found or unauthorized")).
Proof.
  intros Hb Hq Hh. destruct (Batch_findOne_Some _ _ _ _ _ Hb) as (_ & Hid & _).
  unfold createBatchAllocation. handler_unfold.
  rewrite (requireFarm_member _ _ _ Hmember), Hb. simpl.
  rewrite Hid, sumQuantity_total.
  fold (allocatedCount batchId st).
  rewrite bool_decide_eq_false_2 by lia.
  by rewrite Hh.
Qed.

(** The quantity the (batch, house) pair already holds. *)
Local Abbreviation existingQuantity :=
  (from_option (λ d : nat * BatchAllocation.doc, BatchAllocation.quantity d.2)
     0 (Allocation_findOne batchId houseId st)).

Lemma allocate_over_capacity ib b ih h c :
  Batch_findOne batchId farm st = Some (ib, b) →
  quantity ≤ Batch.currentCount b - allocatedCount batchId st →
  House_findOne houseId farm st = Some (ih, h) →
  House.capacity h = Some c → c ≠ 0 →
  existingQuantity + quantity > c ∨ occupancy houseId st + quantity > c →
  result.1 = st ∧ failure result.2 = Some CapacityExceeded.
Proof.
  intros Hb Hq Hh Hc Hc0 Hover.
  destruct (Batch_findOne_Some _ _ _ _ _ Hb) as (_ & Hid & _).
  unfold occupancy in Hover. rewrite <- sumQuantity_total in Hover.
  unfold createBatchAllocation. handler_unfold.
  rewrite (requireFarm_member _ _ _ Hmember), Hb. simpl.
  rewrite Hid, sumQuantity_total.
  fold (allocatedCount batchId st).
  rewrite bool_decide_eq_false_2 by lia.
  rewrite Hh. simpl.
  unfold exceeded. rewrite Hc.
  destruct (decide (existingQuantity + quantity > c)) as [H1|H1].
  - rewrite (bool_decide_eq_true_2 (c ≠ 0 ∧ existingQuantity + quantity > c))
      by done.
    rewrite bool_decide_eq_true_2 by eauto. done.
  - rewrite (bool_decide_eq_false_2 (c ≠ 0 ∧ existingQuantity + quantity > c))
      by (intros [? ?]; done).
    rewrite bool_decide_eq_false_2 by (by intros [? ?]).
    simpl.
    rewrite bool_decide_eq_true_2 by (split; [done|]; destruct Hover; done).
    done.
Qed.

Lemma allocate_accepted ib b ih h :
  Batch_findOne batchId farm st = Some (ib, b) →
  quantity ≤ Batch.currentCount b - allocatedCount batchId st →
  House_findOne houseId farm st = Some (ih, h) →
  (∀ c, House.capacity h = Some c → c ≠ 0 →
        existingQuantity + quantity ≤ c ∧ occupancy houseId st + quantity ≤ c) →
  status result.2 = 201 ∧
  ∃ a, body result.2 = AllocationDoc a ∧
       BatchAllocation.batchId a = batchId ∧
       BatchAllocation.houseId a = houseId ∧
       BatchAllocation.quantity a = existingQuantity + quantity ∧
       Allocation_findOne batchId houseId result.1 = Some
         (from_option fst (length (allocations st))
            (Allocation_findOne batchId houseId st), a).
Proof.
  intros Hb Hq Hh Hcap.
  destruct (Batch_findOne_Some _ _ _ _ _ Hb) as (_ & Hid & _).
  unfold occupancy in Hcap. rewrite <- sumQuantity_total in Hcap.
  unfold createBatchAllocation. handler_unfold.
  rewrite (requireFarm_member _ _ _ Hmember), Hb. simpl.
  rewrite Hid, sumQuantity_total.
  fold (allocatedCount batchId st).
  rewrite bool_decide_eq_false_2 by lia.
  rewrite Hh. simpl.
  assert (Hex : ∀ total,
    (∀ c, House.capacity h = Some c → c ≠ 0 → total ≤ c) →
    exceeded (House.capacity h) total = None).
  { intros total Ht. unfold exceeded.
    destruct (House.capacity h) as [c|]; [|done].
    rewrite bool_decide_eq_false_2; [done|].
    intros [Hc0 Hgt]. specialize (Ht c eq_refl Hc0). lia. }
  rewrite (Hex (existingQuantity + quantity))
    by (intros c Hc Hc0; by destruct (Hcap c Hc Hc0)).
  rewrite bool_decide_eq_false_2 by (by intros [? ?]).
  simpl.
  rewrite Hex by (intros c Hc Hc0; by destruct (Hcap c Hc Hc0)).
  destruct (Allocation_findOne batchId houseId st) as [[i a]|] eqn:Ha;
    simpl; (split; [done|]); eexists; (split; [reflexivity|]).
  - destruct (Allocation_findOne_Some _ _ _ _ _ Ha) as (Hi & Hab & Hah).
    split_and!; try done.
    unfold Allocation_findOne. simpl.
    by apply list_find_insert_found with (x := a).
  - split_and!; try done.
    unfold Allocation_findOne in *. simpl.
    apply list_find_Some. split; [|split].
    + by rewrite lookup_app_r, Nat.sub_diag.
    + done.
    + intros j y Hj Hlt. rewrite lookup_app_l in Hj by done.
      apply list_find_None in Ha. rewrite Forall_forall in Ha.
      apply Ha. by eapply list_elem_of_lookup_2.
Qed.
End Allocate.

(** C7 (amended).  [createBatchAllocation] validates in this order: the
    batch is in the caller's farm (whether it is archived is not looked at),
    else NotFound; [quantity ≤ unallocatedCount], else
    InsufficientUnallocated, also when the house is missing; the house is in
    the caller's farm, else NotFound; if the house has a non-zero capacity,
    neither the pair's existing quantity nor the house's occupancy may pass
    it once [quantity] is added, else CapacityExceeded.  A rejection leaves
    the store as it was.  Otherwise the allocation is made and the answer is
    201: the answer is the pair's record, which is found in the store
    afterwards, at the place it had or as a new last record, holding the
    pair's existing quantity plus [quantity]. *)
Theorem allocate_validation_order
    user farm batchId houseId quantity uuid st :
  memberOf user farm →
  let result := createBatchAllocation user batchId houseId quantity uuid st in
  let unallocatedCount b :=
    Batch.currentCount b - allocatedCount batchId st in
  let existingQuantity :=
    from_option (λ d : nat * BatchAllocation.doc, BatchAllocation.quantity d.2)
      0 (Allocation_findOne batchId houseId st) in
  (Batch_findOne batchId farm st = None →
   result.1 = st ∧ failure result.2 = Some NotFound)
  ∧ (∀ ib b, Batch_findOne batchId farm st = Some (ib, b) →
       (quantity > unallocatedCount b →
        result.1 = st ∧ failure result.2 = Some InsufficientUnallocated)
       ∧ (quantity ≤ unallocatedCount b →
          (House_findOne houseId farm st = None →
           result.1 = st ∧ failure result.2 = Some NotFound)
          ∧ (∀ ih h, House_findOne houseId farm st = Some (ih, h) →
               (∀ c, House.capacity h = Some c → c ≠ 0 →
                     existingQuantity + quantity > c
                     ∨ occupancy houseId st + quantity > c →
                     result.1 = st
                     ∧ failure result.2 = Some CapacityExceeded)
               ∧ ((∀ c, House.capacity h = Some c → c ≠ 0 →
                        existingQuantity + quantity ≤ c
                        ∧ occupancy houseId st + quantity ≤ c) →
                  status result.2 = 201
                  ∧ ∃ a,
                      body result.2 = AllocationDoc a
                      ∧ BatchAllocation.batchId a = batchId
                      ∧ BatchAllocation.houseId a = houseId
                      ∧ BatchAllocation.quantity a
                        = existingQuantity + quantity
                      ∧ Allocation_findOne batchId houseId result.1
                        = Some (from_option fst (length (allocations st))
                                  (Allocation_findOne batchId houseId st),
                                a))))).
Proof.
  intros Hm result unallocatedCount existingQuantity. split.
  - intros Hb. unfold result.
    by rewrite (allocate_no_batch user farm batchId houseId quantity uuid st
                  Hm Hb).
  - intros ib b Hb. split.
    + intros Hq. unfold result.
      by rewrite (allocate_insufficient user farm batchId houseId quantity
                    uuid st Hm ib b Hb Hq).
    + intros Hq. split.
      * intros Hh. unfold result.
        by rewrite (allocate_no_house user farm batchId houseId quantity uuid
                      st Hm ib b Hb Hq Hh).
      * intros ih h Hh. split.
        -- intros c Hc Hc0 Hover.
           exact (allocate_over_capacity user farm batchId houseId quantity
                    uuid st Hm ib b ih h c Hb Hq Hh Hc Hc0 Hover).
        -- intros Hfits.
           exact (allocate_accepted user farm batchId houseId quantity uuid
                    st Hm ib b ih h Hb Hq Hh Hfits).
Qed.

(** C7 as stated fails twice: with the house missing and the quantity above
    the unallocated count the answer is InsufficientUnallocated, not the
    house's NotFound; and an allocation into an archived batch is accepted. *)
Lemma allocate_checks_quantity_before_house :
  House_findOne "hZ" "farm1" halfPlaced = None ∧
  (createBatchAllocation demoUser "b1" "hZ" 600 "a2" halfPlaced).2
  = mkResponse 400 (NotEnoughUnallocated 982 500 482 600) ∧
  failure (createBatchAllocation demoUser "b1" "hZ" 600 "a2" halfPlaced).2
  ≠ Some NotFound ∧
  (snd <$> Batch_findOne "b2" "farm1" halfPlaced)
  = Some (Batch.mk "b2" "farm1" "Retired" 50 0 0 0 true) ∧
  (createBatchAllocation demoUser "b2" "hB" 20 "a2" halfPlaced).2
  = mkResponse 201 (AllocationDoc (BatchAllocation.mk "a2" "b2" "hB" 20)).
Proof. split_and!; try reflexivity. vm_compute. discriminate. Qed.

Lemma allocate_validation_order_witness :
  failure (createBatchAllocation demoUser "b1" "hZ" 600 "a2" halfPlaced).2
  = Some InsufficientUnallocated
  ∧ failure (createBatchAllocation demoUser "b1" "hZ" 400 "a2" halfPlaced).2
    = Some NotFound
  ∧ failure (createBatchAllocation demoUser "b1" "hB" 201 "a2" halfPlaced).2
    = Some CapacityExceeded
  ∧ status (createBatchAllocation demoUser "b1" "hB" 200 "a2" halfPlaced).2
    = 201
  ∧ ∃ a,
      Allocation_findOne "b1" "hB"
        (createBatchAllocation demoUser "b1" "hB" 200 "a2" halfPlaced).1
      = Some (1%nat, a)
      ∧ BatchAllocation.quantity a = 200.
Proof.
  assert (Hm : memberOf demoUser "farm1")
    by (split; [reflexivity | discriminate]).
  assert (Hb : Batch_findOne "b1" "farm1" halfPlaced
               = Some (0%nat, Batch.mk "b1" "farm1" "Layers" 1000 10 5 3 false))
    by reflexivity.
  assert (Hh : House_findOne "hB" "farm1" halfPlaced
               = Some (1%nat, House.mk "hB" "farm1" "House B" (Some 200)))
    by reflexivity.
  assert (Hdone :
    status (createBatchAllocation demoUser "b1" "hB" 200 "a2" halfPlaced).2
    = 201
    ∧ ∃ a,
        body (createBatchAllocation demoUser "b1" "hB" 200 "a2" halfPlaced).2
        = AllocationDoc a
        ∧ BatchAllocation.batchId a = "b1"
        ∧ BatchAllocation.houseId a = "hB"
        ∧ BatchAllocation.quantity a = 0 + 200
        ∧ Allocation_findOne "b1" "hB"
            (createBatchAllocation demoUser "b1" "hB" 200 "a2" halfPlaced).1
          = Some (1%nat, a)).
  { refine (proj2 (proj2 (proj2 (proj2 (allocate_validation_order demoUser
              "farm1" "b1" "hB" 200 "a2" halfPlaced Hm) _ _ Hb) _) _ _ Hh)
              _).
    - vm_compute. discriminate.
    - intros c [= <-] _. vm_compute. split; discriminate. }
  split_and!.
  - refine (proj2 (proj1 (proj2 (allocate_validation_order demoUser "farm1"
                                   "b1" "hZ" 600 "a2" halfPlaced Hm) _ _ Hb)
                     _)).
    vm_compute. reflexivity.
  - refine (proj2 (proj1 (proj2 (proj2 (allocate_validation_order demoUser
              "farm1" "b1" "hZ" 400 "a2" halfPlaced Hm) _ _ Hb) _) _)).
    + vm_compute. discriminate.
    + reflexivity.
  - refine (proj2 (proj1 (proj2 (proj2 (proj2 (allocate_validation_order
              demoUser "farm1" "b1" "hB" 201 "a2" halfPlaced Hm) _ _ Hb) _)
              _ _ Hh) 200 _ _ _)).
    + vm_compute. discriminate.
    + reflexivity.
    + discriminate.
    + left. vm_compute. reflexivity.
  - exact (proj1 Hdone).
  - destruct Hdone as (_ & a & _ & _ & _ & Hq & Hfound).
    exists a. split; [exact Hfound | exact Hq].
Defined.

(** ** Targets outside the caller's farm *)

Section Tenancy.
Context (user : User.t) (farm : string) (st : Store).
Hypothesis Hmember : memberOf user farm.

Ltac enter := handler_unfold; rewrite (requireFarm_member _ _ _ Hmember).

Lemma updateBirdCounts_no_batch batchId delta uuid :
  validDeltas delta = true →
  Batch_findOne batchId farm st = None →
  updateBirdCounts user batchId delta uuid st
  = (st, mkResponse 404 (Message "Batch not found or unauthorized")).
Proof.
  intros Hv Hb. unfold validDeltas in Hv.
  apply andb_prop in Hv as [Hv1 Hv2]. apply negb_true_iff in Hv1, Hv2.
  unfold updateBirdCounts, countsCheck. enter.
  by rewrite Hv1, Hv2, Hb.
Qed.

Lemma transferBirds_no_batch batchId fromHouseId toHouseId quantity uuid :
  Batch_findOne batchId farm st = None →
  transferBirds user batchId fromHouseId toHouseId quantity uuid st
  = (st, mkResponse 404 (Message "Batch not found or unauthorized")).
Proof. intros Hb. unfold transferBirds. enter. by rewrite Hb. Qed.

Lemma transferBirds_no_house
    batchId fromHouseId toHouseId quantity uuid ib b i source :
  Batch_findOne batchId farm st = Some (ib, b) →
  Allocation_findOne batchId fromHouseId st = Some (i, source) →
  quantity ≤ BatchAllocation.quantity source →
  House_findOne toHouseId farm st = None →
  transferBirds user batchId fromHouseId toHouseId quantity uuid st
  = (st, mkResponse 404
           (Message "Destination house not found or unauthorized")).
Proof.
  intros Hb Hs Hq Hh. unfold transferBirds. enter.
  rewrite Hb. simpl. rewrite Hs. simpl.
  rewrite bool_decide_eq_false_2 by lia. by rewrite Hh.
Qed.

Lemma updateBatchAllocation_foreign_batch allocationId quantity i a :
  Allocation_findById allocationId st = Some (i, a) →
  Batch_findOne (BatchAllocation.batchId a) farm st = None →
  updateBatchAllocation user allocationId quantity st
  = (st, mkResponse 403 (Message "Unauthorized to update this allocation")).
Proof.
  intros Ha Hb. unfold updateBatchAllocation. enter.
  rewrite Ha. simpl. by rewrite Hb.
Qed.

Lemma updateBatchAllocation_no_house allocationId quantity i a ib b :
  Allocation_findById allocationId st = Some (i, a) →
  Batch_findOne (BatchAllocation.batchId a) farm st = Some (ib, b) →
  House_findOne (BatchAllocation.houseId a) farm st = None →
  updateBatchAllocation user allocationId quantity st
  = (st, mkResponse 404 (Message "House not found or unauthorized")).
Proof.
  intros Ha Hb Hh. unfold updateBatchAllocation. enter.
  rewrite Ha. simpl. rewrite Hb. simpl. by rewrite Hh.
Qed.

Lemma reads_no_batch batchId :
  Batch_findOne batchId farm st = None →
  getBatchAvailability user batchId st
  = (st, mkResponse 404 (Message "Batch not found"))
  ∧ getBatchAllocations user batchId st
    = (st, mkResponse 404 (Message "Batch not found"))
  ∧ getBirdCountHistory user batchId st
    = (st, mkResponse 404 (Message "Batch not found or unauthorized")).
Proof.
  intros Hb.
  unfold getBatchAvailability, getBatchAllocations, getBirdCountHistory.
  enter. by rewrite Hb.
Qed.

Lemma getHouseBatchAllocations_no_house houseId :
  House_findOne houseId farm st = None →
  getHouseBatchAllocations user houseId st
  = (st, mkResponse 404 (Message "House not found or unauthorized")).
Proof. intros Hh. unfold getHouseBatchAllocations. enter. by rewrite Hh. Qed.
Lemma crud_no_batch batchId :
  Batch_findOne batchId farm st = None →
  getBatchById user batchId st = (st, mkResponse 404 (Message "Batch not found"))
  ∧ (∀ updates,
       updateBatch user batchId updates st
       = (st, mkResponse 404 (Message "Batch not found or unauthorized")))
  ∧ deleteBatch user batchId st
    = (st, mkResponse 404 (Message "Batch not found or unauthorized")).
Proof.
  intros Hb. split_and!; [|intros updates|].
  - unfold getBatchById. enter. by rewrite Hb.
  - unfold updateBatch. enter. simpl.
    destruct (bool_decide _); simpl; by rewrite Hb.
  - unfold deleteBatch. enter. by rewrite Hb.
Qed.

Lemma updateBatchAllocation_no_allocation allocationId quantity :
  Allocation_findById allocationId st = None →
  updateBatchAllocation user allocationId quantity st
  = (st, mkResponse 404 (Message "Allocation not found")).
Proof. intros Ha. unfold updateBatchAllocation. enter. by rewrite Ha. Qed.
End Tenancy.

(** C8.  The code breaks the claim in one place.  A batch that is not in
    the caller's farm (missing, or owned by another farm) makes every
    operation addressed at it fail with NotFound and no change, a loss-delta
    application provided its deltas are valid; a house that is not in the
    caller's farm is reported as NotFound by the house listing, by an
    allocation whose quantity the batch can give, by a transfer whose source
    record suffices, and by [updateBatchAllocation] once its batch check has
    passed.  But [updateBatchAllocation] on an allocation whose batch is not
    in the caller's farm answers 403 Forbidden, where the same failed lookup
    is a 404 everywhere else. *)
Theorem foreign_targets_are_not_found_except_on_update user farm st :
  memberOf user farm →
  let notFound (result : Store * Response) :=
    result.1 = st ∧ failure result.2 = Some NotFound in
  (∀ batchId, Batch_findOne batchId farm st = None →
     notFound (getBatchAvailability user batchId st)
     ∧ (∀ delta uuid, validDeltas delta = true →
          notFound (updateBirdCounts user batchId delta uuid st))
     ∧ (∀ houseId quantity uuid,
          notFound (createBatchAllocation user batchId houseId quantity uuid
                      st))
     ∧ (∀ fromHouseId toHouseId quantity uuid,
          notFound (transferBirds user batchId fromHouseId toHouseId quantity
                      uuid st))
     ∧ notFound (getBatchAllocations user batchId st)
     ∧ notFound (getBirdCountHistory user batchId st)
     ∧ notFound (getBatchById user batchId st)
     ∧ (∀ updates, notFound (updateBatch user batchId updates st))
     ∧ notFound (deleteBatch user batchId st))
  ∧ (∀ houseId, House_findOne houseId farm st = None →
       notFound (getHouseBatchAllocations user houseId st)
       ∧ (∀ batchId quantity uuid ib b,
            Batch_findOne batchId farm st = Some (ib, b) →
            quantity ≤ Batch.currentCount b - allocatedCount batchId st →
            notFound (createBatchAllocation user batchId houseId quantity
                        uuid st))
       ∧ (∀ batchId fromHouseId quantity uuid ib b i source,
            Batch_findOne batchId farm st = Some (ib, b) →
            Allocation_findOne batchId fromHouseId st = Some (i, source) →
            quantity ≤ BatchAllocation.quantity source →
            notFound (transferBirds user batchId fromHouseId houseId quantity
                        uuid st)))
  ∧ (∀ allocationId quantity,
       (Allocation_findById allocationId st = None →
        notFound (updateBatchAllocation user allocationId quantity st))
       ∧ (∀ i a, Allocation_findById allocationId st = Some (i, a) →
            (Batch_findOne (BatchAllocation.batchId a) farm st = None →
             updateBatchAllocation user allocationId quantity st
             = (st, mkResponse 403
                      (Message "Unauthorized to update this allocation"))
             ∧ failure (updateBatchAllocation user allocationId quantity st).2
               = Some Forbidden)
            ∧ (is_Some (Batch_findOne (BatchAllocation.batchId a) farm st) →
               House_findOne (BatchAllocation.houseId a) farm st = None →
               notFound (updateBatchAllocation user allocationId quantity
                           st)))).
Proof.
  intros Hm notFound. unfold notFound. split_and!.
  - intros batchId Hb.
    destruct (reads_no_batch user farm st Hm batchId Hb) as (-> & -> & ->).
    destruct (crud_no_batch user farm st Hm batchId Hb) as (-> & Hu & ->).
    split_and!; try done.
    + intros delta uuid Hv.
      by rewrite (updateBirdCounts_no_batch user farm st Hm _ _ _ Hv Hb).
    + intros houseId quantity uuid.
      by rewrite (allocate_no_batch user farm batchId houseId quantity uuid
                    st Hm Hb).
    + intros fromHouseId toHouseId quantity uuid.
      by rewrite (transferBirds_no_batch user farm st Hm _ _ _ _ _ Hb).
    + intros updates. by rewrite Hu.
  - intros houseId Hh. split; [|split].
    + by rewrite (getHouseBatchAllocations_no_house user farm st Hm _ Hh).
    + intros batchId quantity uuid ib b Hb Hq.
      by rewrite (allocate_no_house user farm batchId houseId quantity uuid
                    st Hm ib b Hb Hq Hh).
    + intros batchId fromHouseId quantity uuid ib b i source Hb Hs Hq.
      by rewrite (transferBirds_no_house user farm st Hm _ _ _ _ _ _ _ _ _
                    Hb Hs Hq Hh).
  - intros allocationId quantity. split.
    + intros Ha.
      by rewrite (updateBatchAllocation_no_allocation user farm st Hm _ _ Ha).
    + intros i a Ha. split.
      * intros Hb.
        by rewrite (updateBatchAllocation_foreign_batch user farm st Hm _ _ _
                      _ Ha Hb).
      * intros [[ib b] Hb] Hh.
        by rewrite (updateBatchAllocation_no_house user farm st Hm _ _ _ _ _
                      _ Ha Hb Hh).
Qed.

(** C8, at the failing input.  The caller is in farm1; allocation a7 places
    a batch of farm2 in a house of farm2.  Updating it is answered 403
    Forbidden, while the availability of that same batch is a 404 to the
    same caller. *)
Lemma update_of_foreign_allocation_is_forbidden :
  (∃ b, b ∈ batches twoFarms ∧ Batch.id b = "b7" ∧ Batch.farmId b = "farm2") ∧
  updateBatchAllocation demoUser "a7" 10 twoFarms
  = (twoFarms,
     mkResponse 403 (Message "Unauthorized to update this allocation")) ∧
  failure (updateBatchAllocation demoUser "a7" 10 twoFarms).2 = Some Forbidden ∧
  failure (updateBatchAllocation demoUser "a7" 10 twoFarms).2 ≠ Some NotFound ∧
  failure (getBatchAvailability demoUser "b7" twoFarms).2 = Some NotFound.
Proof.
  split_and!; try reflexivity.
  - exists (Batch.mk "b7" "farm2" "Broilers" 400 0 0 0 false).
    split_and!; try reflexivity. apply list_elem_of_further, list_elem_of_here.
  - vm_compute. discriminate.
Qed.

Lemma foreign_targets_are_not_found_except_on_update_witness :
  failure (getBatchAvailability demoUser "b7" twoFarms).2 = Some NotFound
  ∧ failure (createBatchAllocation demoUser "b1" "hX" 100 "a9" twoFarms).2
    = Some NotFound
  ∧ failure (transferBirds demoUser "b1" "hA" "hX" 100 "a9" twoFarms).2
    = Some NotFound
  ∧ failure (updateBatchAllocation demoUser "a7" 10 twoFarms).2
    = Some Forbidden.
Proof.
  assert (Hm : memberOf demoUser "farm1")
    by (split; [reflexivity | discriminate]).
  assert (Hb : Batch_findOne "b1" "farm1" twoFarms
               = Some (0%nat, Batch.mk "b1" "farm1" "Layers" 1000 0 0 0 false))
    by (vm_compute; reflexivity).
  assert (Hforeign : Batch_findOne "b7" "farm1" twoFarms = None)
    by (vm_compute; reflexivity).
  assert (Hhouse : House_findOne "hX" "farm1" twoFarms = None)
    by (vm_compute; reflexivity).
  destruct (foreign_targets_are_not_found_except_on_update demoUser "farm1"
              twoFarms Hm) as (Hbatch & Hhouses & Hupdate).
  split_and!.
  - exact (proj2 (proj1 (Hbatch "b7" Hforeign))).
  - refine (proj2 (proj1 (proj2 (Hhouses "hX" Hhouse)) "b1" 100 "a9" 0%nat _
                     Hb _)).
    vm_compute. discriminate.
  - refine (proj2 (proj2 (proj2 (Hhouses "hX" Hhouse)) "b1" "hA" 100 "a9"
                     0%nat _ 0%nat (BatchAllocation.mk "a1" "b1" "hA" 300)
                     Hb _ _)).
    + vm_compute. reflexivity.
    + vm_compute. discriminate.
  - refine (proj2 (proj1 (proj2 (Hupdate "a7" 10) 1%nat
                            (BatchAllocation.mk "a7" "b7" "hX" 250) _) _)).
    + vm_compute. reflexivity.
    + vm_compute. reflexivity.
Defined.

(** C3, at the failing input.  A house of capacity 500 holds 300 birds of one
    batch and 100 of another; setting the second allocation to 500 is
    accepted, because only the new quantity is compared with the capacity,
    and the house ends with 800.  Likewise a transfer of 50 birds into the
    house when it is full (400 + 100) is accepted, because only the moving
    batch's own record there is compared with the capacity, and the house
    ends with 550. *)
Theorem capacity_not_rechecked_across_batches :
  let updated := updateBatchAllocation demoUser "a2" 500 sharedHouse in
  let moved := transferBirds demoUser "bY" "hA" "hC" 50 "a9" fullHouse in
  invariantB sharedHouse ∧ occupancy "hC" sharedHouse = 400 ∧
  status updated.2 = 200 ∧ occupancy "hC" updated.1 = 800 ∧
  ¬ invariantB updated.1 ∧
  invariantB fullHouse ∧ occupancy "hC" fullHouse = 500 ∧
  status moved.2 = 200 ∧ occupancy "hC" moved.1 = 550 ∧
  ¬ invariantB moved.1.
Proof.
  assert (Hin : ∀ st, houses st = houses sharedHouse →
                House.mk "hC" "farm1" "House C" (Some 500) ∈ houses st).
  { intros st ->. apply list_elem_of_further, list_elem_of_here. }
  assert (Hinv : ∀ st, houses st = houses sharedHouse →
                 occupancy "hC" st ≤ 500 → invariantB st).
  { intros st Hh Hocc h c Hhin Hc. rewrite Hh in Hhin.
    apply elem_of_cons in Hhin as [->|Hhin]; [discriminate|].
    apply list_elem_of_singleton in Hhin as ->.
    injection Hc as <-. exact Hocc. }
  split_and!; try reflexivity.
  - apply Hinv; [reflexivity|]. vm_compute. discriminate.
  - intros H. specialize (H _ 500 (Hin _ eq_refl) eq_refl).
    vm_compute in H. by apply H.
  - apply Hinv; [reflexivity|]. vm_compute. discriminate.
  - intros H. specialize (H _ 500 (Hin _ eq_refl) eq_refl).
    vm_compute in H. by apply H.
Qed.

(** C4, at the failing input.  House A holds 300 birds of the batch, house B
    (capacity 200) has no record of it.  Transferring 100 debits A to 200 and
    creates B's record with 100, and then the response expression fails: the
    caller gets 500 "Server error", not the two allocation records. *)
Theorem transfer_into_new_house_answers_500 :
  let st := mkStore [demoBatch] farmHouses
              [BatchAllocation.mk "a1" "b1" "hA" 300] [] in
  let result := transferBirds demoUser "b1" "hA" "hB" 100 "a2" st in
  result.2 = mkResponse 500 (ServerError "newAllocation is not defined") ∧
  failure result.2 = Some InternalError ∧
  allocations result.1
  = [BatchAllocation.mk "a1" "b1" "hA" 200;
     BatchAllocation.mk "a2" "b1" "hB" 100].
Proof. vm_compute. by split_and!. Qed.

Lemma audit_trail_complete_and_append_only_witness :
  let result :=
    updateBirdCounts demoUser "b1" (mkCounts (Some 10) None None None None)
      "h1" demoStore in
  status result.2 = 200 ∧
  ∃ entry,
    history result.1 = history demoStore ++ [entry] ∧
    BirdCountHistory.beforeState entry
    = BirdCountHistory.mkSnapshot 0 0 0 1000 ∧
    BirdCountHistory.afterState entry
    = BirdCountHistory.mkSnapshot 10 0 0 990 ∧
    BirdCountHistory.dead entry = 10.
Proof.
  intros result. split; [reflexivity|].
  destruct (proj1 (audit_trail_complete_and_append_only demoUser demoStore)
              "b1" (mkCounts (Some 10) None None None None) "h1" eq_refl)
    as (farm & i & b & b' & entry & [Hu _] & Hb & Hb' & Hh & _ & Hbefore
        & Hafter & _ & _ & _ & Hdead & _).
  injection Hu as <-.
  vm_compute in Hb. injection Hb as <- <-.
  vm_compute in Hb'. injection Hb' as <-.
  exists entry. split_and!; [exact Hh | exact Hbefore | exact Hafter | exact Hdead].
Defined.

(** ** Interleaved loss deltas *)

Section Counting.
Context {A : Type} (P : A → Prop) `{∀ x, Decision (P x)}.

Lemma filter_length_insert (l : list A) (k : nat) x y :
  l !! k = Some x →
  (length (filter P (<[k := y]> l)) + (if decide (P x) then 1 else 0)
   = length (filter P l) + (if decide (P y) then 1 else 0))%nat.
Proof.
  revert k; induction l as [|z l IH]; intros [|k] Hk; simpl in Hk;
    try discriminate.
  - injection Hk as ->. simpl. rewrite !filter_cons.
    destruct (decide (P x)), (decide (P y)); simpl; lia.
  - simpl. rewrite !filter_cons. specialize (IH k Hk).
    destruct (decide (P z)); simpl; lia.
Qed.

Lemma filter_length_miss (l : list A) (k : nat) x :
  l !! k = Some x → ¬ P x → (length (filter P l) < length l)%nat.
Proof.
  revert k; induction l as [|z l IH]; intros [|k] Hk Hx; simpl in Hk;
    try discriminate.
  - injection Hk as ->. rewrite filter_cons, decide_False by done.
    simpl. pose proof (length_filter P l). lia.
  - rewrite filter_cons. specialize (IH k Hk Hx).
    destruct (decide (P z)); simpl; lia.
Qed.

Lemma filter_length_all (l : list A) :
  Forall P l → length (filter P l) = length l.
Proof.
  induction 1 as [|z l Hz _ IH]; [done|].
  rewrite filter_cons, decide_True by done. simpl. by rewrite IH.
Qed.
End Counting.

(** A request scheduled alone goes through the handler as written. *)
Lemma alone_is_the_handler q st :
  let final := runSchedule [0; 0; 0]%nat (arrivals st [q]) in
  let result :=
    updateBirdCounts (r_user q) (r_batchId q) (r_body q) (r_uuid q) st in
  store final = result.1 ∧ tasks final = [(q, Responded result.2)].
Proof.
  unfold runSchedule, arrivals, stepTask, updateBirdCounts, run, bind. simpl.
  destruct (countsCheck _ _ _ st) as [st1 [r|[farm b]]]; simpl; [done|].
  destruct (countsIncrement _ _ _ st1) as [st2 [r|b']]; simpl; [done|].
  done.
Qed.

Lemma advance_stage q t st :
  (Nat.min 3 (S (stage t)) ≤ stage (advance q t st).2)%nat.
Proof.
  destruct t as [|farm b|farm b b'|r]; simpl.
  - destruct (countsCheck _ _ _ st) as [st1 [r|[farm b]]]; simpl; lia.
  - destruct (countsIncrement _ _ _ st) as [st1 [r|b']]; simpl; lia.
  - lia.
  - lia.
Qed.

Lemma stepTask_stage k sys j q t :
  tasks sys !! j = Some (q, t) →
  ∃ t', tasks (stepTask k sys) !! j = Some (q, t') ∧
        (stage t + (if decide (k = j) then 1 else 0) ≤ stage t'
         ∨ 3 ≤ stage t')%nat.
Proof.
  intros Hj. unfold stepTask.
  destruct (tasks sys !! k) as [[q0 t0]|] eqn:Hk; cycle 1.
  { exists t. split; [done|]. left.
    rewrite decide_False; [lia|]. intros ->. congruence. }
  pose proof (advance_stage q0 t0 (store sys)) as Hs.
  destruct (advance q0 t0 (store sys)) as [st' t'] eqn:Hadv.
  cbn [tasks snd] in *.
  destruct (decide (k = j)) as [->|Hne].
  - assert (q0 = q ∧ t0 = t) as [-> ->] by (split; congruence).
    exists t'. split; [|lia].
    apply list_lookup_insert_eq. by eapply lookup_lt_Some.
  - exists t. rewrite list_lookup_insert_ne by done. split; [done|lia].
Qed.

Lemma runSchedule_stage schedule sys j q t :
  tasks sys !! j = Some (q, t) →
  ∃ t', tasks (runSchedule schedule sys) !! j = Some (q, t') ∧
        (Nat.min 3 (stage t + turns j schedule) ≤ stage t')%nat.
Proof.
  revert sys t. induction schedule as [|k schedule IH]; intros sys t Hj.
  - exists t. split; [done|]. unfold turns. rewrite filter_nil.
    cbn [length]. lia.
  - destruct (stepTask_stage k sys j q t Hj) as (t1 & Hj1 & Hs1).
    destruct (IH _ _ Hj1) as (t2 & Hj2 & Hs2).
    exists t2. split; [exact Hj2|].
    unfold turns in *. rewrite filter_cons.
    destruct (decide (k = j)); cbn [length] in *; lia.
Qed.

Section SingleDeaths.
Context (farm batchId : string) (i : nat).
Hypothesis Hfarm : farm ≠ "".

Lemma singleDeath_valid q :
  singleDeath farm batchId q →
  memberOf (r_user q) farm ∧ validDeltas (r_body q) = true
  ∧ requested (r_body q) = 1
  ∧ ∀ b, lossTotal (incCounts (r_body q) b) = lossTotal b + 1
         ∧ Batch.dead (incCounts (r_body q) b) = Batch.dead b + 1
         ∧ Batch.culled (incCounts (r_body q) b) = Batch.culled b
         ∧ Batch.offlaid (incCounts (r_body q) b) = Batch.offlaid b.
Proof.
  intros (Hu & _ & Hd & Hc & Ho). unfold memberOf, validDeltas, requested.
  split_and!; try done.
  - rewrite Hd, Hc, Ho. reflexivity.
  - rewrite Hd, Hc, Ho. reflexivity.
  - intros b. rewrite lossTotal_incCounts. unfold requested, incCounts.
    rewrite Hd, Hc, Ho. simpl. split_and!; lia.
Qed.

Lemma tally_insert ts (k : nat) q t t' :
  ts !! k = Some (q, t) →
  (tally (<[k := (q, t')]> ts) + (if decide (counted t) then 1 else 0)
   = tally ts + (if decide (counted t') then 1 else 0))%nat.
Proof.
  intros Hk. unfold tally.
  exact (filter_length_insert (λ qt, counted qt.2) ts k (q, t) (q, t') Hk).
Qed.

Lemma consistent_update sys (k : nat) q t t' st' b' :
  consistent farm batchId i sys →
  tasks sys !! k = Some (q, t) →
  onTrack farm t' →
  Batch_findOne batchId farm st' = Some (i, b') →
  Batch.originalCount b' = 100 →
  Batch.dead b' = Z.of_nat (tally (<[k := (q, t')]> (tasks sys))) →
  Batch.culled b' = 0 → Batch.offlaid b' = 0 →
  consistent farm batchId i
    (mkSystem st' (<[k := (q, t')]> (tasks sys))).
Proof.
  intros [Hts _] Hk Ht' Hb' Ho Hd Hc Hof. split; simpl.
  - apply Forall_insert; [exact Hts|]. simpl. split; [|exact Ht'].
    by destruct (Forall_lookup_1 _ _ _ _ Hts Hk).
  - exists b'. by split_and!.
Qed.

(** One step of any request keeps the system consistent, as long as the
    batch has room for every request. *)
Lemma stepTask_consistent sys k :
  (length (tasks sys) ≤ 100)%nat →
  consistent farm batchId i sys →
  consistent farm batchId i (stepTask k sys).
Proof.
  intros Hlen Hsys. unfold stepTask.
  destruct (tasks sys !! k) as [[q t]|] eqn:Hk; [|exact Hsys].
  pose proof Hsys as [Hts (b & Hb & Ho & Hd & Hc & Hof)].
  destruct (Forall_lookup_1 _ _ _ _ Hts Hk) as [Hq Ht]. simpl in Hq, Ht.
  destruct (singleDeath_valid q Hq) as (Hm & Hv & Hreq & Hinc).
  assert (Hbid : r_batchId q = batchId) by (by destruct Hq as (_ & ? & _)).
  pose proof (tally_insert (tasks sys) k q t) as Htally.
  destruct t as [|f b0|f b0 b1|r]; simpl.
  - (* the read and the check *)
    assert (Hroom : (tally (tasks sys) < length (tasks sys))%nat).
    { unfold tally.
      apply (filter_length_miss (λ qt, counted qt.2) _ k (q, Received) Hk).
      simpl. tauto. }
    rewrite Hbid.
    rewrite (countsCheck_pass (r_user q) farm batchId Hm (r_body q)
               (store sys) i b Hv Hb)
      by (unfold lossTotal; lia).
    specialize (Htally (Validated farm b) Hk). simpl in Htally.
    apply (consistent_update sys k q Received (Validated farm b) (store sys) b
             Hsys Hk); simpl; try done.
    lia.
  - (* the atomic increment *)
    simpl in Ht. subst f. rewrite Hbid.
    rewrite (countsIncrement_found farm batchId (r_body q) (store sys) i b
               Hb).
    specialize (Htally (Incremented farm b0 (incCounts (r_body q) b)) Hk).
    simpl in Htally.
    destruct (Hinc b) as (_ & Hd' & Hc' & Hof').
    apply (consistent_update sys k q (Validated farm b0)
             (Incremented farm b0 (incCounts (r_body q) b))
             (setBatches (<[i := incCounts (r_body q) b]>
                            (batches (store sys))) (store sys))
             (incCounts (r_body q) b) Hsys Hk); simpl; try done.
    + by eapply Batch_findOne_inc.
    + simpl in Hd'. lia.
    + simpl in Hc'. lia.
    + simpl in Hof'. lia.
  - (* the audit record and the answer *)
    specialize (Htally
      (Responded
         (mkResponse 200
            (CountsUpdated b1 (orZero (c_dead (r_body q)))
               (orZero (c_culled (r_body q)))
               (orZero (c_offlaid (r_body q))) (r_uuid q)))) Hk).
    simpl in Htally.
    apply (consistent_update sys k q (Incremented f b0 b1) _ _ b Hsys Hk);
      simpl; try done.
    lia.
  - (* already answered *)
    simpl in Ht. specialize (Htally (Responded r) Hk). simpl in Htally.
    apply (consistent_update sys k q (Responded r) (Responded r) (store sys)
             b Hsys Hk); simpl; try done.
    destruct (decide (status r = 200)); lia.
Qed.

Lemma stepTask_length sys k :
  length (tasks (stepTask k sys)) = length (tasks sys).
Proof.
  unfold stepTask. destruct (tasks sys !! k) as [[q t]|]; [|done].
  destruct (advance q t (store sys)). simpl. apply length_insert.
Qed.

Lemma runSchedule_consistent schedule sys :
  (length (tasks sys) ≤ 100)%nat →
  consistent farm batchId i sys →
  consistent farm batchId i (runSchedule schedule sys)
  ∧ length (tasks (runSchedule schedule sys)) = length (tasks sys).
Proof.
  revert sys. induction schedule as [|k schedule IH]; intros sys Hlen Hsys.
  - done.
  - simpl. destruct (IH (stepTask k sys)) as [Hc Hl].
    + by rewrite stepTask_length.
    + by apply stepTask_consistent.
    + split; [exact Hc|]. by rewrite Hl, stepTask_length.
Qed.

Lemma arrivals_consistent st b requests :
  Batch_findOne batchId farm st = Some (i, b) →
  Batch.originalCount b = 100 → Batch.dead b = 0 →
  Batch.culled b = 0 → Batch.offlaid b = 0 →
  Forall (singleDeath farm batchId) requests →
  consistent farm batchId i (arrivals st requests).
Proof.
  intros Hb Ho Hd Hc Hof Hreqs. split; simpl.
  - apply Forall_fmap. eapply Forall_impl; [exact Hreqs|]. by intros q Hq.
  - exists b. split_and!; try done. rewrite Hd.
    replace (tally ((λ q, (q, Received)) <$> requests)) with 0%nat; [done|].
    unfold tally. clear. induction requests as [|q l IH]; [done|].
    rewrite fmap_cons, filter_cons, decide_False by (simpl; tauto). exact IH.
Qed.
End SingleDeaths.

(** C5.  N ≤ 100 requests [{dead: 1}] for one batch with [originalCount =
    100] and no losses, run concurrently under any schedule that lets each of
    them finish, all answer 200 and leave [dead = N]: the increment is one
    atomic storage operation, so none is lost. *)
Theorem concurrent_single_deaths_all_counted
    farm batchId st i b requests schedule :
  farm ≠ "" →
  Batch_findOne batchId farm st = Some (i, b) →
  Batch.originalCount b = 100 →
  Batch.dead b = 0 → Batch.culled b = 0 → Batch.offlaid b = 0 →
  (length requests ≤ 100)%nat →
  Forall (singleDeath farm batchId) requests →
  (∀ k, (k < length requests)%nat → (3 ≤ turns k schedule)%nat) →
  let final := runSchedule schedule (arrivals st requests) in
  (∃ b', Batch_findOne batchId farm (store final) = Some (i, b')
         ∧ Batch.dead b' = Z.of_nat (length requests))
  ∧ Forall (λ qt, ∃ r, qt.2 = Responded r ∧ status r = 200) (tasks final).
Proof.
  intros Hfarm Hb Ho Hd Hc Hof Hlen Hreqs Hfair final.
  assert (Hlen0 : length (tasks (arrivals st requests)) = length requests).
  { unfold arrivals. simpl. apply length_fmap. }
  destruct (runSchedule_consistent farm batchId i Hfarm schedule
              (arrivals st requests)) as [Hfinal Hlenf].
  { by rewrite Hlen0. }
  { by eapply arrivals_consistent. }
  fold final in Hfinal, Hlenf.
  destruct Hfinal as [Hts (b' & Hb' & _ & Hd' & _)].
  assert (Hdone : Forall (λ qt, ∃ r, qt.2 = Responded r ∧ status r = 200)
                    (tasks final)).
  { apply Forall_lookup_2. intros j [q t] Hj.
    assert (Hjlt : (j < length requests)%nat).
    { rewrite <- Hlen0, <- Hlenf. by eapply lookup_lt_Some. }
    destruct (lookup_lt_is_Some_2 requests j Hjlt) as [q0 Hq0].
    assert (Hj0 : tasks (arrivals st requests) !! j = Some (q0, Received)).
    { unfold arrivals. simpl. by rewrite list_lookup_fmap, Hq0. }
    destruct (runSchedule_stage schedule _ j q0 Received Hj0)
      as (t' & Hj' & Hstage).
    fold final in Hj'. rewrite Hj in Hj'.
    assert (t' = t) as -> by congruence.
    specialize (Hfair j Hjlt). cbn [stage Nat.add] in Hstage.
    destruct (Forall_lookup_1 _ _ _ _ Hts Hj) as [_ Htrack].
    destruct t as [| | |r]; cbn [stage snd onTrack] in *; try lia.
    by exists r. }
  split; [|exact Hdone].
  exists b'. split; [exact Hb'|].
  rewrite Hd', <- Hlen0, <- Hlenf. f_equal. unfold tally.
  apply filter_length_all. eapply Forall_impl; [exact Hdone|].
  intros [q t] (r & -> & Hr). exact Hr.
Qed.

Lemma concurrent_single_deaths_all_counted_witness :
  let final :=
    runSchedule [0; 1; 2; 1; 0; 2; 2; 0; 1]%nat
      (arrivals smallFlock
         [deathReport "h1"; deathReport "h2"; deathReport "h3"]) in
  ∃ b', Batch_findOne "b1" "farm1" (store final) = Some (0%nat, b')
        ∧ Batch.dead b' = 3.
Proof.
  refine (proj1 (concurrent_single_deaths_all_counted "farm1" "b1"
            smallFlock 0%nat (Batch.mk "b1" "farm1" "Layers" 100 0 0 0 false)
            [deathReport "h1"; deathReport "h2"; deathReport "h3"]
            [0; 1; 2; 1; 0; 2; 2; 0; 1]%nat _ _ _ _ _ _ _ _ _)).
  - discriminate.
  - reflexivity.
  - reflexivity.
  - reflexivity.
  - reflexivity.
  - reflexivity.
  - simpl. lia.
  - repeat constructor.
  - intros k Hk. simpl in Hk.
    destruct k as [|[|[|k]]]; [vm_compute; lia ..|lia].
Defined.

(** When two requests interleave, each reads the batch before either
    increment lands: the entry of the second increment records as
    [beforeState] the counters it read, not the counters its increment was
    applied to. *)
Remark interleaved_audit_records_the_read :
  let final :=
    runSchedule [0; 1; 0; 1; 0; 1]%nat
      (arrivals smallFlock [deathReport "h1"; deathReport "h2"]) in
  (λ e, (BirdCountHistory.s_dead (BirdCountHistory.beforeState e),
         BirdCountHistory.s_dead (BirdCountHistory.afterState e)))
    <$> history (store final)
  = [(0, 1); (0, 2)].
Proof. reflexivity. Qed.


(** * Further properties of the controller *)

Lemma requireFarm_farmless user st :
  farmless user → requireFarm user st = (st, Answer noFarmAnswer).
Proof. intros [H|H]; unfold requireFarm; rewrite H; reflexivity. Qed.

Lemma every_handler_requires_a_farm_aux user op st :
  farmless user → handle user op st = (st, noFarmAnswer).
Proof.
  intros Hno.
  destruct op; simpl;
    unfold updateBirdCounts, countsCheck, getBatchAvailability,
      createBatchAllocation, updateBatchAllocation, transferBirds,
      getBatchAllocations, getHouseBatchAllocations, getBirdCountHistory,
      getBatches, createBatch, getBatchById, updateBatch, deleteBatch,
      run, bind;
    by rewrite (requireFarm_farmless _ _ Hno).
Qed.

(** X1.  A caller without a farm (no [farmId], or an empty one) gets 400
    "User does not belong to a farm" from every handler of the controller,
    and the store is left as it was; a caller with a farm never gets that
    answer. *)
Theorem every_handler_requires_a_farm user op st :
  (farmless user → handle user op st = (st, noFarmAnswer))
  ∧ ((∃ farm, memberOf user farm) → (handle user op st).2 ≠ noFarmAnswer).
Proof.
  split; [apply every_handler_requires_a_farm_aux|].
  intros [farm Hm].
  destruct op; simpl;
    unfold updateBirdCounts, countsCheck, countsIncrement, countsAudit,
      Batch_findOneAndInc, getBatchAvailability,
      createBatchAllocation, updateBatchAllocation, transferBirds,
      getBatchAllocations, getHouseBatchAllocations, getBirdCountHistory,
      getBatches, createBatch, getBatchById, updateBatch, deleteBatch;
    handler_unfold; rewrite (requireFarm_member _ _ _ Hm);
    repeat (simpl; case_match; simplify_eq); simpl; discriminate.
Qed.

Lemma every_handler_requires_a_farm_witness :
  handle (User.mk "u9" None "No" "Farm") (Allocate "b1" "hA" 10 "a9")
    halfPlaced = (halfPlaced, noFarmAnswer)
  ∧ handle (User.mk "u9" (Some "") "No" "Farm") (DeleteBatch "b1")
      halfPlaced = (halfPlaced, noFarmAnswer).
Proof.
  split; apply (proj1 (every_handler_requires_a_farm _ _ _));
    [left | right]; reflexivity.
Defined.





(** X3.  Whatever the request, [updateBirdCounts] removes no batch, changes
    nothing of a batch but its three loss counters, and never lowers a
    counter. *)
Theorem loss_counters_only_grow user batchId delta uuid st :
  let st' := (updateBirdCounts user batchId delta uuid st).1 in
  length (batches st') = length (batches st)
  ∧ ∀ (j : nat) b, batches st !! j = Some b →
      ∃ b', batches st' !! j = Some b'
            ∧ Batch.id b' = Batch.id b ∧ Batch.farmId b' = Batch.farmId b
            ∧ Batch.name b' = Batch.name b
            ∧ Batch.originalCount b' = Batch.originalCount b
            ∧ Batch.isArchived b' = Batch.isArchived b
            ∧ Batch.dead b ≤ Batch.dead b'
            ∧ Batch.culled b ≤ Batch.culled b'
            ∧ Batch.offlaid b ≤ Batch.offlaid b'.
Proof.
  intros st'. subst st'.
  destruct (updateBirdCounts_cases user batchId delta uuid st)
    as [[-> _]|(farm & i & b0 & Hm & Hv & Hf & Hle)].
  { split; [done|]. intros j b Hj. exists b. split_and!; (done || lia). }
  rewrite (updateBirdCounts_accepted user farm batchId Hm delta uuid st i b0
             Hv Hf Hle). simpl.
  split; [apply length_insert|].
  intros j b Hj. destruct (Batch_findOne_Some _ _ _ _ _ Hf) as (Hi & _).
  destruct (decide (i = j)) as [<-|Hne].
  - assert (b = b0) as -> by congruence.
    exists (incCounts delta b0).
    split; [apply list_lookup_insert_eq; by eapply lookup_lt_Some|].
    unfold validDeltas in Hv. apply andb_prop in Hv as [_ Hv].
    apply negb_true_iff, orb_false_iff in Hv as [Hv Ho].
    apply orb_false_iff in Hv as [Hd Hc].
    assert (Hpos : ∀ x d, isNegative d = false → x ≤ plusDelta x d).
    { intros x [d|] Hx; simpl in *; [|lia].
      apply bool_decide_eq_false_1 in Hx. lia. }
    simpl. split_and!; auto.
  - exists b. rewrite list_lookup_insert_ne by done.
    split_and!; (done || lia).
Qed.


Lemma loss_counters_only_grow_witness :
  ∃ b', batches (updateBirdCounts demoUser "b1"
                   (mkCounts (Some 4) None (Some 2) None None) "h1"
                   demoLedger).1 !! 0%nat = Some b'
        ∧ 10 ≤ Batch.dead b' ∧ 5 ≤ Batch.culled b' ∧ 3 ≤ Batch.offlaid b'.
Proof.
  destruct (proj2 (loss_counters_only_grow demoUser "b1"
                     (mkCounts (Some 4) None (Some 2) None None) "h1"
                     demoLedger) 0%nat
              (Batch.mk "b1" "farm1" "Layers" 1000 10 5 3 false) eq_refl)
    as (b' & Hb' & _ & _ & _ & _ & _ & Hd & Hc & Ho).
  exists b'. by split_and!.
Defined.

(** X4.  [updateBirdCounts] validates in this order: at least one of [dead],
    [culled], [offlaid] is present, else 400; none of them is negative, else
    400 (both before the batch is looked up, so also for a batch that does
    not exist); the batch is in the caller's farm, else 404; the prospective
    total is within [originalCount], else 400 with the current total, the
    original count and the requested addition; otherwise the call is
    accepted with 200. *)
Theorem loss_delta_validation_order user farm batchId delta uuid st :
  memberOf user farm →
  let result := updateBirdCounts user batchId delta uuid st in
  (c_dead delta = None ∧ c_culled delta = None ∧ c_offlaid delta = None →
   result
   = (st, mkResponse 400
            (Message
               "At least one count (dead, culled, or offlaid) must be provided")))
  ∧ (¬ (c_dead delta = None ∧ c_culled delta = None ∧ c_offlaid delta = None) →
     (∃ d, d < 0 ∧ (c_dead delta = Some d ∨ c_culled delta = Some d
                    ∨ c_offlaid delta = Some d)) →
     result
     = (st, mkResponse 400
              (Message "Bird counts must be non-negative integers")))
  ∧ (validDeltas delta = true →
     (Batch_findOne batchId farm st = None →
      result
      = (st, mkResponse 404 (Message "Batch not found or unauthorized")))
     ∧ (∀ i b, Batch_findOne batchId farm st = Some (i, b) →
          (lossTotal b + requested delta > Batch.originalCount b →
           result
           = (st, mkResponse 400
                    (CountsExceeded (lossTotal b) (Batch.originalCount b)
                       (requested delta))))
          ∧ (lossTotal b + requested delta ≤ Batch.originalCount b →
             status result.2 = 200))).
Proof.
  intros Hm result. split_and!.
  - intros Hnone. unfold result, updateBirdCounts, countsCheck.
    handler_unfold. rewrite (requireFarm_member _ _ _ Hm).
    by rewrite bool_decide_eq_true_2.
  - intros Hsome (d & Hd & Hwhich).
    unfold result, updateBirdCounts, countsCheck.
    handler_unfold. rewrite (requireFarm_member _ _ _ Hm).
    rewrite bool_decide_eq_false_2 by done. simpl.
    assert (Hneg : isNegative (c_dead delta) || isNegative (c_culled delta)
                   || isNegative (c_offlaid delta) = true).
    { assert (Hn : isNegative (Some d) = true)
        by (simpl; by apply bool_decide_eq_true_2).
      destruct Hwhich as [-> | [-> | ->]]; rewrite Hn;
        rewrite ?orb_true_r; reflexivity. }
    by rewrite Hneg.
  - intros Hv. split.
    + intros Hb. unfold result.
      by rewrite (updateBirdCounts_no_batch user farm st Hm _ _ _ Hv Hb).
    + intros i b Hb. split.
      * intros Hgt. unfold result.
        by rewrite (updateBirdCounts_rejected user farm batchId Hm delta uuid
                      st i b Hv Hb Hgt).
      * intros Hle. unfold result.
        by rewrite (updateBirdCounts_accepted user farm batchId Hm delta uuid
                      st i b Hv Hb Hle).
Qed.

Lemma loss_delta_validation_order_witness :
  status (updateBirdCounts demoUser "nope"
            (mkCounts None None None (Some "why") None) "h1" demoLedger).2
  = 400
  ∧ status (updateBirdCounts demoUser "nope"
              (mkCounts (Some 1) (Some (-2)) None None None) "h1"
              demoLedger).2 = 400
  ∧ status (updateBirdCounts demoUser "nope"
              (mkCounts (Some 1) None None None None) "h1" demoLedger).2
    = 404
  ∧ (updateBirdCounts demoUser "b1"
       (mkCounts (Some 982) None (Some 1) None None) "h1" demoLedger).2
    = mkResponse 400 (CountsExceeded 18 1000 983).
Proof.
  assert (Hm : memberOf demoUser "farm1")
    by (split; [reflexivity | discriminate]).
  split_and!.
  - rewrite (proj1 (loss_delta_validation_order demoUser "farm1" "nope"
                      (mkCounts None None None (Some "why") None) "h1"
                      demoLedger Hm)); [reflexivity | by split_and!].
  - rewrite (proj1 (proj2 (loss_delta_validation_order demoUser "farm1" "nope"
                             (mkCounts (Some 1) (Some (-2)) None None None)
                             "h1" demoLedger Hm))); [reflexivity | |].
    + intros [Hd _]. discriminate Hd.
    + exists (-2). split; [lia|]. right. left. reflexivity.
  - rewrite (proj1 (proj2 (proj2 (loss_delta_validation_order demoUser "farm1"
                                    "nope"
                                    (mkCounts (Some 1) None None None None)
                                    "h1" demoLedger Hm)) eq_refl));
      reflexivity.
  - rewrite (proj1 (proj2 (proj2 (proj2 (loss_delta_validation_order demoUser
               "farm1" "b1" (mkCounts (Some 982) None (Some 1) None None)
               "h1" demoLedger Hm)) eq_refl) 0%nat
               (Batch.mk "b1" "farm1" "Layers" 1000 10 5 3 false) eq_refl));
      [reflexivity | vm_compute; reflexivity].
Defined.


Lemma chained_app start entries e :
  chained start entries →
  BirdCountHistory.beforeState e = endState start entries →
  chained start (entries ++ [e])
  ∧ endState start (entries ++ [e]) = BirdCountHistory.afterState e.
Proof.
  revert start. induction entries as [|x l IH]; intros start Hc He; simpl in *.
  - by split_and!.
  - destruct Hc as [Hx Hl]. destruct (IH _ Hl He) as [H1 H2]. by split_and!.
Qed.

Lemma acceptedCalls_snoc user batchId calls call st :
  acceptedCalls user batchId (calls ++ [call]) st
  = acceptedCalls user batchId calls st
    ++ (if bool_decide
             (status (updateBirdCounts user batchId call.1 call.2
                        (storeAfter user batchId calls st)).2 = 200)
        then [call] else []).
Proof.
  revert st. induction calls as [|c calls IH]; intros st.
  - simpl. by rewrite app_nil_r.
  - simpl. rewrite IH. by rewrite app_assoc.
Qed.

(** X5.  The entries that a sequence of [updateBirdCounts] calls on one batch
    appends to the history are one for each call that was answered 200, in
    the order of the calls, with the call's id and deltas; a call that was
    rejected, for whatever reason, appends nothing.  The entries form a
    chain: the first starts from the batch's counters before the sequence,
    each next one starts from the snapshot the previous one ended with, and
    the last ends with the batch's counters after the sequence.  All of them
    carry the batch's id. *)
Theorem audit_entries_chain user farm batchId calls st i b :
  memberOf user farm →
  Batch_findOne batchId farm st = Some (i, b) →
  let st' := storeAfter user batchId calls st in
  ∃ added b',
    history st' = history st ++ added
    ∧ entryFacts <$> added
      = callFacts <$> acceptedCalls user batchId calls st
    ∧ Batch_findOne batchId farm st' = Some (i, b')
    ∧ chained (snapshotOf b) added
    ∧ endState (snapshotOf b) added = snapshotOf b'
    ∧ Forall (λ e, BirdCountHistory.batchId e = batchId) added
    ∧ (length added ≤ length calls)%nat.
Proof.
  intros Hm Hf st'. subst st'.
  induction calls as [|[delta uuid] calls IH] using rev_ind.
  - exists [], b. simpl. rewrite app_nil_r. by split_and!.
  - rewrite acceptedCalls_snoc.
    unfold storeAfter in *. rewrite fold_left_app. simpl.
    destruct IH as (added & b1 & Hh & Hfacts & Hf1 & Hch & Hend & Hids & Hlen).
    set (st1 := fold_left _ calls st) in *.
    destruct (Batch_findOne_Some _ _ _ _ _ Hf1) as (_ & Hid1 & _).
    destruct (updateBirdCounts_cases user batchId delta uuid st1)
      as [[Hsame Hstatus]|(farm' & i' & b' & Hm' & Hv & Hf' & Hle)].
    + rewrite Hsame. rewrite bool_decide_eq_false_2 by exact Hstatus.
      exists added, b1. rewrite app_nil_r. split_and!; try done.
      rewrite length_app. simpl. lia.
    + assert (farm' = farm) as ->
        by (destruct Hm as [Hm _], Hm' as [Hm' _]; congruence).
      rewrite Hf1 in Hf'. injection Hf' as <- <-.
      rewrite (updateBirdCounts_accepted user farm batchId Hm delta uuid st1
                 i b1 Hv Hf1 Hle). simpl.
      set (e := historyEntryOf user farm delta uuid b1 (incCounts delta b1)).
      exists (added ++ [e]), (incCounts delta b1).
      destruct (chained_app (snapshotOf b) added e Hch) as [Hch' Hend'];
        [by rewrite Hend|].
      split_and!.
      * by rewrite Hh, app_assoc.
      * by rewrite !fmap_app, Hfacts.
      * by eapply Batch_findOne_inc.
      * exact Hch'.
      * by rewrite Hend'.
      * apply Forall_app. split; [exact Hids|]. by constructor.
      * rewrite !length_app. simpl. lia.
Qed.

Lemma audit_entries_chain_witness :
  ∃ added,
    history (storeAfter demoUser "b1"
               [(mkCounts (Some 10) None None None None, "h1");
                (mkCounts (Some 2000) None None None None, "h2");
                (mkCounts None (Some 5) (Some 3) None None, "h3")]
               demoStore) = added
    ∧ entryFacts <$> added = [("h1", 10, 0, 0); ("h3", 0, 5, 3)]
    ∧ chained (BirdCountHistory.mkSnapshot 0 0 0 1000) added
    ∧ endState (BirdCountHistory.mkSnapshot 0 0 0 1000) added
      = BirdCountHistory.mkSnapshot 10 5 3 982.
Proof.
  assert (Hm : memberOf demoUser "farm1")
    by (split; [reflexivity | discriminate]).
  assert (Hf : Batch_findOne "b1" "farm1" demoStore = Some (0%nat, demoBatch))
    by (vm_compute; reflexivity).
  destruct (audit_entries_chain demoUser "farm1" "b1"
              [(mkCounts (Some 10) None None None None, "h1");
               (mkCounts (Some 2000) None None None None, "h2");
               (mkCounts None (Some 5) (Some 3) None None, "h3")]
              demoStore 0%nat demoBatch Hm Hf)
    as (added & b' & Hh & Hfacts & Hf' & Hch & Hend & _).
  exists added. split_and!; [exact Hh | | exact Hch |].
  - rewrite Hfacts. vm_compute. reflexivity.
  - vm_compute in Hf'. injection Hf' as <-. exact Hend.
Defined.

(** X6.  Right after an accepted [updateBirdCounts] call, the history
    listing of the batch has the entry of that call at its head; the listing
    never has more than 50 entries, and all of them are entries of the
    batch. *)
Theorem history_lists_latest_first user batchId delta uuid st :
  let result := updateBirdCounts user batchId delta uuid st in
  status result.2 = 200 →
  ∃ e rest,
    getBirdCountHistory user batchId result.1
    = (result.1, mkResponse 200 (HistoryList (e :: rest)))
    ∧ last (history result.1) = Some e
    ∧ BirdCountHistory.id e = uuid
    ∧ (length (e :: rest) ≤ 50)%nat
    ∧ Forall (λ x, BirdCountHistory.batchId x = batchId ∧ x ∈ history result.1)
        (e :: rest).
Proof.
  intros result H200.
  destruct (updateBirdCounts_cases user batchId delta uuid st)
    as [[_ Hno]|(farm & i & b & Hm & Hv & Hf & Hle)]; [done|].
  assert (Hr := updateBirdCounts_accepted user farm batchId Hm delta uuid st
                  i b Hv Hf Hle).
  fold result in Hr. rewrite Hr. simpl.
  set (e := historyEntryOf user farm delta uuid b (incCounts delta b)).
  set (st1 := mkStore _ _ _ _).
  destruct (Batch_findOne_Some _ _ _ _ _ Hf) as (_ & Hid & _).
  assert (Hf1 : Batch_findOne batchId farm st1 = Some (i, incCounts delta b))
    by (by eapply Batch_findOne_inc).
  set (old := filter (λ x, BirdCountHistory.batchId x = batchId) (history st)).
  exists e, (take 49 (reverse old)).
  assert (Hfilter : filter (λ x, BirdCountHistory.batchId x = batchId)
                      (history st ++ [e]) = old ++ [e]).
  { rewrite filter_app. f_equal.
    rewrite filter_cons, decide_True by done. reflexivity. }
  split_and!.
  - unfold getBirdCountHistory. handler_unfold.
    rewrite (requireFarm_member _ _ _ Hm), Hf1. simpl.
    fold e. rewrite Hfilter, reverse_app. reflexivity.
  - unfold st1. simpl. by rewrite last_snoc.
  - reflexivity.
  - simpl. rewrite length_take. lia.
  - apply Forall_cons. split.
    + split; [done|]. unfold st1. simpl. apply elem_of_app. right.
      apply list_elem_of_here.
    + apply Forall_forall. intros x Hx.
      apply (subseteq_take 49) in Hx. rewrite elem_of_reverse in Hx.
      unfold old in Hx. rewrite list_elem_of_filter in Hx.
      destruct Hx as [Hb Hin].
      split; [done|]. unfold st1. simpl. apply elem_of_app. by left.
Qed.

Lemma history_lists_latest_first_witness :
  ∃ e rest,
    getBirdCountHistory demoUser "b1"
      (updateBirdCounts demoUser "b1"
         (mkCounts (Some 10) None None None None) "h1" demoStore).1
    = ((updateBirdCounts demoUser "b1"
          (mkCounts (Some 10) None None None None) "h1" demoStore).1,
       mkResponse 200 (HistoryList (e :: rest)))
    ∧ BirdCountHistory.id e = "h1".
Proof.
  destruct (history_lists_latest_first demoUser "b1"
              (mkCounts (Some 10) None None None None) "h1" demoStore
              eq_refl) as (e & rest & Hr & _ & Hid & _).
  by exists e, rest.
Defined.


(** ** Houses and pairs under the allocation writes *)

Lemma House_findOne_Some houseId farm st i h :
  House_findOne houseId farm st = Some (i, h) →
  houses st !! i = Some h ∧ House.id h = houseId ∧ House.farmId h = farm.
Proof.
  intros Hf. apply list_find_Some in Hf as (Hi & [Hid Hfarm] & _). done.
Qed.

Lemma unique_house st i h h' :
  uniqueHouseIds st → houses st !! i = Some h → h' ∈ houses st →
  House.id h' = House.id h → h' = h.
Proof.
  intros Hnd Hi Hin Hid. apply list_elem_of_lookup in Hin as [j Hj].
  assert (i = j) as ->; [|congruence].
  eapply (NoDup_lookup _ _ _ _ Hnd); rewrite list_lookup_fmap.
  - by rewrite Hi.
  - rewrite Hj. simpl. by rewrite Hid.
Qed.

Lemma occupancy_create houseId st a :
  occupancy houseId (setAllocations (allocations st ++ [a]) st)
  = occupancy houseId st
    + (if decide (BatchAllocation.houseId a = houseId)
       then BatchAllocation.quantity a else 0).
Proof.
  unfold occupancy, Allocation_findByHouse. simpl.
  rewrite total_filter_snoc. reflexivity.
Qed.

Lemma createBatchAllocation_occupancy
    user batchId houseId quantity uuid st hid :
  let result := createBatchAllocation user batchId houseId quantity uuid st in
  result.1 = st
  ∨ occupancy hid result.1
    = occupancy hid st + (if decide (houseId = hid) then quantity else 0).
Proof.
  intros result.
  destruct (createBatchAllocation_cases user batchId houseId quantity uuid st)
    as [Hsame|(farm & ib & b & ih & h & _ & _ & _ & _ & Hr)]; [by left|].
  right. fold result in Hr.
  destruct (Allocation_findOne batchId houseId st) as [[i a]|] eqn:Ha.
  - destruct (Allocation_findOne_Some _ _ _ _ _ Ha) as (Hi & _ & Hah).
    rewrite Hr, (occupancy_save _ _ _ _ _ Hi), Hah.
    destruct (decide (houseId = hid)); lia.
  - rewrite Hr, occupancy_create. reflexivity.
Qed.

(** X7.  [createBatchAllocation] keeps every house that has a non-zero
    capacity within it: if, with unique house ids, no such house holds more
    than its capacity before the call, none does after it. *)
Theorem allocate_keeps_houses_within_capacity
    user batchId houseId quantity uuid st :
  uniqueHouseIds st →
  capacityRespected st →
  capacityRespected
    (createBatchAllocation user batchId houseId quantity uuid st).1.
Proof.
  intros Hnd Hinv h c Hh Hc Hc0.
  destruct (createBatchAllocation_frame user batchId houseId quantity uuid st)
    as (_ & Hhouses & _). simpl in Hhouses. rewrite Hhouses in Hh.
  destruct (createBatchAllocation_occupancy user batchId houseId quantity
              uuid st (House.id h)) as [Hsame|Hocc].
  { rewrite Hsame. by apply Hinv. }
  rewrite Hocc. specialize (Hinv h c Hh Hc Hc0).
  destruct (decide (houseId = House.id h)) as [Heq|Hne]; [|lia].
  destruct (createBatchAllocation_cases user batchId houseId quantity uuid st)
    as [Hsame|(farm & ib & b & ih & h0 & _ & Hfh & _ & Hex & _)].
  { rewrite Hsame in Hocc. lia. }
  destruct (House_findOne_Some _ _ _ _ _ Hfh) as (Hih & Hid0 & _).
  assert (h = h0) as -> by (eapply unique_house; eauto; congruence).
  unfold exceeded in Hex. rewrite Hc in Hex.
  case_bool_decide as Hdec; [discriminate|].
  rewrite <- Heq. lia.
Qed.

Lemma allocate_keeps_houses_within_capacity_witness :
  capacityRespected
    (createBatchAllocation demoUser "bY" "hC" 100 "a9" sharedHouse).1
  ∧ status (createBatchAllocation demoUser "bY" "hC" 100 "a9" sharedHouse).2
    = 201
  ∧ occupancy "hC"
      (createBatchAllocation demoUser "bY" "hC" 100 "a9" sharedHouse).1
    = 500.
Proof.
  split; [|split; reflexivity].
  apply allocate_keeps_houses_within_capacity.
  - unfold uniqueHouseIds. simpl. apply NoDup_cons. split.
    + intros H. apply list_elem_of_singleton in H. discriminate H.
    + apply NoDup_singleton.
  - intros h c Hh Hc Hc0. simpl in Hh.
    apply elem_of_cons in Hh as [->|Hh]; [discriminate|].
    apply list_elem_of_singleton in Hh as ->.
    injection Hc as <-. vm_compute. discriminate.
Defined.






(** ** Transfers, once more *)

Lemma farmless_or_member user :
  farmless user ∨ ∃ farm, memberOf user farm.
Proof.
  unfold farmless, memberOf.
  destruct (User.farmId user) as [farm|]; [|left; left; reflexivity].
  destruct (decide (farm = "")) as [->|Hne]; [left; right; reflexivity|].
  right. by exists farm.
Qed.

Section TransferRejections.
Context (user : User.t) (farm batchId fromHouseId toHouseId : string).
Context (quantity : Z) (uuid : string) (st : Store).
Context (ib : nat) (b : Batch.doc).
Hypothesis Hmember : memberOf user farm.
Hypothesis Hbatch : Batch_findOne batchId farm st = Some (ib, b).

Local Abbreviation insufficient :=
  (st, mkResponse 400 (Message "Insufficient birds to transfer")).

Lemma transferBirds_no_source :
  Allocation_findOne batchId fromHouseId st = None →
  transferBirds user batchId fromHouseId toHouseId quantity uuid st
  = insufficient.
Proof.
  intros Hs. unfold transferBirds. handler_unfold.
  rewrite (requireFarm_member _ _ _ Hmember), Hbatch. simpl.
  by rewrite Hs.
Qed.

Lemma transferBirds_too_few i source :
  Allocation_findOne batchId fromHouseId st = Some (i, source) →
  BatchAllocation.quantity source < quantity →
  transferBirds user batchId fromHouseId toHouseId quantity uuid st
  = insufficient.
Proof.
  intros Hs Hlt. unfold transferBirds. handler_unfold.
  rewrite (requireFarm_member _ _ _ Hmember), Hbatch. simpl.
  rewrite Hs. simpl. by rewrite bool_decide_eq_true_2.
Qed.

Lemma transferBirds_no_room i source ih toHouse c :
  Allocation_findOne batchId fromHouseId st = Some (i, source) →
  quantity ≤ BatchAllocation.quantity source →
  House_findOne toHouseId farm st = Some (ih, toHouse) →
  exceeded (House.capacity toHouse)
    (from_option (λ d : nat * BatchAllocation.doc,
                    BatchAllocation.quantity d.2) 0
       (Allocation_findOne batchId toHouseId st) + quantity) = Some c →
  transferBirds user batchId fromHouseId toHouseId quantity uuid st
  = (st, mkResponse 400
           (Message "Transfer exceeds destination house capacity")).
Proof.
  intros Hs Hq Hh Hcap. unfold transferBirds. handler_unfold.
  rewrite (requireFarm_member _ _ _ Hmember), Hbatch. simpl.
  rewrite Hs. simpl. rewrite bool_decide_eq_false_2 by lia.
  rewrite Hh. simpl. rewrite Hcap.
  rewrite bool_decide_eq_true_2 by eauto. reflexivity.
Qed.
End TransferRejections.

(** Every way [transferBirds] can end, with the answer. *)
Lemma transferBirds_outcomes
    user batchId fromHouseId toHouseId quantity uuid st :
  let result :=
    transferBirds user batchId fromHouseId toHouseId quantity uuid st in
  (status result.2 = 400 ∨ status result.2 = 404) ∧ result.1 = st
  ∨ ∃ i source,
      Allocation_findOne batchId fromHouseId st = Some (i, source)
      ∧ quantity ≤ BatchAllocation.quantity source
      ∧ let debited :=
          BatchAllocation.setQuantity
            (BatchAllocation.quantity source - quantity) source in
        match Allocation_findOne batchId toHouseId st with
        | Some (j, target) =>
            let credited :=
              BatchAllocation.setQuantity
                (BatchAllocation.quantity target + quantity) target in
            result
            = (setAllocations
                 (<[j := credited]> (<[i := debited]> (allocations st))) st,
               mkResponse 200 (Transferred debited credited))
        | None =>
            result
            = (setAllocations
                 (<[i := debited]> (allocations st)
                  ++ [BatchAllocation.mk uuid batchId toHouseId quantity]) st,
               mkResponse 500 (ServerError "newAllocation is not defined"))
        end.
Proof.
  intros result. subst result.
  destruct (farmless_or_member user) as [Hno|[farm Hm]].
  { left. pose proof (every_handler_requires_a_farm_aux user
                        (Transfer batchId fromHouseId toHouseId quantity uuid)
                        st Hno) as Hr.
    simpl in Hr. rewrite Hr. simpl. tauto. }
  destruct (Batch_findOne batchId farm st) as [[ib b]|] eqn:Hb; cycle 1.
  { left. rewrite (transferBirds_no_batch user farm st Hm _ _ _ _ _ Hb).
    simpl. tauto. }
  destruct (Allocation_findOne batchId fromHouseId st) as [[i source]|] eqn:Hs;
    cycle 1.
  { left. rewrite (transferBirds_no_source user farm batchId fromHouseId
                     toHouseId quantity uuid st ib b Hm Hb Hs).
    simpl. tauto. }
  destruct (Z_lt_le_dec (BatchAllocation.quantity source) quantity)
    as [Hlt|Hle].
  { left. rewrite (transferBirds_too_few user farm batchId fromHouseId
                     toHouseId quantity uuid st ib b Hm Hb i source Hs Hlt).
    simpl. tauto. }
  destruct (House_findOne toHouseId farm st) as [[ih toHouse]|] eqn:Hh;
    cycle 1.
  { left. rewrite (transferBirds_no_house user farm st Hm _ _ _ _ _ _ _ _ _
                     Hb Hs Hle Hh).
    simpl. tauto. }
  destruct (exceeded (House.capacity toHouse)
              (from_option (λ d : nat * BatchAllocation.doc,
                              BatchAllocation.quantity d.2) 0
                 (Allocation_findOne batchId toHouseId st) + quantity))
    as [c|] eqn:Hcap.
  { left. rewrite (transferBirds_no_room user farm batchId fromHouseId
                     toHouseId quantity uuid st ib b Hm Hb i source ih toHouse
                     c Hs Hle Hh Hcap).
    simpl. tauto. }
  right. exists i, source. split_and!; [done..|].
  destruct (Allocation_findOne batchId toHouseId st) as [[j target]|] eqn:Ht;
    simpl in Hcap |- *.
  - exact (transferBirds_existing user farm batchId fromHouseId toHouseId
             quantity uuid st ib i ih b source toHouse Hm Hb Hs Hle Hh
             j target Ht Hcap).
  - exact (transferBirds_created user farm batchId fromHouseId toHouseId
             quantity uuid st ib i ih b source toHouse Hm Hb Hs Hle Hh
             Ht Hcap).
Qed.

(** X9.  A transfer between two different houses that goes through (answer
    200, or the 500 of the creating branch) takes exactly [quantity] birds
    off the source house's occupancy and puts exactly [quantity] onto the
    destination's; every other house, and every batch's allocated count,
    stays as it was. *)
Theorem transfer_moves_birds_between_houses
    user batchId fromHouseId toHouseId quantity uuid st :
  fromHouseId ≠ toHouseId →
  let result :=
    transferBirds user batchId fromHouseId toHouseId quantity uuid st in
  status result.2 = 200 ∨ status result.2 = 500 →
  occupancy fromHouseId result.1 = occupancy fromHouseId st - quantity
  ∧ occupancy toHouseId result.1 = occupancy toHouseId st + quantity
  ∧ (∀ hid, hid ≠ fromHouseId → hid ≠ toHouseId →
            occupancy hid result.1 = occupancy hid st)
  ∧ (∀ bid, allocatedCount bid result.1 = allocatedCount bid st).
Proof.
  intros Hne result Hstatus.
  assert (Hbatch : ∀ bid, allocatedCount bid result.1 = allocatedCount bid st)
    by (intros bid; by apply transferBirds_allocatedCount).
  assert (Hocc : ∀ hid,
    occupancy hid result.1
    = occupancy hid st
      - (if decide (fromHouseId = hid) then quantity else 0)
      + (if decide (toHouseId = hid) then quantity else 0)).
  { intros hid.
    destruct (transferBirds_outcomes user batchId fromHouseId toHouseId
                quantity uuid st) as [[Hs _]|(i & source & Hs & _ & Hr)];
      fold result in Hs; [lia|].
    simpl in Hr. fold result in Hr.
    destruct (Allocation_findOne_Some _ _ _ _ _ Hs) as (Hi & _ & Hsh).
    set (st1 := setAllocations
                  (<[i := BatchAllocation.setQuantity
                            (BatchAllocation.quantity source - quantity)
                            source]> (allocations st)) st) in *.
    assert (H1 : occupancy hid st1
                 = occupancy hid st
                   - (if decide (fromHouseId = hid) then quantity else 0)).
    { unfold st1. rewrite (occupancy_save _ _ _ _ _ Hi), Hsh.
      destruct (decide (fromHouseId = hid)); lia. }
    destruct (Allocation_findOne batchId toHouseId st) as [[j target]|] eqn:Ht;
      rewrite Hr; simpl.
    - destruct (Allocation_findOne_Some _ _ _ _ _ Ht) as (Hj & _ & Hth).
      assert (i ≠ j) by (intros ->; congruence).
      assert (Hj1 : allocations st1 !! j = Some target).
      { unfold st1. simpl. by rewrite list_lookup_insert_ne. }
      change (setAllocations ?l st) with (setAllocations l st1).
      rewrite (occupancy_save _ _ _ _ _ Hj1), H1, Hth.
      destruct (decide (toHouseId = hid)); lia.
    - change (setAllocations (?l ++ ?x) st)
        with (setAllocations (allocations st1 ++ x) st1).
      rewrite occupancy_create, H1. simpl. reflexivity. }
  split_and!.
  - rewrite Hocc, decide_True, decide_False by done. lia.
  - rewrite Hocc, decide_False, decide_True by done. lia.
  - intros hid H1 H2. rewrite Hocc, !decide_False by done. lia.
  - exact Hbatch.
Qed.

Lemma transfer_moves_birds_between_houses_witness :
  occupancy "hA"
    (transferBirds demoUser "bY" "hA" "hC" 50 "a9" sharedHouse).1 = 350
  ∧ occupancy "hC"
      (transferBirds demoUser "bY" "hA" "hC" 50 "a9" sharedHouse).1 = 450.
Proof.
  destruct (transfer_moves_birds_between_houses demoUser "bY" "hA" "hC" 50
              "a9" sharedHouse) as (Hfrom & Hto & _).
  - discriminate.
  - left. reflexivity.
  - split; [rewrite Hfrom | rewrite Hto]; reflexivity.
Defined.

(** ** [updateBatchAllocation] *)

Section UpdateAllocation.
Context (user : User.t) (farm allocationId : string) (st : Store).
Context (i ib ih : nat) (a : BatchAllocation.doc) (b : Batch.doc)
  (h : House.doc).
Hypothesis Hmember : memberOf user farm.
Hypothesis Hfound : Allocation_findById allocationId st = Some (i, a).
Hypothesis Hbatch :
  Batch_findOne (BatchAllocation.batchId a) farm st = Some (ib, b).
Hypothesis Hhouse :
  House_findOne (BatchAllocation.houseId a) farm st = Some (ih, h).

Lemma updateBatchAllocation_accepted quantity :
  exceeded (House.capacity h) quantity = None →
  updateBatchAllocation user allocationId quantity st
  = (setAllocations
       (<[i := BatchAllocation.setQuantity quantity a]> (allocations st)) st,
     mkResponse 200 (AllocationDoc (BatchAllocation.setQuantity quantity a))).
Proof.
  intros Hcap. unfold updateBatchAllocation. handler_unfold.
  rewrite (requireFarm_member _ _ _ Hmember), Hfound. simpl.
  rewrite Hbatch. simpl. rewrite Hhouse. simpl. rewrite Hcap.
  rewrite bool_decide_eq_false_2 by (by intros [? ?]). reflexivity.
Qed.

Lemma updateBatchAllocation_over_capacity quantity c :
  exceeded (House.capacity h) quantity = Some c →
  updateBatchAllocation user allocationId quantity st
  = (st, mkResponse 400 (Message "Updated quantity exceeds house capacity")).
Proof.
  intros Hcap. unfold updateBatchAllocation. handler_unfold.
  rewrite (requireFarm_member _ _ _ Hmember), Hfound. simpl.
  rewrite Hbatch. simpl. rewrite Hhouse. simpl. rewrite Hcap.
  rewrite bool_decide_eq_true_2 by eauto. reflexivity.
Qed.
End UpdateAllocation.

Lemma exceeded_spec capacity total :
  (exceeded capacity total = None
   ↔ ∀ c, capacity = Some c → c ≠ 0 → total ≤ c)
  ∧ ∀ c, exceeded capacity total = Some c
         ↔ capacity = Some c ∧ c ≠ 0 ∧ total > c.
Proof.
  unfold exceeded. destruct capacity as [c|].
  - case_bool_decide as Hdec; split.
    + split; [discriminate|]. intros H. destruct Hdec as [H0 Hgt].
      specialize (H c eq_refl H0). lia.
    + intros c'. split; [intros [= <-]; tauto | intros ([= <-] & _); done].
    + split; [|done]. intros _ c' [= <-] Hc0.
      destruct (decide (total ≤ c)); [done|]. exfalso. apply Hdec. lia.
    + intros c'. split; [discriminate|]. intros ([= <-] & H0 & Hgt).
      exfalso. apply Hdec. done.
  - split; [split; [|done]; by intros _ c' |].
    intros c'. split; [discriminate | by intros [? _]].
Qed.

(** X10.  An administrative update of an allocation that the caller may
    touch is accepted exactly when the new quantity does not exceed a
    non-zero capacity of the house (any integer is taken otherwise, the
    house's other occupants are not counted).  Afterwards the record is
    found under the same id with the new quantity and the same batch and
    house, every other record is as before, and a later update replaces the
    quantity rather than adding to it. *)
Theorem allocation_update_overwrites
    user farm allocationId st i ib ih a b h quantity :
  memberOf user farm →
  Allocation_findById allocationId st = Some (i, a) →
  Batch_findOne (BatchAllocation.batchId a) farm st = Some (ib, b) →
  House_findOne (BatchAllocation.houseId a) farm st = Some (ih, h) →
  let result := updateBatchAllocation user allocationId quantity st in
  ((∃ c, House.capacity h = Some c ∧ c ≠ 0 ∧ quantity > c) →
   result.1 = st ∧ failure result.2 = Some CapacityExceeded)
  ∧ ((∀ c, House.capacity h = Some c → c ≠ 0 → quantity ≤ c) →
     status result.2 = 200
     ∧ Allocation_findById allocationId result.1
       = Some (i, BatchAllocation.setQuantity quantity a)
     ∧ (∀ j : nat, j ≠ i → allocations result.1 !! j = allocations st !! j)
     ∧ length (allocations result.1) = length (allocations st)
     ∧ ∀ quantity',
         (∀ c, House.capacity h = Some c → c ≠ 0 → quantity' ≤ c) →
         (updateBatchAllocation user allocationId quantity' result.1).1
         = (updateBatchAllocation user allocationId quantity' st).1).
Proof.
  intros Hm Ha Hb Hh result. split.
  - intros (c & Hc & Hc0 & Hgt).
    assert (Hex : exceeded (House.capacity h) quantity = Some c)
      by (by apply exceeded_spec).
    unfold result.
    by rewrite (updateBatchAllocation_over_capacity user farm allocationId st
                  i ib ih a b h Hm Ha Hb Hh quantity c Hex).
  - intros Hfits.
    assert (Hex : exceeded (House.capacity h) quantity = None)
      by (by apply exceeded_spec).
    assert (Hr := updateBatchAllocation_accepted user farm allocationId st
                    i ib ih a b h Hm Ha Hb Hh quantity Hex).
    fold result in Hr. rewrite Hr. simpl.
    set (a1 := BatchAllocation.setQuantity quantity a).
    set (st1 := setAllocations (<[i := a1]> (allocations st)) st).
    assert (Ha1 : Allocation_findById allocationId st1 = Some (i, a1)).
    { unfold Allocation_findById in *. simpl.
      apply list_find_insert_found with (x := a); [done|].
      apply list_find_Some in Ha as (_ & Hid & _). exact Hid. }
    split_and!; [done|exact Ha1| | |].
    + intros j Hj. by rewrite list_lookup_insert_ne.
    + apply length_insert.
    + intros quantity' Hfits'.
      assert (Hex' : exceeded (House.capacity h) quantity' = None)
        by (by apply exceeded_spec).
      rewrite (updateBatchAllocation_accepted user farm allocationId st
                 i ib ih a b h Hm Ha Hb Hh quantity' Hex').
      rewrite (updateBatchAllocation_accepted user farm allocationId st1
                 i ib ih a1 b h Hm Ha1 Hb Hh quantity' Hex').
      simpl. rewrite list_insert_insert_eq. reflexivity.
Qed.

Lemma allocation_update_overwrites_witness :
  failure (updateBatchAllocation demoUser "a2" 501 sharedHouse).2
  = Some CapacityExceeded
  ∧ Allocation_findById "a2"
      (updateBatchAllocation demoUser "a2" (-5) sharedHouse).1
    = Some (1%nat, BatchAllocation.mk "a2" "bY" "hC" (-5)).
Proof.
  assert (Hm : memberOf demoUser "farm1")
    by (split; [reflexivity | discriminate]).
  split.
  - refine (proj2 (proj1 (allocation_update_overwrites demoUser "farm1" "a2"
              sharedHouse 1%nat 1%nat 1%nat
              (BatchAllocation.mk "a2" "bY" "hC" 100)
              (Batch.mk "bY" "farm1" "Pullets" 1000 0 0 0 false)
              (House.mk "hC" "farm1" "House C" (Some 500)) 501
              Hm eq_refl eq_refl eq_refl) _)).
    exists 500. split_and!; [reflexivity | discriminate | reflexivity].
  - refine (proj1 (proj2 (proj2 (allocation_update_overwrites demoUser "farm1"
              "a2" sharedHouse 1%nat 1%nat 1%nat
              (BatchAllocation.mk "a2" "bY" "hC" 100)
              (Batch.mk "bY" "farm1" "Pullets" 1000 0 0 0 false)
              (House.mk "hC" "farm1" "House C" (Some 500)) (-5)
              Hm eq_refl eq_refl eq_refl) _))).
    intros c [= <-] _. discriminate.
Defined.


(** ** Allocation, once more *)

Section AllocateDone.
Context (user : User.t) (farm batchId houseId : string) (quantity : Z)
  (uuid : string) (st : Store) (ib ih : nat) (b : Batch.doc) (h : House.doc).
Hypothesis Hmember : memberOf user farm.
Hypothesis Hbatch : Batch_findOne batchId farm st = Some (ib, b).
Hypothesis Henough :
  quantity ≤ Batch.currentCount b - allocatedCount batchId st.
Hypothesis Hhouse : House_findOne houseId farm st = Some (ih, h).

Local Abbreviation existingQuantity :=
  (from_option (λ d : nat * BatchAllocation.doc, BatchAllocation.quantity d.2)
     0 (Allocation_findOne batchId houseId st)).

Lemma createBatchAllocation_done :
  exceeded (House.capacity h) (existingQuantity + quantity) = None →
  exceeded (House.capacity h) (occupancy houseId st + quantity) = None →
  createBatchAllocation user batchId houseId quantity uuid st
  = match Allocation_findOne batchId houseId st with
    | Some (i, existing) =>
        let allocation :=
          BatchAllocation.setQuantity
            (BatchAllocation.quantity existing + quantity) existing in
        (setAllocations (<[i := allocation]> (allocations st)) st,
         mkResponse 201 (AllocationDoc allocation))
    | None =>
        let allocation := BatchAllocation.mk uuid batchId houseId quantity in
        (setAllocations (allocations st ++ [allocation]) st,
         mkResponse 201 (AllocationDoc allocation))
    end.
Proof.
  intros Hex1 Hex2.
  destruct (Batch_findOne_Some _ _ _ _ _ Hbatch) as (_ & Hid & _).
  unfold occupancy in Hex2. rewrite <- sumQuantity_total in Hex2.
  unfold createBatchAllocation. handler_unfold.
  rewrite (requireFarm_member _ _ _ Hmember), Hbatch. simpl.
  rewrite Hid, sumQuantity_total.
  fold (allocatedCount batchId st).
  rewrite bool_decide_eq_false_2 by lia.
  rewrite Hhouse. simpl. rewrite Hex1.
  rewrite bool_decide_eq_false_2 by (by intros [? ?]).
  simpl. rewrite Hex2.
  by destruct (Allocation_findOne batchId houseId st) as [[i a]|].
Qed.

Lemma createBatchAllocation_refused c :
  exceeded (House.capacity h) (existingQuantity + quantity) = Some c
  ∨ exceeded (House.capacity h) (occupancy houseId st + quantity) = Some c →
  (createBatchAllocation user batchId houseId quantity uuid st).1 = st
  ∧ status (createBatchAllocation user batchId houseId quantity uuid st).2
    = 400.
Proof.
  intros Hover.
  assert (Hc : House.capacity h = Some c ∧ c ≠ 0
               ∧ (existingQuantity + quantity > c
                  ∨ occupancy houseId st + quantity > c)).
  { destruct Hover as [Hx|Hx]; apply exceeded_spec in Hx as (? & ? & ?);
      split_and!; auto. }
  destruct Hc as (Hcap & Hc0 & Hgt).
  destruct (allocate_over_capacity user farm batchId houseId quantity uuid st
              Hmember ib b ih h c Hbatch Henough Hhouse Hcap Hc0 Hgt)
    as [Hst Hfail].
  split; [exact Hst|].
  unfold failure in Hfail. repeat case_bool_decide; try done.
Qed.
End AllocateDone.

(** Every way [createBatchAllocation] can end, with the answer. *)
Lemma createBatchAllocation_outcomes user batchId houseId quantity uuid st :
  let result := createBatchAllocation user batchId houseId quantity uuid st in
  (status result.2 = 400 ∨ status result.2 = 404) ∧ result.1 = st
  ∨ ∃ farm ib b ih h,
      memberOf user farm
      ∧ Batch_findOne batchId farm st = Some (ib, b)
      ∧ quantity ≤ Batch.currentCount b - allocatedCount batchId st
      ∧ House_findOne houseId farm st = Some (ih, h)
      ∧ exceeded (House.capacity h) (occupancy houseId st + quantity) = None
      ∧ result
        = match Allocation_findOne batchId houseId st with
          | Some (i, existing) =>
              let allocation :=
                BatchAllocation.setQuantity
                  (BatchAllocation.quantity existing + quantity) existing in
              (setAllocations (<[i := allocation]> (allocations st)) st,
               mkResponse 201 (AllocationDoc allocation))
          | None =>
              let allocation :=
                BatchAllocation.mk uuid batchId houseId quantity in
              (setAllocations (allocations st ++ [allocation]) st,
               mkResponse 201 (AllocationDoc allocation))
          end.
Proof.
  intros result. subst result.
  destruct (farmless_or_member user) as [Hno|[farm Hm]].
  { left. pose proof (every_handler_requires_a_farm_aux user
                        (Allocate batchId houseId quantity uuid) st Hno) as Hr.
    simpl in Hr. rewrite Hr. simpl. tauto. }
  destruct (Batch_findOne batchId farm st) as [[ib b]|] eqn:Hb; cycle 1.
  { left. rewrite (allocate_no_batch user farm batchId houseId quantity uuid
                     st Hm Hb). simpl. tauto. }
  destruct (Z_le_gt_dec quantity
              (Batch.currentCount b - allocatedCount batchId st))
    as [Hle|Hgt]; cycle 1.
  { left. rewrite (allocate_insufficient user farm batchId houseId quantity
                     uuid st Hm ib b Hb Hgt). simpl. tauto. }
  destruct (House_findOne houseId farm st) as [[ih h]|] eqn:Hh; cycle 1.
  { left. rewrite (allocate_no_house user farm batchId houseId quantity uuid
                     st Hm ib b Hb Hle Hh). simpl. tauto. }
  destruct (exceeded (House.capacity h)
              (from_option (λ d : nat * BatchAllocation.doc,
                              BatchAllocation.quantity d.2) 0
                 (Allocation_findOne batchId houseId st) + quantity))
    as [c|] eqn:Hex1.
  { left. destruct (createBatchAllocation_refused user farm batchId houseId
                      quantity uuid st ib ih b h Hm Hb Hle Hh c (or_introl Hex1))
      as [-> ->]. tauto. }
  destruct (exceeded (House.capacity h) (occupancy houseId st + quantity))
    as [c|] eqn:Hex2.
  { left. destruct (createBatchAllocation_refused user farm batchId houseId
                      quantity uuid st ib ih b h Hm Hb Hle Hh c (or_intror Hex2))
      as [-> ->]. tauto. }
  right. exists farm, ib, b, ih, h. split_and!; try done.
  exact (createBatchAllocation_done user farm batchId houseId quantity uuid st
           ib ih b h Hm Hb Hle Hh Hex1 Hex2).
Qed.



Lemma getBatchAvailability_found user farm batchId st i b :
  memberOf user farm →
  Batch_findOne batchId farm st = Some (i, b) →
  getBatchAvailability user batchId st
  = (st, mkResponse 200
           (Availability (Batch.id b) (Batch.name b) (Batch.originalCount b)
              (Batch.dead b) (Batch.culled b) (Batch.offlaid b)
              (Batch.currentCount b) (allocatedCount batchId st)
              (Batch.currentCount b - allocatedCount batchId st))).
Proof.
  intros Hm Hf. destruct (Batch_findOne_Some _ _ _ _ _ Hf) as (_ & Hid & _).
  unfold getBatchAvailability. handler_unfold.
  rewrite (requireFarm_member _ _ _ Hm), Hf. simpl.
  rewrite Hid, sumQuantity_total. reflexivity.
Qed.

(** X11.  An accepted allocation moves exactly [quantity] birds from the
    batch's unallocated count to its allocated count, as
    [getBatchAvailability] reports them right after, and the unallocated
    count it leaves is not negative; the house's occupancy grows by the same
    quantity. *)
Theorem allocation_shows_in_availability
    user batchId houseId quantity uuid st :
  let result := createBatchAllocation user batchId houseId quantity uuid st in
  status result.2 = 201 →
  ∃ farm i b,
    memberOf user farm ∧ Batch_findOne batchId farm st = Some (i, b)
    ∧ (getBatchAvailability user batchId result.1).2
      = mkResponse 200
          (Availability (Batch.id b) (Batch.name b) (Batch.originalCount b)
             (Batch.dead b) (Batch.culled b) (Batch.offlaid b)
             (Batch.currentCount b)
             (allocatedCount batchId st + quantity)
             (Batch.currentCount b - allocatedCount batchId st - quantity))
    ∧ 0 ≤ Batch.currentCount b - allocatedCount batchId st - quantity
    ∧ occupancy houseId result.1 = occupancy houseId st + quantity.
Proof.
  intros result H201.
  destruct (createBatchAllocation_outcomes user batchId houseId quantity uuid
              st) as [[Hs _]|(farm & ib & b & ih & h & Hm & Hb & Hle & Hh
                                & _ & Hr)].
  { fold result in Hs. lia. }
  fold result in Hr.
  assert (Hb' : Batch_findOne batchId farm result.1 = Some (ib, b)).
  { rewrite Hr.
    by destruct (Allocation_findOne batchId houseId st) as [[i a]|]. }
  assert (Hsum : allocatedCount batchId result.1
                 = allocatedCount batchId st + quantity
                 ∧ occupancy houseId result.1
                   = occupancy houseId st + quantity).
  { rewrite Hr.
    destruct (Allocation_findOne batchId houseId st) as [[j a]|] eqn:Ha.
    - destruct (Allocation_findOne_Some _ _ _ _ _ Ha) as (Hj & Hab & Hah).
      simpl. rewrite (allocatedCount_save _ _ _ _ _ Hj), Hab.
      rewrite (occupancy_save _ _ _ _ _ Hj), Hah.
      rewrite !decide_True by done. lia.
    - simpl. rewrite allocatedCount_create, occupancy_create. simpl.
      rewrite !decide_True by done. lia. }
  destruct Hsum as [Hsum Hocc].
  exists farm, ib, b. split_and!; [done|done| |lia|exact Hocc].
  rewrite (getBatchAvailability_found user farm batchId result.1 ib b Hm Hb').
  simpl. rewrite Hsum. do 2 f_equal. lia.
Qed.

Lemma allocation_shows_in_availability_witness :
  (getBatchAvailability demoUser "b1"
     (createBatchAllocation demoUser "b1" "hB" 150 "a2" halfPlaced).1).2
  = mkResponse 200 (Availability "b1" "Layers" 1000 10 5 3 982 650 332).
Proof.
  destruct (allocation_shows_in_availability demoUser "b1" "hB" 150 "a2"
              halfPlaced eq_refl)
    as (farm & i & b & [Hu _] & Hb & Hav & _).
  injection Hu as <-. vm_compute in Hb. injection Hb as <- <-.
  exact Hav.
Defined.


(** ** Batches: creation, deletion, direct update *)

(** [save] finds nothing wanting exactly when all six fields are given and
    the three strings are not empty. *)
Lemma missingPaths_nil newBatch :
  missingPaths newBatch = []
  ↔ ∃ name arrivalDate ageAtArrival chickenType originalCount supplier,
      newBatch
      = mkNewBatch (Some name) (Some arrivalDate) (Some ageAtArrival)
          (Some chickenType) (Some originalCount) (Some supplier)
      ∧ name ≠ "" ∧ chickenType ≠ "" ∧ supplier ≠ "".
Proof.
  destruct newBatch as [n d a t c s].
  unfold missingPaths, blank, unset. simpl. split.
  - repeat case_bool_decide; simpl; try discriminate. intros _.
    destruct n as [n|], d as [d|], a as [a|], t as [t|], c as [c|],
      s as [s|]; try tauto.
    exists n, d, a, t, c, s. split_and!; [done|..]; intros ->; tauto.
  - intros (name & arrivalDate & ageAtArrival & chickenType & originalCount
            & supplier & Heq & Hn & Ht & Hs).
    simplify_eq.
    rewrite !bool_decide_eq_false_2; [done|..]; try discriminate;
      intros [?|?]; simplify_eq.
Qed.

Lemma createBatch_stored user farm newBatch uuid st :
  memberOf user farm →
  missingPaths newBatch = [] →
  let fresh :=
    Batch.mk uuid farm (orEmpty (n_name newBatch))
      (orZero (n_originalCount newBatch)) 0 0 0 false in
  createBatch user newBatch uuid st
  = (setBatches (batches st ++ [fresh]) st, mkResponse 201 (BatchDoc fresh)).
Proof.
  intros Hm Hnil. unfold createBatch. handler_unfold.
  rewrite (requireFarm_member _ _ _ Hm). simpl.
  by rewrite bool_decide_eq_true_2.
Qed.

Lemma createBatch_refused user farm newBatch uuid st :
  memberOf user farm →
  missingPaths newBatch ≠ [] →
  createBatch user newBatch uuid st
  = (st, mkResponse 500
           (ServerError (validationMessage (missingPaths newBatch)))).
Proof.
  intros Hm Hnil. unfold createBatch. handler_unfold.
  rewrite (requireFarm_member _ _ _ Hm). simpl.
  by rewrite bool_decide_eq_false_2.
Qed.

(** X12.  [createBatch] stores a batch exactly when the request gives all
    of name, arrival date, age at arrival, chicken type, original count and
    supplier, the three strings not empty.  Then, under an id that no batch
    has yet, it answers 201 with all three loss counters at zero, so that
    the current count is the original count; [getBatchById] finds the batch
    right after under that id, every batch that could be found before is
    still found at the same place, batch ids stay unique, and no house,
    allocation or history entry is touched.  Otherwise [save] fails: the
    answer is 500 and nothing is stored. *)
Theorem created_batch_is_found user farm newBatch uuid st :
  memberOf user farm →
  uuid ∉ Batch.id <$> batches st →
  let result := createBatch user newBatch uuid st in
  let complete name arrivalDate ageAtArrival chickenType originalCount
        supplier :=
    newBatch
    = mkNewBatch (Some name) (Some arrivalDate) (Some ageAtArrival)
        (Some chickenType) (Some originalCount) (Some supplier)
    ∧ name ≠ "" ∧ chickenType ≠ "" ∧ supplier ≠ "" in
  (∀ name arrivalDate ageAtArrival chickenType originalCount supplier,
     complete name arrivalDate ageAtArrival chickenType originalCount
       supplier →
     let fresh := Batch.mk uuid farm name originalCount 0 0 0 false in
     result.2 = mkResponse 201 (BatchDoc fresh)
     ∧ Batch.currentCount fresh = originalCount
     ∧ getBatchById user uuid result.1
       = (result.1, mkResponse 200 (BatchDoc fresh))
     ∧ (∀ bid f i b, Batch_findOne bid f st = Some (i, b) →
                     Batch_findOne bid f result.1 = Some (i, b))
     ∧ (uniqueBatchIds st → uniqueBatchIds result.1)
     ∧ houses result.1 = houses st
     ∧ allocations result.1 = allocations st
     ∧ history result.1 = history st)
  ∧ ((¬ ∃ name arrivalDate ageAtArrival chickenType originalCount supplier,
          complete name arrivalDate ageAtArrival chickenType originalCount
            supplier) →
     result.1 = st ∧ status result.2 = 500
     ∧ failure result.2 = Some InternalError).
Proof.
  intros Hm Hnew result complete.
  assert (Hnone : Batch_findOne uuid farm st = None).
  { unfold Batch_findOne. apply list_find_None, Forall_forall.
    intros b Hb [Hid _]. apply Hnew. rewrite <- Hid.
    by apply list_elem_of_fmap_2. }
  split.
  - intros name arrivalDate ageAtArrival chickenType originalCount supplier
      Hall fresh.
    assert (Hnil : missingPaths newBatch = []).
    { apply missingPaths_nil. by eexists _, _, _, _, _, _. }
    destruct Hall as (Heq & _).
    assert (Hr : result = (setBatches (batches st ++ [fresh]) st,
                           mkResponse 201 (BatchDoc fresh))).
    { unfold result. rewrite (createBatch_stored user farm _ _ _ Hm Hnil).
      by rewrite Heq. }
    rewrite Hr. simpl.
    assert (Hfresh : Batch_findOne uuid farm
                       (setBatches (batches st ++ [fresh]) st)
                     = Some (length (batches st), fresh)).
    { unfold Batch_findOne in *. simpl. apply list_find_app_Some. right.
      split_and!; [lia|exact Hnone|].
      rewrite Nat.sub_diag. simpl. by rewrite decide_True. }
    split_and!; try done.
    + unfold Batch.currentCount. simpl. lia.
    + unfold getBatchById. handler_unfold.
      by rewrite (requireFarm_member _ _ _ Hm), Hfresh.
    + intros bid f i b Hb. unfold Batch_findOne in *. simpl.
      apply list_find_app_Some. by left.
    + unfold uniqueBatchIds. simpl. intros Hnd.
      rewrite fmap_app. apply NoDup_app. split_and!; [done| |].
      * intros x Hx Hin. apply list_elem_of_singleton in Hin as ->.
        by apply Hnew.
      * apply NoDup_singleton.
  - intros Hnot.
    assert (Hpaths : missingPaths newBatch ≠ []).
    { intros Hnil. apply Hnot. by apply missingPaths_nil. }
    unfold result. by rewrite (createBatch_refused user farm _ _ _ Hm Hpaths).
Qed.

Lemma created_batch_is_found_witness :
  getBatchById demoUser "b3"
    (createBatch demoUser
       (mkNewBatch (Some "Chicks") (Some 20260301) (Some 1) (Some "layer")
          (Some 250) (Some "Hatchery")) "b3" halfPlaced).1
  = ((createBatch demoUser
        (mkNewBatch (Some "Chicks") (Some 20260301) (Some 1) (Some "layer")
           (Some 250) (Some "Hatchery")) "b3" halfPlaced).1,
     mkResponse 200
       (BatchDoc (Batch.mk "b3" "farm1" "Chicks" 250 0 0 0 false)))
  ∧ (createBatch demoUser
       (mkNewBatch (Some "Chicks") (Some 20260301) (Some 1) (Some "layer")
          (Some 250) None) "b3" halfPlaced).1
    = halfPlaced.
Proof.
  assert (Hm : memberOf demoUser "farm1")
    by (split; [reflexivity | discriminate]).
  assert (Hnone : "b3" ∉ Batch.id <$> batches halfPlaced).
  { simpl. rewrite !elem_of_cons, elem_of_nil.
    intros [H|[H|H]]; [discriminate H..|exact H]. }
  split.
  - refine (proj1 (proj2 (proj2 (proj1 (created_batch_is_found demoUser
                                          "farm1" _ "b3" halfPlaced Hm Hnone)
                                   "Chicks" 20260301 1 "layer" 250 "Hatchery"
                                   _)))).
    split_and!; [reflexivity | discriminate..].
  - refine (proj1 (proj2 (created_batch_is_found demoUser "farm1" _ "b3"
                            halfPlaced Hm Hnone) _)).
    intros (name & arrivalDate & ageAtArrival & chickenType & originalCount
            & supplier & Heq & _).
    discriminate Heq.
Defined.

Lemma deleteBatch_found user farm batchId st i b :
  memberOf user farm →
  Batch_findOne batchId farm st = Some (i, b) →
  deleteBatch user batchId st
  = (setBatches (delete i (batches st)) st,
     mkResponse 200 (Message "Batch deleted successfully")).
Proof.
  intros Hm Hb. unfold deleteBatch. handler_unfold.
  by rewrite (requireFarm_member _ _ _ Hm), Hb.
Qed.

(** X13.  Deleting a batch of the caller's farm removes that one batch
    document and nothing else: with unique batch ids the batch is not found
    any more (availability answers 404), every other batch is still there,
    and the batch's allocation records and history entries all stay, so the
    houses it was placed in keep counting its birds. *)
Theorem deleting_a_batch_keeps_its_allocations user farm batchId st i b :
  memberOf user farm →
  uniqueBatchIds st →
  Batch_findOne batchId farm st = Some (i, b) →
  let result := deleteBatch user batchId st in
  status result.2 = 200
  ∧ (∀ f, Batch_findOne batchId f result.1 = None)
  ∧ status (getBatchAvailability user batchId result.1).2 = 404
  ∧ (∀ b', b' ∈ batches result.1 ↔ b' ∈ batches st ∧ b' ≠ b)
  ∧ allocations result.1 = allocations st
  ∧ history result.1 = history st
  ∧ (∀ hid, occupancy hid result.1 = occupancy hid st)
  ∧ allocatedCount batchId result.1 = allocatedCount batchId st.
Proof.
  intros Hm Hnd Hb result.
  assert (Hr := deleteBatch_found user farm batchId st i b Hm Hb).
  fold result in Hr. rewrite Hr. simpl.
  destruct (Batch_findOne_Some _ _ _ _ _ Hb) as (Hi & Hid & _).
  assert (Hrest : ∀ b', b' ∈ delete i (batches st)
                        ↔ b' ∈ batches st ∧ b' ≠ b).
  { intros b'. split.
    - intros Hin. split; [by eapply list_elem_of_delete_inv|].
      intros ->. apply list_elem_of_lookup in Hin as [j Hj].
      rewrite list_lookup_delete in Hj.
      assert (Hnd' : NoDup (batches st)) by (by eapply NoDup_fmap_1).
      pose proof (NoDup_lookup _ _ _ _ Hnd' Hi Hj) as Heq.
      case_decide; lia.
    - intros [Hin Hneq]. apply list_elem_of_lookup in Hin as [j Hj].
      apply list_elem_of_lookup.
      assert (j ≠ i) by (intros ->; congruence).
      destruct (decide (j < i)%nat).
      + exists j. by rewrite list_lookup_delete_lt.
      + exists (pred j). rewrite list_lookup_delete_ge by lia.
        by replace (S (pred j)) with j by lia. }
  assert (Hgone : ∀ f, Batch_findOne batchId f
                         (setBatches (delete i (batches st)) st) = None).
  { intros f. unfold Batch_findOne. simpl. apply list_find_None.
    apply Forall_forall. intros b' Hin [Hid' _].
    apply Hrest in Hin as [Hin Hneq]. apply Hneq.
    eapply unique_batch; eauto. congruence. }
  split_and!; try done.
  unfold getBatchAvailability. handler_unfold.
  by rewrite (requireFarm_member _ _ _ Hm), Hgone.
Qed.

Lemma deleting_a_batch_keeps_its_allocations_witness :
  status (getBatchAvailability demoUser "b1"
            (deleteBatch demoUser "b1" halfPlaced).1).2 = 404
  ∧ occupancy "hA" (deleteBatch demoUser "b1" halfPlaced).1 = 500.
Proof.
  destruct (deleting_a_batch_keeps_its_allocations demoUser "farm1" "b1"
              halfPlaced 0%nat
              (Batch.mk "b1" "farm1" "Layers" 1000 10 5 3 false))
    as (_ & _ & H404 & _ & _ & _ & Hocc & _).
  - split; [reflexivity | discriminate].
  - unfold uniqueBatchIds. simpl. apply NoDup_cons. split.
    + intros H. apply list_elem_of_singleton in H. discriminate H.
    + apply NoDup_singleton.
  - reflexivity.
  - split; [exact H404|]. rewrite Hocc. reflexivity.
Defined.

Section UpdateBatch.
Context (user : User.t) (farm batchId : string) (updates : BatchUpdates)
  (st : Store) (i : nat) (b : Batch.doc).
Hypothesis Hmember : memberOf user farm.
Hypothesis Hbatch : Batch_findOne batchId farm st = Some (i, b).

Local Abbreviation newDead := (default (Batch.dead b) (u_dead updates)).
Local Abbreviation newCulled := (default (Batch.culled b) (u_culled updates)).
Local Abbreviation newOfflaid :=
  (default (Batch.offlaid b) (u_offlaid updates)).
Local Abbreviation touched :=
  (is_Some (u_dead updates) ∨ is_Some (u_culled updates)
   ∨ is_Some (u_offlaid updates)).
Local Abbreviation written :=
  (setBatches (<[i := applyUpdates updates b]> (batches st)) st,
   mkResponse 200 (BatchDoc (applyUpdates updates b))).




End UpdateBatch.




(** ** Listings *)

Lemma totalQuantity_reverse l : totalQuantity (reverse l) = totalQuantity l.
Proof.
  induction l as [|a l IH]; [done|].
  rewrite reverse_cons, totalQuantity_app, IH. simpl. lia.
Qed.

(** X15.  [getBatches] lists exactly the batches of the caller's farm, the
    latest created first, and leaves the store alone.  With
    [includeAllocations] every batch comes with the sum of the quantities of
    its own allocation records and with its current count minus that sum:
    the figures [getBatchAvailability] gives for it. *)
Theorem batch_listing_counts user farm st :
  memberOf user farm →
  let mine := reverse (filter (λ b, Batch.farmId b = farm) (batches st)) in
  getBatches user false st = (st, mkResponse 200 (BatchList mine))
  ∧ getBatches user true st
    = (st, mkResponse 200
             (BatchListWithCounts
                ((λ b, (b, allocatedCount (Batch.id b) st,
                        Batch.currentCount b - allocatedCount (Batch.id b) st))
                   <$> mine)))
  ∧ (∀ b, b ∈ mine ↔ b ∈ batches st ∧ Batch.farmId b = farm)
  ∧ (∀ b i, Batch_findOne (Batch.id b) farm st = Some (i, b) →
       b ∈ mine
       ∧ (getBatchAvailability user (Batch.id b) st).2
         = mkResponse 200
             (Availability (Batch.id b) (Batch.name b) (Batch.originalCount b)
                (Batch.dead b) (Batch.culled b) (Batch.offlaid b)
                (Batch.currentCount b) (allocatedCount (Batch.id b) st)
                (Batch.currentCount b - allocatedCount (Batch.id b) st))).
Proof.
  intros Hm mine.
  assert (Hin : ∀ b, b ∈ mine ↔ b ∈ batches st ∧ Batch.farmId b = farm).
  { intros b. unfold mine. rewrite elem_of_reverse, list_elem_of_filter.
    tauto. }
  split_and!.
  - unfold getBatches. handler_unfold.
    by rewrite (requireFarm_member _ _ _ Hm).
  - unfold getBatches. handler_unfold.
    rewrite (requireFarm_member _ _ _ Hm). simpl. fold mine.
    do 3 f_equal. apply Forall_fmap_ext, Forall_forall. intros b Hb.
    rewrite sumQuantity_total.
    rewrite list_filter_filter_l; [reflexivity|].
    intros a ->. apply list_elem_of_fmap. by exists b.
  - exact Hin.
  - intros b i Hb. destruct (Batch_findOne_Some _ _ _ _ _ Hb) as (Hi & _ & Hf).
    split.
    + apply Hin. split; [|done]. by eapply list_elem_of_lookup_2.
    + by rewrite (getBatchAvailability_found user farm (Batch.id b) st i b
                    Hm Hb).
Qed.

Lemma batch_listing_counts_witness :
  getBatches demoUser true halfPlaced
  = (halfPlaced,
     mkResponse 200
       (BatchListWithCounts
          [(Batch.mk "b2" "farm1" "Retired" 50 0 0 0 true, 0, 50);
           (Batch.mk "b1" "farm1" "Layers" 1000 10 5 3 false, 500, 482)])).
Proof.
  refine (proj1 (proj2 (batch_listing_counts demoUser "farm1" halfPlaced _))).
  split; [reflexivity | discriminate].
Defined.

(** X16.  The allocation listing of a batch of the caller's farm holds
    exactly the allocation records of that batch, the latest created first,
    and their quantities sum to the batch's allocated count; the listing of
    a house of the caller's farm holds exactly the records of that house,
    whichever batch they belong to, and their quantities sum to the house's
    occupancy.  Neither changes the store. *)
Theorem allocation_listings_are_complete user farm st :
  memberOf user farm →
  (∀ batchId i b, Batch_findOne batchId farm st = Some (i, b) →
     ∃ l, getBatchAllocations user batchId st
          = (st, mkResponse 200 (AllocationList l))
          ∧ (∀ a, a ∈ l ↔ a ∈ allocations st
                          ∧ BatchAllocation.batchId a = batchId)
          ∧ totalQuantity l = allocatedCount batchId st
          ∧ (∀ a, last (allocations st) = Some a →
                  BatchAllocation.batchId a = batchId → head l = Some a))
  ∧ (∀ houseId i h, House_findOne houseId farm st = Some (i, h) →
       ∃ l, getHouseBatchAllocations user houseId st
            = (st, mkResponse 200 (AllocationList l))
            ∧ (∀ a, a ∈ l ↔ a ∈ allocations st
                            ∧ BatchAllocation.houseId a = houseId)
            ∧ totalQuantity l = occupancy houseId st
            ∧ (∀ a, last (allocations st) = Some a →
                    BatchAllocation.houseId a = houseId → head l = Some a)).
Proof.
  intros Hm.
  assert (Hhead : ∀ (P : BatchAllocation.doc → Prop)
                    `{∀ a, Decision (P a)} l a,
            last l = Some a → P a → head (reverse (filter P l)) = Some a).
  { intros P ? l a Hlast HP. apply last_Some in Hlast as [l' ->].
    rewrite filter_app, filter_cons, decide_True by done.
    rewrite filter_nil, reverse_app. reflexivity. }
  split.
  - intros batchId i b Hb. eexists. split_and!.
    + unfold getBatchAllocations. handler_unfold.
      by rewrite (requireFarm_member _ _ _ Hm), Hb.
    + intros a. unfold Allocation_findByBatch.
      rewrite elem_of_reverse, list_elem_of_filter. tauto.
    + by rewrite totalQuantity_reverse.
    + intros a Hlast Ha. by apply Hhead.
  - intros houseId i h Hh. eexists. split_and!.
    + unfold getHouseBatchAllocations. handler_unfold.
      by rewrite (requireFarm_member _ _ _ Hm), Hh.
    + intros a. unfold Allocation_findByHouse.
      rewrite elem_of_reverse, list_elem_of_filter. tauto.
    + by rewrite totalQuantity_reverse.
    + intros a Hlast Ha. by apply Hhead.
Qed.

Lemma allocation_listings_are_complete_witness :
  ∃ l, getHouseBatchAllocations demoUser "hC" sharedHouse
       = (sharedHouse, mkResponse 200 (AllocationList l))
       ∧ totalQuantity l = 400.
Proof.
  assert (Hm : memberOf demoUser "farm1")
    by (split; [reflexivity | discriminate]).
  destruct (proj2 (allocation_listings_are_complete demoUser "farm1"
                     sharedHouse Hm) "hC" 1%nat
              (House.mk "hC" "farm1" "House C" (Some 500)) eq_refl)
    as (l & Hl & _ & Hsum & _).
  exists l. split; [exact Hl|]. rewrite Hsum. reflexivity.
Defined.


(** ** Interleaved loss deltas, in general *)

Lemma countsCheck_inv user farm batchId delta st st' o :
  memberOf user farm →
  countsCheck user batchId delta st = (st', o) →
  st' = st
  ∧ match o with
    | Answer r => status r = 400 ∨ status r = 404
    | Value (f, b) =>
        f = farm ∧ validDeltas delta = true
        ∧ lossTotal b + requested delta ≤ Batch.originalCount b
        ∧ ∃ i, Batch_findOne batchId farm st = Some (i, b)
    end.
Proof.
  intros Hm.
  destruct (validDeltas delta) eqn:Hv; cycle 1.
  { unfold validDeltas in Hv. unfold countsCheck. handler_unfold.
    rewrite (requireFarm_member _ _ _ Hm).
    apply andb_false_iff in Hv as [Hv|Hv]; apply negb_false_iff in Hv;
      rewrite Hv; simpl.
    - intros [= <- <-]. simpl. tauto.
    - destruct (bool_decide _); simpl; intros [= <- <-]; simpl; tauto. }
  destruct (Batch_findOne batchId farm st) as [[i b]|] eqn:Hf; cycle 1.
  { unfold validDeltas in Hv.
    apply andb_prop in Hv as [Hv1 Hv2]. apply negb_true_iff in Hv1, Hv2.
    unfold countsCheck. handler_unfold.
    rewrite (requireFarm_member _ _ _ Hm), Hv1, Hv2, Hf. simpl.
    intros [= <- <-]. simpl. tauto. }
  destruct (Z_le_gt_dec (lossTotal b + requested delta)
              (Batch.originalCount b)) as [Hle|Hgt].
  - rewrite (countsCheck_pass user farm batchId Hm delta st i b Hv Hf Hle).
    intros [= <- <-]. split_and!; try done. by exists i.
  - rewrite (countsCheck_exceeds user farm batchId Hm delta st i b Hv Hf Hgt).
    intros [= <- <-]. simpl. tauto.
Qed.


Section AnyDeltas.
Context (farm batchId : string) (i : nat) (b0 : Batch.doc).

Lemma applied_insert field ts (k : nat) q t t' :
  ts !! k = Some (q, t) →
  applied field (<[k := (q, t')]> ts)
  = applied field ts
    - (if decide (counted t) then orZero (field (r_body q)) else 0)
    + (if decide (counted t') then orZero (field (r_body q)) else 0).
Proof.
  unfold applied.
  revert k; induction ts as [|x ts IH]; intros [|k] Hk; simpl in Hk;
    try discriminate.
  - injection Hk as ->. simpl. lia.
  - simpl. rewrite (IH _ Hk). lia.
Qed.

Lemma applied_arrivals field requests st :
  applied field (tasks (arrivals st requests)) = 0.
Proof.
  unfold applied, arrivals. simpl. induction requests as [|q l IH]; [done|].
  rewrite fmap_cons. cbn [foldr snd]. rewrite IH.
  rewrite decide_False by (simpl; tauto). reflexivity.
Qed.

Lemma tracked_update sys (k : nat) q t t' st' b' :
  tracked farm batchId i b0 sys →
  tasks sys !! k = Some (q, t) →
  match t' with Validated f _ => f = farm | _ => True end →
  Batch_findOne batchId farm st' = Some (i, b') →
  Batch.originalCount b' = Batch.originalCount b0 →
  Batch.dead b'
  = Batch.dead b0 + applied c_dead (<[k := (q, t')]> (tasks sys)) →
  Batch.culled b'
  = Batch.culled b0 + applied c_culled (<[k := (q, t')]> (tasks sys)) →
  Batch.offlaid b'
  = Batch.offlaid b0 + applied c_offlaid (<[k := (q, t')]> (tasks sys)) →
  tracked farm batchId i b0 (mkSystem st' (<[k := (q, t')]> (tasks sys))).
Proof.
  intros [Hts _] Hk Ht' Hb' Ho Hd Hc Hof. split; simpl.
  - apply Forall_insert; [exact Hts|]. simpl. split; [|exact Ht'].
    by destruct (Forall_lookup_1 _ _ _ _ Hts Hk).
  - exists b'. by split_and!.
Qed.

(** One step of any request keeps the counters equal to the initial ones
    plus the deltas applied so far. *)
Lemma stepTask_tracked sys k :
  tracked farm batchId i b0 sys → tracked farm batchId i b0 (stepTask k sys).
Proof.
  intros Hsys. unfold stepTask.
  destruct (tasks sys !! k) as [[q t]|] eqn:Hk; [|exact Hsys].
  pose proof Hsys as [Hts (b & Hb & Ho & Hd & Hc & Hof)].
  destruct (Forall_lookup_1 _ _ _ _ Hts Hk) as [[Hm Hbid] Ht].
  simpl in Hm, Hbid, Ht.
  pose proof (λ field t', applied_insert field (tasks sys) k q t t' Hk)
    as Happ.
  destruct t as [|f b1|f b1 b2|r]; simpl.
  - (* the read and the check *)
    destruct (countsCheck (r_user q) (r_batchId q) (r_body q) (store sys))
      as [st' [r|[f b']]] eqn:Hcheck;
      destruct (countsCheck_inv _ _ _ _ _ _ _ Hm Hcheck) as [-> Hout].
    + apply (tracked_update sys k q Received (Responded r) (store sys) b
               Hsys Hk); simpl; try done; rewrite Happ; simpl;
        rewrite decide_False by lia; lia.
    + destruct Hout as (-> & _).
      apply (tracked_update sys k q Received (Validated farm b') (store sys) b
               Hsys Hk); simpl; try done; rewrite Happ; simpl; lia.
  - (* the atomic increment *)
    subst f. rewrite Hbid.
    rewrite (countsIncrement_found farm batchId (r_body q) (store sys) i b
               Hb).
    apply (tracked_update sys k q (Validated farm b1)
             (Incremented farm b1 (incCounts (r_body q) b))
             (setBatches (<[i := incCounts (r_body q) b]>
                            (batches (store sys))) (store sys))
             (incCounts (r_body q) b) Hsys Hk); simpl; try done.
    + by eapply Batch_findOne_inc.
    + rewrite Happ. simpl. rewrite plusDelta_orZero. lia.
    + rewrite Happ. simpl. rewrite plusDelta_orZero. lia.
    + rewrite Happ. simpl. rewrite plusDelta_orZero. lia.
  - (* the audit record and the answer *)
    apply (tracked_update sys k q (Incremented f b1 b2) _ _ b Hsys Hk);
      simpl; try done; rewrite Happ; simpl; lia.
  - (* already answered *)
    apply (tracked_update sys k q (Responded r) (Responded r) (store sys)
             b Hsys Hk); simpl; try done; rewrite Happ; simpl; lia.
Qed.

Lemma runSchedule_tracked schedule sys :
  tracked farm batchId i b0 sys →
  tracked farm batchId i b0 (runSchedule schedule sys).
Proof.
  revert sys. induction schedule as [|k schedule IH]; intros sys Hsys;
    [done|].
  simpl. apply IH. by apply stepTask_tracked.
Qed.
End AnyDeltas.

Lemma runSchedule_length schedule sys :
  length (tasks (runSchedule schedule sys)) = length (tasks sys).
Proof.
  revert sys. induction schedule as [|k schedule IH]; intros sys; [done|].
  simpl. by rewrite IH, stepTask_length.
Qed.

(** X17.  However loss-delta requests for one batch interleave, and at any
    point of the schedule, each stored counter is its initial value plus the
    deltas of exactly those requests whose increment has been applied
    (those past the [$inc], answered 200 or about to be); no applied delta
    is lost and none is counted twice.  [originalCount] never changes, and a
    schedule that gives every request its three turns leaves every request
    answered. *)
Theorem interleaved_deltas_all_land
    farm batchId st i b0 requests schedule :
  Batch_findOne batchId farm st = Some (i, b0) →
  Forall (lossRequest farm batchId) requests →
  let final := runSchedule schedule (arrivals st requests) in
  (∃ b, Batch_findOne batchId farm (store final) = Some (i, b)
        ∧ Batch.originalCount b = Batch.originalCount b0
        ∧ Batch.dead b = Batch.dead b0 + applied c_dead (tasks final)
        ∧ Batch.culled b = Batch.culled b0 + applied c_culled (tasks final)
        ∧ Batch.offlaid b
          = Batch.offlaid b0 + applied c_offlaid (tasks final))
  ∧ fst <$> tasks final = requests
  ∧ ((∀ k, (k < length requests)%nat → (3 ≤ turns k schedule)%nat) →
     Forall (λ qt, ∃ r, qt.2 = Responded r) (tasks final)).
Proof.
  intros Hb Hreqs final.
  assert (Hstart : tracked farm batchId i b0 (arrivals st requests)).
  { split.
    - unfold arrivals. simpl. apply Forall_fmap.
      eapply Forall_impl; [exact Hreqs|]. by intros q Hq.
    - exists b0. rewrite !applied_arrivals. simpl.
      split_and!; (done || lia). }
  destruct (runSchedule_tracked farm batchId i b0 schedule _ Hstart)
    as [_ Hbatch]. fold final in Hbatch.
  assert (Hkeep : ∀ (j : nat) q,
            requests !! j = Some q →
            ∃ t, tasks final !! j = Some (q, t)
                 ∧ (Nat.min 3 (turns j schedule) ≤ stage t)%nat).
  { intros j q Hq.
    assert (Hj0 : tasks (arrivals st requests) !! j = Some (q, Received)).
    { unfold arrivals. simpl. by rewrite list_lookup_fmap, Hq. }
    exact (runSchedule_stage schedule _ j q Received Hj0). }
  assert (Hlen : length (tasks final) = length requests).
  { unfold final. rewrite runSchedule_length. unfold arrivals. simpl.
    apply length_fmap. }
  split_and!; [exact Hbatch| |].
  - apply list_eq. intros j. rewrite list_lookup_fmap.
    destruct (requests !! j) as [q|] eqn:Hq.
    + destruct (Hkeep j q Hq) as (t & -> & _). reflexivity.
    + rewrite (lookup_ge_None_2 (tasks final)); [done|].
      rewrite Hlen. by apply lookup_ge_None.
  - intros Hfair. apply Forall_lookup_2. intros j [q t] Hj.
    assert (Hjlt : (j < length requests)%nat).
    { rewrite <- Hlen. by eapply lookup_lt_Some. }
    destruct (lookup_lt_is_Some_2 requests j Hjlt) as [q0 Hq0].
    destruct (Hkeep j q0 Hq0) as (t' & Hj' & Hstage).
    rewrite Hj in Hj'. assert (t' = t) as -> by congruence.
    specialize (Hfair j Hjlt).
    destruct t as [| | |r]; cbn [stage snd] in *; try lia.
    by exists r.
Qed.

Lemma interleaved_deltas_all_land_witness :
  let final :=
    runSchedule [1; 0; 1; 0; 0; 1]%nat
      (arrivals smallFlock
         [mkRequest demoUser "b1" (mkCounts (Some 60) None None None None)
            "h1";
          mkRequest demoUser "b1" (mkCounts (Some 7) (Some 2) None None None)
            "h2"]) in
  ∃ b, Batch_findOne "b1" "farm1" (store final) = Some (0%nat, b)
       ∧ Batch.dead b = 67 ∧ Batch.culled b = 2.
Proof.
  intros final.
  destruct (proj1 (interleaved_deltas_all_land "farm1" "b1" smallFlock 0%nat
                     (Batch.mk "b1" "farm1" "Layers" 100 0 0 0 false)
                     [mkRequest demoUser "b1"
                        (mkCounts (Some 60) None None None None) "h1";
                      mkRequest demoUser "b1"
                        (mkCounts (Some 7) (Some 2) None None None) "h2"]
                     [1; 0; 1; 0; 0; 1]%nat eq_refl
                     ltac:(repeat constructor; discriminate)))
    as (b & Hb & _ & Hd & Hc & _).
  exists b. split_and!; [exact Hb | rewrite Hd | rewrite Hc]; reflexivity.
Defined.





(** X19.  A loss-delta call whose deltas are all zero is still a call: on a
    batch within its original count it is answered 200, leaves the counters
    as they are and appends a history entry whose [beforeState] and
    [afterState] are equal; on a batch whose recorded losses already exceed
    its original count it is rejected like any other. *)
Theorem zero_delta_is_recorded user farm batchId delta uuid st i b :
  memberOf user farm →
  Batch_findOne batchId farm st = Some (i, b) →
  validDeltas delta = true →
  requested delta = 0 →
  let result := updateBirdCounts user batchId delta uuid st in
  (lossTotal b ≤ Batch.originalCount b →
   status result.2 = 200
   ∧ batches result.1 = batches st
   ∧ ∃ e, history result.1 = history st ++ [e]
          ∧ BirdCountHistory.beforeState e = snapshotOf b
          ∧ BirdCountHistory.afterState e = snapshotOf b
          ∧ BirdCountHistory.dead e = 0 ∧ BirdCountHistory.culled e = 0
          ∧ BirdCountHistory.offlaid e = 0)
  ∧ (lossTotal b > Batch.originalCount b →
     result.1 = st ∧ failure result.2 = Some ConstraintViolation).
Proof.
  intros Hm Hf Hv Hzero result.
  assert (Hparts : orZero (c_dead delta) = 0 ∧ orZero (c_culled delta) = 0
                   ∧ orZero (c_offlaid delta) = 0).
  { unfold validDeltas in Hv. apply andb_prop in Hv as [_ Hv].
    apply negb_true_iff, orb_false_iff in Hv as [Hv Ho].
    apply orb_false_iff in Hv as [Hd Hc].
    assert (Hpos : ∀ d, isNegative d = false → 0 ≤ orZero d).
    { intros [d|] Hx; simpl in *; [|lia].
      apply bool_decide_eq_false_1 in Hx. lia. }
    apply Hpos in Hd, Hc, Ho. unfold requested in Hzero. lia. }
  destruct Hparts as (Hd & Hc & Ho).
  assert (Hsame : incCounts delta b = b).
  { unfold incCounts. rewrite !plusDelta_orZero, Hd, Hc, Ho, !Z.add_0_r.
    by destruct b. }
  split.
  - intros Hinv. unfold result.
    rewrite (updateBirdCounts_accepted user farm batchId Hm delta uuid st i b
               Hv Hf) by lia.
    rewrite Hsame. simpl. split_and!; [done| |].
    + apply list_insert_id. by destruct (Batch_findOne_Some _ _ _ _ _ Hf).
    + eexists. split; [reflexivity|]. simpl. by split_and!.
  - intros Hbroken. unfold result.
    by rewrite (updateBirdCounts_rejected user farm batchId Hm delta uuid st
                  i b Hv Hf) by lia.
Qed.

Lemma zero_delta_is_recorded_witness :
  status (updateBirdCounts demoUser "b1"
            (mkCounts (Some 0) None None None None) "h1" demoLedger).2 = 200
  ∧ batches (updateBirdCounts demoUser "b1"
               (mkCounts (Some 0) None None None None) "h1" demoLedger).1
    = batches demoLedger.
Proof.
  assert (Hm : memberOf demoUser "farm1") by (split; [reflexivity | discriminate]).
  assert (Hf : Batch_findOne "b1" "farm1" demoLedger
               = Some (0%nat, Batch.mk "b1" "farm1" "Layers" 1000 10 5 3 false))
    by (vm_compute; reflexivity).
  assert (Hv : validDeltas (mkCounts (Some 0) None None None None) = true)
    by reflexivity.
  assert (Hz : requested (mkCounts (Some 0) None None None None) = 0)
    by reflexivity.
  destruct (proj1 (zero_delta_is_recorded demoUser "farm1" "b1"
                     (mkCounts (Some 0) None None None None) "h1" demoLedger
                     0%nat _ Hm Hf Hv Hz))
    as (H200 & Hb & _).
  - vm_compute. discriminate.
  - split; [exact H200 | exact Hb].
Defined.

(** X20.  Two accepted allocations of one batch into one house end in a
    single record that holds what the pair held before plus both
    quantities: the second allocation adds to the record the first one left
    and creates none. *)
Theorem repeated_allocation_accumulates
    user batchId houseId q1 q2 uuid1 uuid2 st :
  let first := createBatchAllocation user batchId houseId q1 uuid1 st in
  let second :=
    createBatchAllocation user batchId houseId q2 uuid2 first.1 in
  status first.2 = 201 → status second.2 = 201 →
  ∃ i a,
    Allocation_findOne batchId houseId second.1 = Some (i, a)
    ∧ second.2 = mkResponse 201 (AllocationDoc a)
    ∧ BatchAllocation.quantity a
      = from_option (λ d : nat * BatchAllocation.doc,
                       BatchAllocation.quantity d.2) 0
          (Allocation_findOne batchId houseId st) + q1 + q2
    ∧ BatchAllocation.id a
      = from_option (λ d : nat * BatchAllocation.doc, BatchAllocation.id d.2)
          uuid1 (Allocation_findOne batchId houseId st)
    ∧ length (allocations second.1) = length (allocations first.1).
Proof.
  intros first second H1 H2.
  destruct (createBatchAllocation_outcomes user batchId houseId q1 uuid1 st)
    as [[Hs _]|(f1 & ib1 & b1 & ih1 & h1 & _ & _ & _ & _ & _ & Hr1)].
  { fold first in Hs. lia. }
  fold first in Hr1.
  destruct (createBatchAllocation_outcomes user batchId houseId q2 uuid2
              first.1)
    as [[Hs _]|(f2 & ib2 & b2 & ih2 & h2 & _ & _ & _ & _ & _ & Hr2)].
  { fold second in Hs. lia. }
  fold second in Hr2.
  assert (Hafter : ∃ i a,
            Allocation_findOne batchId houseId first.1 = Some (i, a)
            ∧ BatchAllocation.quantity a
              = from_option (λ d : nat * BatchAllocation.doc,
                               BatchAllocation.quantity d.2) 0
                  (Allocation_findOne batchId houseId st) + q1
            ∧ BatchAllocation.id a
              = from_option (λ d : nat * BatchAllocation.doc,
                               BatchAllocation.id d.2)
                  uuid1 (Allocation_findOne batchId houseId st)).
  { rewrite Hr1.
    destruct (Allocation_findOne batchId houseId st) as [[i a]|] eqn:Ha;
      simpl.
    - exists i, (BatchAllocation.setQuantity (BatchAllocation.quantity a + q1)
                   a).
      split_and!; [|done|done].
      unfold Allocation_findOne in *. simpl.
      apply list_find_insert_found with (x := a); [exact Ha|].
      apply list_find_Some in Ha as (_ & Hp & _). exact Hp.
    - exists (length (allocations st)),
        (BatchAllocation.mk uuid1 batchId houseId q1).
      split_and!; [|simpl; lia|done].
      unfold Allocation_findOne in *. simpl.
      apply list_find_app_Some. right. split_and!; [lia|exact Ha|].
      rewrite Nat.sub_diag. simpl. by rewrite decide_True. }
  destruct Hafter as (i & a & Ha & Hq & Hid).
  rewrite Ha in Hr2. simpl in Hr2.
  exists i, (BatchAllocation.setQuantity (BatchAllocation.quantity a + q2) a).
  rewrite Hr2. simpl. split_and!; [|done|lia|done|apply length_insert].
  unfold Allocation_findOne in *. simpl.
  apply list_find_insert_found with (x := a); [exact Ha|].
  apply list_find_Some in Ha as (_ & Hp & _). exact Hp.
Qed.

Lemma repeated_allocation_accumulates_witness :
  ∃ i a,
    Allocation_findOne "b1" "hB"
      (createBatchAllocation demoUser "b1" "hB" 80 "a3"
         (createBatchAllocation demoUser "b1" "hB" 100 "a2" halfPlaced).1).1
    = Some (i, a)
    ∧ BatchAllocation.quantity a = 0 + 100 + 80
    ∧ BatchAllocation.id a = "a2".
Proof.
  destruct (repeated_allocation_accumulates demoUser "b1" "hB" 100 80
              "a2" "a3" halfPlaced eq_refl eq_refl)
    as (i & a & Ha & _ & Hq & Hid & _).
  by exists i, a.
Defined.
